(* ===== verification/_CoqProject ===== *)
-Q . S2P
Prelude.v
Annotations.v
TestCase.v
ModuleVersion.v
Registry.v
Time.v
Xml.v
Fixtures.v
Output.v
Comparison.v
Verify.v
CompareMeta.v
MetaLoop.v
Compare.v
Merge.v
Edit.v
Codec.v
Files.v
Cli.v
Workflow.v
