(* ===== verification/Prelude.v ===== *)
(** * A verification development of the XIT bug registry

    The program is src/registry/xit.py (Python 2), the command-line
    "bug registry" of the X.Org integration tests.  A registry records,
    for every test case (suite, name), the expected outcome and its
    annotations (known bugs, fixes, informative notes), together with a
    name, a date and the versions of the modules tested.  The commands
    [list], [info], [verify] (a JUnit run against a registry),
    [compare] (two registries), [create] (a registry from a run),
    [merge --add], [edit ...] and [meta ...] read registries, compute,
    and print a report or write a registry back.

    ** Files, and the parts of xit.py they model
    - Prelude.v (this file): Python's exceptions as the error monad
      [res] ([Ok]/[Raise]) with [try ... except]; Python 2's three-way
      [cmp] on [str] ([String.compare]), tuples and bools (classes
      [PyCmp]/[PyOrd]); [sorted] as stdpp's stable [merge_sort]
      ([py_sorted]); [==], [in] and [list.remove] ([PyEq], [py_in],
      [py_remove]); the list, sorting and option lemmas the components
      share, and the hint databases [xit] and [xit_rw].
    - Annotations.v: [XITBug], [XITFix] (git/rpm) and [XITInfo]
      (text/url), their [__eq__], [__cmp__], [createFromType] and
      [__str__] (Modules [Bug], [Fix], [Info]).
    - TestCase.v: [str2bool]; the interface [XITTestCase] (a class with
      the instances of [XITTest] and [JUnitTestResult]); Module [Test]
      ([XITTest], its add/remove/get methods, [__str__]) and Module
      [JUnit].
    - ModuleVersion.v: Module [ModVer], [XITModuleVersion], and the
      two queries of the installed rpm, with [subprocess.Popen] as a
      [shell] function and [returncode] [None] until [wait()].
    - Registry.v: Module [Reg], [XITTestRegistry] with its dictionary
      of dictionaries as nested [gmap]s, [_from_list], [listTestNames],
      [getTest], [addTest]; the invariant [registry_wf] and its
      boolean check [registry_wfb].
    - Time.v: Module [Time], Python 2.7's [time.strftime] and
      [time.strptime] on the format "%Y-%m-%d" the registry file uses
      for its date ([accept2dyear], the field ranges, the format's
      regular expression with backtracking, [datetime.date]'s
      validity).
    - Xml.v: Module [ET], the [lxml.objectify] element tree xit.py
      builds and walks ([ElementMaker], [set], [append],
      [iterchildren], [find], [attrib], [text]) and [xmlns_tag].
    - Fixtures.v: concrete registries and runs (the specification's
      scenarios) the witnesses evaluate on.
    - Output.v: a printed line as its colour ([termcolors]), format and
      fields; [print_modversions].
    - Comparison.v: the specification's comparison engine (section
      4.1), a sorted merge-join [merge_join] with its events, as a
      reference definition, with its order, soundness and the views
      [right_view]/[left_view] that relate it to per-element lookups.
    - Verify.v: [verify_one_result], [check_installed_rpms],
      [verify_results], [list_tests], [show_test_info].
    - CompareMeta.v: the iterator loop of [compare_meta], as the
      recursive function [meta_loop].
    - MetaLoop.v: Module [MetaLoop], the same [while True] loop as a
      state machine: one pass of its body ([loop_body]) and the passes
      until [StopIteration] ([loop_steps], an inductive relation).
    - Compare.v: [compare_meta], [compare_registry], [find_reg],
      [compare_registries].
    - Merge.v: [merge_add_registries] and [create_registry].
    - Edit.v: the [edit] commands (one shape, [edit_test]: look up,
      exit 1 if missing, change the test object in place),
      [set_status], [set_date], [set_modversion],
      [load_registry_from_file].
    - Codec.v: Module [Codec], [XITTestRegistry.toXML] and [fromXML]
      and [JUnitTestResult.fromXML] on element trees, and [edit_file],
      an [edit] or [meta] command from the file it reads to the tree
      it writes.
    - Files.v: Module [Files], the write-back of a registry
      ([open_new_registry], [write_to_registry], [sync_registry],
      [registry_from_string]) on a world of files and standard output,
      and [run_edit], a whole [edit] or [meta] run from its input to
      the worlds it goes through.
    - Cli.v: Module [Cli], the command line: the arguments
      [parse_cmdline] declares, as the value [argparse] returns (one
      constructor per subcommand), every command function of
      [XITTestRegistryCLI] from the files it reads to what it prints,
      logs and writes, and [run]'s dispatch ([args.func(args)]).
    - Workflow.v: commands used together, as the usage notes at the
      top of xit.py describe them: [create] then [verify].

    State is passed explicitly: a command takes the registry (and the
    run, or the shell) and returns [res] of what it prints or of the
    registry it writes.  The in-place mutation of a test object that
    [getTest] returned is modelled by writing the changed test back at
    [tests[suite][name]] ([Reg.store_test]), the state the aliasing
    produces.  Loops are structural recursions over the lists they
    walk ([mapM], [foldl], [Fixpoint]s): every model function is total
    and, but for [Time.decimal] (see Bounds), needs no fuel, and the
    witnesses evaluate them by [vm_compute].

    ** What is proved
    - Refinement against the specification's engine: [verify] prints
      the events of the merge-join of the registry's tests and the
      sorted run, except those of tests absent from the run
      (Verify.verify_results_refines); [compare_registry] prints those
      of the two registries' tests except the tests of the second only
      (Compare.compare_registry_refines) and raises [AttributeError] as
      soon as a test of the first is missing from the second; the
      [compare_meta] loop prints the engine's rows but drops exactly
      one when the largest module version of the first registry is not
      in the second (CompareMeta.compare_meta_refines), and never pairs
      two versions of one module (scenario 3).
    - Functional behaviour of the registry operations: [addTest] is an
      upsert, [listTestNames] lists every test once in order, [merge
      --add] keeps the first registry's tests and adds exactly the
      missing keys, [create] makes one test per result, an edit changes
      exactly the named test, [set-status] accepts exactly four
      lower-case words, [set-module-version] never removes a record.
    - Invariants: the registry invariant (tests filed under their own
      key, annotation lists without [==]-duplicates) holds for built
      registries and is kept by every edit; annotation adds are
      idempotent, removes of absent values are no-ops, add then remove
      is the identity; every registry [fromXML] reads, from any file,
      satisfies the invariant (Codec.fromXML_wf).
    - Round trips: a registry written by [toXML] and read back by
      [fromXML] is one registry, the same up to what the encoding
      normalises (Codec.toXML_fromXML: date at midnight, module
      versions and annotations sorted, a fix's [type] among its
      attributes), and the normalisation is visible in [info]
      (Codec.toXML_fromXML_not_identity); the date written is read
      back (Time.strftime_strptime).
    - Equivalence: [JUnitTestResult.fromXML] is the one-pass reader of
      the run encoding (Codec.JUnit_fromXML_reference).
    - Liveness and termination: the [while True] loop of
      [compare_meta], run pass by pass, always leaves by
      [StopIteration] after at most [n + m + 1] passes, in the state
      [meta_loop] computes (MetaLoop.meta_loop_stops); the fuel of the
      [%Y] printer never runs out, it gives the digits a fuel-free
      definition by well-founded recursion gives
      (Time.decimal_terminates).
    - Composition: the run a registry was created from verifies with
      every test as expected, [++] or [--] in key order
      (Workflow.create_then_verify).
    - Error paths: [str2bool]'s [ValueError], [str(test)]'s
      [AttributeError] for an rpm fix, [--check-all]'s
      [CalledProcessError(None)], exit status 1 on an unknown test or
      registry, [set-date] with a year from 100 to 1899
      (Codec.set_date_before_1900_raises; Time.strftime_before_1900
      for the years 1 to 99, written as another year); an edit of a
      file holding several registries writes one back
      (Codec.edit_file_one_registry).
    - The write-back: a run on the file [-f] names empties the file
      before writing the new text (Files.run_edit_file_states, against
      the replace-on-success discipline of the specification's section
      5); a run on standard input prints and changes no file
      (Files.run_edit_stdin).
    - The command line: a run of any command changes no file but the
      one [-f] names (Cli.run_changes_only_file); the report commands
      write nothing and every other command ends with the text of
      exactly one registry in that file or on standard output
      (Cli.run_writes_one_registry); [merge] on a file without a
      registry raises [IndexError] where the other commands exit with
      status 1 (Cli.merge_empty_registry_raises); [create] names the
      registry after its results file (Cli.default_reg_name_stem).

    ** Bounds
    No definition needs fuel but [Time.decimal], the year printed by
    [%Y], whose fuel is one more than the number of bits of the year,
    at least its number of digits: Time.decimal_terminates proves it
    enough for every year, against [decimal_digits], defined with
    Equations by well-founded recursion on the year.  The date theorems assume a year of
    four digits from 1900 on, the years [time.localtime] returns.

    ** Not modelled
    The parsing of the strings of [argv] by [argparse] (a library: the
    model starts from the value it returns), the messages [logging]
    writes on standard error other than [compare]'s, the operating system's
    files beyond a map from path to text (the chunks [copyfileobj]
    copies and the buffering of the file object are one step), the
    text form of the XML files and the terminal escape codes.  The
    readers and writers work on the element trees lxml parses and
    prints; a tree is taken to be read back as written, and an element
    without text, [None] in Python, is read as the empty string the
    model's string fields hold.  [time.localtime] is an input.  A
    command that raises after printing is modelled by its exception
    only. *)

From stdpp Require Export base list gmap strings sorting pretty.
From Stdlib Require Export Ascii String ZArith.

Declare Scope xit_scope.
Delimit Scope xit_scope with xit.

(* ------------------------------------------------------------------ *)
(** ** Python exceptions and the error monad *)

(** The exceptions the registry raises or lets escape.  [SystemExit]
    is [sys.exit(code)]; [CalledProcessError] carries the
    [returncode] attribute of the [Popen] object, [None] while the
    process has not been waited for.  [TypeError] is raised by
    [time.strptime] on a missing text ([None]), [IOError] by [open] on
    a file that does not exist, [IndexError] by [l[0]] on an empty
    list. *)
Inductive pyexc : Type :=
| ValueError
| KeyError
| TypeError
| IOError
| IndexError
| AttributeError
| NotImplementedError
| CalledProcessError (returncode : option Z)
| SystemExit (code : Z).

#[export] Instance pyexc_eq_dec : EqDecision pyexc.
Proof. solve_decision. Defined.

(** A computation that returns a value or raises. *)
Inductive res (A : Type) : Type :=
| Ok (a : A)
| Raise (e : pyexc).
Arguments Ok {A} a.
Arguments Raise {A} e.

#[export] Instance res_ret : MRet res := λ A a, Ok a.
#[export] Instance res_bind : MBind res :=
  λ A B f c, match c with Ok a => f a | Raise e => Raise e end.
#[export] Instance res_fmap : FMap res :=
  λ A B f c, match c with Ok a => Ok (f a) | Raise e => Raise e end.

(** [try: c  except e: h] *)
Definition try_except {A} (c : res A) (e : pyexc) (h : res A) : res A :=
  match c with
  | Raise e' => if decide (e' = e) then h else c
  | Ok _ => c
  end.

Notation "'try' c 'except' e '=>' h" := (try_except c e h)
  (at level 10, c at level 100, e at level 0, h at level 200) : xit_scope.

Definition is_ok {A} (c : res A) : bool :=
  match c with Ok _ => true | Raise _ => false end.

(* ------------------------------------------------------------------ *)
(** ** Python's three-way [cmp] *)

(** [rc = cmp(a, b); if rc == 0: rc = cmp(c, d)], the shape of every
    [__cmp__] method of xit.py. *)
Definition cmp_then (rc : comparison) (k : comparison) : comparison :=
  match rc with Eq => k | _ => rc end.

Infix "<?>" := cmp_then (at level 40, left associativity) : xit_scope.

Class PyCmp (A : Type) := py_cmp : A → A → comparison.

(** The contract a comparator must meet for [sorted] and the merge
    loop of [compare_meta] to behave: a strict total order whose
    [Eq] is equality. *)
Class PyOrd (A : Type) `{!PyCmp A} : Prop := {
  py_cmp_eq x y : py_cmp x y = Eq → x = y;
  py_cmp_antisym x y : py_cmp x y = CompOpp (py_cmp y x);
  py_cmp_lt_trans x y z : py_cmp x y = Lt → py_cmp y z = Lt → py_cmp x z = Lt
}.

Open Scope xit_scope.

(** Python 2 compares [str] byte by byte, which is [String.compare]. *)
#[export] Instance string_py_cmp : PyCmp string := String.compare.

#[export] Instance prod_py_cmp {A B} `{!PyCmp A, !PyCmp B} : PyCmp (A * B) :=
  λ p q, py_cmp p.1 q.1 <?> py_cmp p.2 q.2.

Lemma string_compare_refl (s : string) : String.compare s s = Eq.
Proof.
  induction s as [|a s IH]; simpl; [done|].
  unfold Ascii.compare. by rewrite N.compare_refl.
Qed.

Lemma ascii_compare_lt_trans a1 a2 a3 :
  Ascii.compare a1 a2 = Lt → Ascii.compare a2 a3 = Lt → Ascii.compare a1 a3 = Lt.
Proof. unfold Ascii.compare. rewrite !N.compare_lt_iff. lia. Qed.

Lemma ascii_compare_refl a : Ascii.compare a a = Eq.
Proof. unfold Ascii.compare. apply N.compare_refl. Qed.

Lemma string_compare_lt_trans (s1 s2 s3 : string) :
  String.compare s1 s2 = Lt → String.compare s2 s3 = Lt →
  String.compare s1 s3 = Lt.
Proof.
  revert s2 s3. induction s1 as [|a1 s1 IH]; intros [|a2 s2] [|a3 s3];
    simpl; try done.
  destruct (Ascii.compare a1 a2) eqn:H12; try done;
  destruct (Ascii.compare a2 a3) eqn:H23; try done; intros H1 H2.
  - apply Ascii.compare_eq_iff in H12, H23. subst.
    rewrite ascii_compare_refl. eauto.
  - apply Ascii.compare_eq_iff in H12. subst. by rewrite H23.
  - apply Ascii.compare_eq_iff in H23. subst. by rewrite H12.
  - by rewrite (ascii_compare_lt_trans _ _ _ H12 H23).
Qed.

#[export] Instance string_py_ord : PyOrd string.
Proof.
  split.
  - apply String.compare_eq_iff.
  - apply String.compare_antisym.
  - apply string_compare_lt_trans.
Qed.

(** Python 2 orders [False] before [True]. *)
#[export] Instance bool_py_cmp : PyCmp bool :=
  λ a b, match a, b with
         | false, true => Lt
         | true, false => Gt
         | _, _ => Eq
         end.

#[export] Instance bool_py_ord : PyOrd bool.
Proof.
  split; [intros [] [] H; by inversion H | by intros [] [] |].
  intros [] [] [] H1 H2; by inversion H1 || by inversion H2.
Qed.

Section py_ord_facts.
Context {A : Type} `{PyOrd A}.

Lemma py_cmp_refl x : py_cmp x x = Eq.
Proof. pose proof (py_cmp_antisym x x). by destruct (py_cmp x x). Qed.

Lemma py_cmp_eq_iff x y : py_cmp x y = Eq ↔ x = y.
Proof. split; [apply py_cmp_eq | intros ->; apply py_cmp_refl]. Qed.

Lemma py_cmp_gt_lt x y : py_cmp x y = Gt ↔ py_cmp y x = Lt.
Proof. rewrite py_cmp_antisym. by destruct (py_cmp y x). Qed.

Lemma py_cmp_le_trans x y z :
  py_cmp x y ≠ Gt → py_cmp y z ≠ Gt → py_cmp x z ≠ Gt.
Proof.
  destruct (py_cmp x y) eqn:Hxy; [apply py_cmp_eq in Hxy as ->; done| |done].
  destruct (py_cmp y z) eqn:Hyz; [apply py_cmp_eq in Hyz as ->; by rewrite Hxy| |done].
  by rewrite (py_cmp_lt_trans _ _ _ Hxy Hyz).
Qed.
End py_ord_facts.

#[export] Instance prod_py_ord {A B} `{PyOrd A, PyOrd B} : PyOrd (A * B).
Proof.
  split; unfold py_cmp, prod_py_cmp, cmp_then.
  - intros [a1 b1] [a2 b2]; simpl.
    destruct (py_cmp a1 a2) eqn:Ha; try done.
    intros Hb. by rewrite (py_cmp_eq _ _ Ha), (py_cmp_eq _ _ Hb).
  - intros [a1 b1] [a2 b2]; simpl.
    rewrite (py_cmp_antisym a1 a2), (py_cmp_antisym b1 b2).
    by destruct (py_cmp a2 a1).
  - intros [a1 b1] [a2 b2] [a3 b3]; simpl.
    destruct (py_cmp a1 a2) eqn:H12; try done;
    destruct (py_cmp a2 a3) eqn:H23; try done; intros Hl Hr.
    + apply py_cmp_eq in H12, H23; subst. rewrite py_cmp_refl.
      eauto using py_cmp_lt_trans.
    + apply py_cmp_eq in H12; subst. by rewrite H23.
    + apply py_cmp_eq in H23; subst. by rewrite H12.
    + by rewrite (py_cmp_lt_trans _ _ _ H12 H23).
Qed.

(** A loop over a list whose body never raises. *)
Lemma mapM_Ok {A B} (f : A → res B) (g : A → B) (l : list A) :
  (∀ x, x ∈ l → f x = Ok (g x)) → mapM f l = Ok (g <$> l).
Proof.
  induction l as [|x l IH]; intros Hf; [done|]. simpl.
  rewrite (Hf x) by (by apply elem_of_cons; left). simpl.
  rewrite IH; [done|]. intros y Hy. apply Hf. by apply elem_of_cons; right.
Qed.

Lemma mapM_fmap {A B C} (f : B → res C) (g : A → B) (l : list A) :
  mapM f (g <$> l) = mapM (f ∘ g) l.
Proof. induction l as [|x l IH]; [done|]. rewrite fmap_cons. cbn [mapM]. by rewrite IH. Qed.

(** A loop whose body raises only [e] raises [e] when one iteration
    does. *)
Lemma mapM_Raise {A B} (f : A → res B) (l : list A) e :
  (∃ x, x ∈ l ∧ f x = Raise e) →
  (∀ x, x ∈ l → f x = Raise e ∨ is_ok (f x) = true) →
  mapM f l = Raise e.
Proof.
  induction l as [|x l IH]; [set_solver|]. intros (y & Hy & Hfy) Hall. simpl.
  destruct (Hall x) as [->|Hok]; [by apply elem_of_cons; left|done|].
  destruct (f x) as [b|] eqn:Ex; [|done]. simpl.
  apply elem_of_cons in Hy as [->|Hy]; [congruence|].
  rewrite IH; [done|eauto|]. intros z Hz. apply Hall. by apply elem_of_cons; right.
Qed.

(** A [for] loop that updates one value and may raise. *)
Fixpoint foldM {A B} (f : A → B → res A) (a : A) (l : list B) : res A :=
  match l with
  | [] => Ok a
  | x :: l' => a' ← f a x; foldM f a' l'
  end.

Lemma foldM_Ok {A B} (f : A → B → res A) (g : A → B → A) (a : A) (l : list B) :
  (∀ a x, x ∈ l → f a x = Ok (g a x)) → foldM f a l = Ok (foldl g a l).
Proof.
  revert a. induction l as [|x l IH]; intros a Hf; [done|]. simpl.
  rewrite Hf by set_solver. apply IH. intros. apply Hf. set_solver.
Qed.

Lemma foldM_fmap {A B C} (f : A → C → res A) (g : B → C) (a : A) (l : list B) :
  foldM f a (g <$> l) = foldM (λ a x, f a (g x)) a l.
Proof.
  revert a. induction l as [|x l IH]; intros a; [done|]. rewrite fmap_cons. cbn [foldM].
  destruct (f a (g x)); [apply IH|done].
Qed.

(** [max(l)] on a list of lengths: [ValueError] on an empty list. *)
Definition py_max (l : list nat) : res nat :=
  match l with
  | [] => Raise ValueError
  | x :: l' => Ok (foldl Nat.max x l')
  end.

(* ------------------------------------------------------------------ *)
(** ** [sorted(l)] *)

(** Python's [sorted] with a [__cmp__]: a stable sort that puts [x]
    before [y] when [cmp(x, y) <= 0].  stdpp's [merge_sort] is such a
    stable sort, so it computes what [sorted] returns. *)
Definition py_le {A} (c : A → A → comparison) (x y : A) : Prop := c x y ≠ Gt.

#[export] Instance py_le_dec {A} (c : A → A → comparison) x y :
  Decision (py_le c x y).
Proof. unfold py_le. apply _. Defined.

Definition py_sorted {A} (c : A → A → comparison) (l : list A) : list A :=
  merge_sort (py_le c) l.

(** A comparator on [A] that compares a key in a [PyOrd] type: every
    [__cmp__] of xit.py is of this kind. *)
Definition cmp_by {A K} `{PyCmp K} (key : A → K) : A → A → comparison :=
  λ x y, py_cmp (key x) (key y).

Lemma StronglySorted_weaken {A} (R1 R2 : relation A) (l : list A) :
  (∀ x y, R1 x y → R2 x y) → StronglySorted R1 l → StronglySorted R2 l.
Proof.
  intros HR. induction 1; constructor; [done|]. eapply Forall_impl; [eassumption|]. exact (HR _).
Qed.

(** [sorted] permutes its argument, whatever the comparison. *)
Lemma py_sorted_perm {A} (c : A → A → comparison) (l : list A) : py_sorted c l ≡ₚ l.
Proof. apply merge_sort_Permutation. Qed.

Lemma foldl_fmap_l {A B C} (f : A → C → A) (g : B → C) (a : A) (l : list B) :
  foldl f a (g <$> l) = foldl (λ a x, f a (g x)) a l.
Proof. revert a. induction l as [|x l IH]; intros a; [done|]. apply IH. Qed.

Section py_sorted.
Context {A K : Type} `{PyOrd K} (key : A → K).
Abbreviation c := (cmp_by key).

#[local] Instance py_le_total : Total (py_le c).
Proof.
  intros x y. unfold py_le, cmp_by. rewrite (py_cmp_antisym (key y)).
  destruct (py_cmp (key x) (key y)); simpl; auto; by right.
Qed.

#[local] Instance py_le_trans : Transitive (py_le c).
Proof. intros x y z. apply py_cmp_le_trans. Qed.

Lemma py_sorted_Permutation l : py_sorted c l ≡ₚ l.
Proof. apply merge_sort_Permutation. Qed.

Lemma py_sorted_StronglySorted l : StronglySorted (py_le c) (py_sorted c l).
Proof. apply StronglySorted_merge_sort; apply _. Qed.

Lemma py_sorted_elem_of x l : x ∈ py_sorted c l ↔ x ∈ l.
Proof. by rewrite py_sorted_Permutation. Qed.

(** With pairwise distinct keys the result is strictly increasing. *)
Lemma py_sorted_strict l :
  NoDup (key <$> l) → StronglySorted (λ x y, c x y = Lt) (py_sorted c l).
Proof.
  rewrite <-(py_sorted_Permutation l) at 1.
  generalize (py_sorted_StronglySorted l).
  induction 1 as [|x l' _ IH Hx]; intros Hnd; constructor.
  - apply IH. simpl in Hnd. by apply NoDup_cons in Hnd as [_ ?].
  - simpl in Hnd. apply NoDup_cons in Hnd as [Hnin _].
    rewrite Forall_forall in Hx |- *. intros y Hy.
    specialize (Hx y Hy). unfold py_le, cmp_by in *.
    destruct (py_cmp (key x) (key y)) eqn:E; try done.
    apply py_cmp_eq in E. destruct Hnin. rewrite E.
    by apply list_elem_of_fmap_2.
Qed.

(** The same, stated on the keys. *)
Lemma py_sorted_keys_strict l :
  NoDup (key <$> l) →
  StronglySorted (λ a b, py_cmp a b = Lt) (key <$> py_sorted c l).
Proof.
  intros Hnd. eapply StronglySorted_fmap; [|by apply py_sorted_strict].
  by intros x y.
Qed.

(** Sorting two permutations of one list with distinct keys gives
    the same list. *)
Lemma py_sorted_perm_eq l1 l2 :
  NoDup (key <$> l1) → l1 ≡ₚ l2 → py_sorted c l1 = py_sorted c l2.
Proof.
  intros Hnd Hp. apply (StronglySorted_unique_strong (py_le c));
    [| apply py_sorted_StronglySorted..
     | by rewrite !py_sorted_Permutation].
  intros x1 x2 Hx1 Hx2 H12 H21. rewrite py_sorted_elem_of in Hx1.
  rewrite py_sorted_elem_of, <-Hp in Hx2.
  unfold py_le, cmp_by in *. rewrite py_cmp_antisym in H21.
  destruct (py_cmp (key x1) (key x2)) eqn:E; try done.
  apply py_cmp_eq in E. clear -Hnd Hx1 Hx2 E.
  induction l1 as [|y l IH]; [set_solver|].
  simpl in Hnd. apply NoDup_cons in Hnd as [Hy Hnd].
  apply elem_of_cons in Hx1 as [->|Hx1], Hx2 as [->|Hx2]; auto.
  - destruct Hy. rewrite E. by apply list_elem_of_fmap_2.
  - destruct Hy. rewrite <-E. by apply list_elem_of_fmap_2.
Qed.

(** Elements of a strictly sorted list are determined by their key. *)
Lemma strict_sorted_key_inj l x1 x2 :
  StronglySorted (λ x y, c x y = Lt) l → x1 ∈ l → x2 ∈ l → key x1 = key x2 → x1 = x2.
Proof.
  induction 1 as [|y l _ IH Hy]; [set_solver|].
  rewrite Forall_forall in Hy. unfold cmp_by in Hy.
  intros [->|H1]%elem_of_cons [->|H2]%elem_of_cons Hk; auto.
  - specialize (Hy _ H2). by rewrite Hk, py_cmp_refl in Hy.
  - specialize (Hy _ H1). by rewrite Hk, py_cmp_refl in Hy.
Qed.

(** [sorted] leaves a strictly sorted list as it is. *)
Lemma py_sorted_id l : StronglySorted (λ x y, c x y = Lt) l → py_sorted c l = l.
Proof.
  intros Hl. apply (StronglySorted_unique_strong (py_le c));
    [| apply py_sorted_StronglySorted
     | eapply StronglySorted_weaken; [|exact Hl]; intros x y Hxy; unfold py_le; by rewrite Hxy
     | apply py_sorted_Permutation].
  intros x1 x2 Hx1 Hx2 H12 H21. rewrite py_sorted_elem_of in Hx1.
  apply (strict_sorted_key_inj l); [done..|].
  unfold py_le, cmp_by in *. rewrite py_cmp_antisym in H21.
  apply py_cmp_eq. by destruct (py_cmp (key x1) (key x2)).
Qed.
End py_sorted.

(** A nested [for] loop that appends in order: its output is sorted
    when the outer list is, each inner block is, and every element of
    an earlier block comes before every element of a later one. *)
Lemma StronglySorted_bind {A B} (Ra : relation A) (R : relation B)
    (f : A → list B) (l : list A) :
  StronglySorted Ra l → (∀ a, a ∈ l → StronglySorted R (f a)) →
  (∀ a1 a2 b1 b2, Ra a1 a2 → b1 ∈ f a1 → b2 ∈ f a2 → R b1 b2) →
  StronglySorted R (l ≫= f).
Proof.
  intros Hl Hf Hx. induction Hl as [|a l _ IH Ha]; [constructor|].
  rewrite bind_cons. apply StronglySorted_app. split_and!.
  - intros b1 b2 Hb1 (a2 & Hb2 & Ha2)%list_elem_of_bind.
    eapply Hx; [|done..]. by eapply Forall_forall.
  - apply Hf, elem_of_cons; auto.
  - apply IH. intros a' Ha'. apply Hf, elem_of_cons; auto.
Qed.

(** Sortedness of the images gives sortedness by the images. *)
Lemma StronglySorted_fmap_inv {A B} (R : relation B) (f : A → B) (l : list A) :
  StronglySorted R (f <$> l) → StronglySorted (λ x y, R (f x) (f y)) l.
Proof.
  induction l as [|x l IH]; simpl; intros Hs; constructor; inversion Hs as [|? ? Hl Hx]; subst.
  - by apply IH.
  - apply Forall_forall. intros y Hy. eapply Forall_forall in Hx; [done|].
    by apply list_elem_of_fmap_2.
Qed.

Lemma fmap_bind_distr {A B C} (g : B → C) (f : A → list B) (l : list A) :
  g <$> (l ≫= f) = l ≫= (λ x, g <$> f x).
Proof. induction l as [|x l IH]; [done|]. by rewrite !bind_cons, fmap_app, IH. Qed.

Lemma foldl_bind {A B C} (f : A → C → A) (g : B → list C) (l : list B) (a : A) :
  foldl f a (l ≫= g) = foldl (λ a x, foldl f a (g x)) a l.
Proof.
  revert a. induction l as [|x l IH]; intros a; [done|].
  rewrite bind_cons, foldl_app. apply IH.
Qed.

Lemma bind_Permutation_pointwise {A B} (f g : A → list B) (l : list A) :
  (∀ x, x ∈ l → f x ≡ₚ g x) → l ≫= f ≡ₚ l ≫= g.
Proof.
  induction l as [|x l IH]; intros Hfg; [done|]. rewrite !bind_cons.
  apply Permutation_app; [apply Hfg; by apply elem_of_cons; left|].
  apply IH. intros y Hy. apply Hfg. by apply elem_of_cons; right.
Qed.

Lemma bind_ext_in {A B} (f g : A → list B) (l : list A) :
  (∀ x, x ∈ l → f x = g x) → l ≫= f = l ≫= g.
Proof. intros Hfg. apply Forall_bind_ext, Forall_forall, Hfg. Qed.

(* ------------------------------------------------------------------ *)
(** ** [x in l] and [l.remove(x)] *)

(** Python's [==] on a class: [__eq__] where the class defines one,
    otherwise [__cmp__ == 0].  It is an equivalence on the annotation
    classes of xit.py, coarser than equality for [XITFix] (the
    [extra_args] are ignored). *)
Class PyEq (A : Type) := py_eq : A → A → bool.

Class PyEqLaws (A : Type) `{!PyEq A} : Prop := {
  py_eq_refl x : py_eq x x = true;
  py_eq_sym x y : py_eq x y = py_eq y x;
  py_eq_trans x y z : py_eq x y = true → py_eq y z = true → py_eq x z = true
}.

(** [x in l]: some element of [l] is [==] to [x]. *)
Definition py_in {A} `{PyEq A} (x : A) (l : list A) : bool := existsb (py_eq x) l.

(** [l.remove(x)]: delete the first element [==] to [x], or raise
    [ValueError]. *)
Fixpoint py_remove {A} `{PyEq A} (x : A) (l : list A) : res (list A) :=
  match l with
  | [] => Raise ValueError
  | y :: l' => if py_eq x y then Ok l' else (y ::.) <$> py_remove x l'
  end.

(** No two elements of the list are [==]: the invariant the
    [add*]/[remove*] methods of [XITTest] keep. *)
Fixpoint py_nodup {A} `{PyEq A} (l : list A) : bool :=
  match l with
  | [] => true
  | x :: l' => negb (py_in x l') && py_nodup l'
  end.

Section py_list.
Context {A : Type} `{PyEqLaws A}.
Implicit Types (x y : A) (l : list A).

Lemma py_in_app x l1 l2 : py_in x (l1 ++ l2) = py_in x l1 || py_in x l2.
Proof. apply existsb_app. Qed.

Lemma py_in_snoc_self x l : py_in x (l ++ [x]) = true.
Proof. rewrite py_in_app. simpl. by rewrite py_eq_refl, orb_true_r. Qed.

Lemma py_in_true x l : py_in x l = true ↔ ∃ y, y ∈ l ∧ py_eq x y = true.
Proof. unfold py_in. rewrite existsb_exists. by setoid_rewrite list_elem_of_In. Qed.

Lemma py_in_eq x y l : py_eq x y = true → py_in x l = py_in y l.
Proof.
  intros Hxy. apply eq_bool_prop_intro. rewrite !Is_true_true, !py_in_true.
  split; intros (z & Hz & E); exists z; split; try done;
    eapply py_eq_trans; eauto; by rewrite py_eq_sym.
Qed.

Lemma py_remove_not_in x l : py_in x l = false → py_remove x l = Raise ValueError.
Proof.
  induction l as [|y l IH]; simpl; [done|].
  destruct (py_eq x y); simpl; [done|]. intros Hl. by rewrite IH.
Qed.

Lemma py_remove_in x l :
  py_in x l = true → ∃ l1 y l2, l = l1 ++ y :: l2 ∧ py_eq x y = true ∧
    py_in x l1 = false ∧ py_remove x l = Ok (l1 ++ l2).
Proof.
  induction l as [|y l IH]; simpl; [done|].
  destruct (py_eq x y) eqn:E; simpl.
  - intros _. by exists [], y, l.
  - intros (l1 & z & l2 & -> & Ez & Hl1 & ->)%IH.
    exists (y :: l1), z, l2. simpl. by rewrite E, Hl1.
Qed.

(** Removing from a duplicate-free list leaves no element [==] to [x]. *)
Lemma py_remove_nodup x l l' :
  py_nodup l = true → py_remove x l = Ok l' →
  py_nodup l' = true ∧ py_in x l' = false.
Proof.
  revert l'. induction l as [|y l IH]; intros l'; simpl; [done|].
  intros [Hy Hl]%andb_prop.
  destruct (py_eq x y) eqn:E.
  - intros [= <-]. split; [done|]. rewrite (py_in_eq x y l E).
    by apply negb_true_iff.
  - destruct (py_remove x l) as [l''|] eqn:Hr; simpl; [|done]. intros [= <-].
    destruct (IH l'' Hl eq_refl) as [IH1 IH2]. simpl.
    rewrite IH1, IH2, E, andb_true_r. split; [|done].
    apply negb_true_iff. apply negb_true_iff in Hy.
    destruct (py_remove_in x l) as (l1 & z & l2 & -> & _ & _ & Hr');
      [by apply not_false_is_true; intros Hn; rewrite py_remove_not_in in Hr|].
    rewrite Hr in Hr'. injection Hr' as ->.
    rewrite py_in_app in Hy |- *. simpl in Hy. apply orb_false_iff in Hy as [-> Hy].
    by apply orb_false_iff in Hy as [_ ->].
Qed.

Lemma py_nodup_snoc x l :
  py_in x l = false → py_nodup l = true → py_nodup (l ++ [x]) = true.
Proof.
  induction l as [|y l IH]; simpl; [done|].
  intros [Hxy Hx]%orb_false_iff [Hy Hl]%andb_prop.
  rewrite IH by done. rewrite py_in_app. simpl.
  rewrite py_eq_sym, Hxy. apply negb_true_iff in Hy. by rewrite Hy.
Qed.

Lemma py_remove_snoc x y l :
  py_in x l = false → py_eq x y = true → py_remove x (l ++ [y]) = Ok l.
Proof.
  induction l as [|z l IH]; simpl; [by intros _ ->|].
  intros [-> Hl]%orb_false_iff Hxy. by rewrite IH.
Qed.

(** [if not x in l: l.append(x)], the body of the [add*] methods. *)
Definition py_add x l : list A := if py_in x l then l else l ++ [x].

Lemma py_in_Permutation x l1 l2 : l1 ≡ₚ l2 → py_in x l1 = py_in x l2.
Proof.
  intros HP. apply eq_bool_prop_intro. rewrite !Is_true_true, !py_in_true.
  by setoid_rewrite HP.
Qed.

Lemma py_nodup_Permutation l1 l2 : l1 ≡ₚ l2 → py_nodup l1 = py_nodup l2.
Proof.
  induction 1 as [|x l1 l2 HP IH|x y l|l1 l2 l3 _ IH1 _ IH2]; simpl.
  - done.
  - by rewrite (py_in_Permutation x l1 l2 HP), IH.
  - unfold py_in; simpl. rewrite (py_eq_sym y x).
    by destruct (py_eq x y), (existsb (py_eq x) l), (existsb (py_eq y) l), (py_nodup l).
  - congruence.
Qed.

(** A map that keeps [==] keeps a list duplicate-free. *)
Lemma py_nodup_fmap (g : A → A) l :
  (∀ x y, py_eq (g x) (g y) = py_eq x y) → py_nodup (g <$> l) = py_nodup l.
Proof.
  intros Hg. induction l as [|x l IH]; [done|]. rewrite fmap_cons. cbn [py_nodup].
  rewrite IH. f_equal. f_equal. clear IH.
  induction l as [|y l IH]; [done|]. rewrite fmap_cons. unfold py_in in *. cbn [existsb].
  by rewrite Hg, IH.
Qed.

(** Adding the elements of a list one by one to a list they are new
    to appends them all. *)
Lemma foldl_py_add acc l :
  py_nodup (acc ++ l) = true → foldl (λ a x, py_add x a) acc l = acc ++ l.
Proof.
  revert acc. induction l as [|x l IH]; intros acc Hnd; cbn [foldl]; [by rewrite app_nil_r|].
  assert (py_in x acc = false) as Hx.
  { rewrite (py_nodup_Permutation _ (x :: acc ++ l)) in Hnd by solve_Permutation.
    simpl in Hnd. apply andb_prop in Hnd as [Hx _]. rewrite py_in_app in Hx.
    by destruct (py_in x acc). }
  replace (py_add x acc) with (acc ++ [x]) by (unfold py_add; by rewrite Hx).
  rewrite IH; [by rewrite <-app_assoc|by rewrite <-app_assoc].
Qed.

(** Under an [==] that compares a key, a duplicate-free list has
    pairwise distinct keys. *)
Lemma py_nodup_NoDup {K} `{EqDecision K} (key : A → K) l :
  (∀ x y, py_eq x y = bool_decide (key x = key y)) →
  py_nodup l = true → NoDup (key <$> l).
Proof.
  intros Heq. induction l as [|x l IH]; simpl; [constructor|].
  intros [Hx Hl]%andb_prop. constructor; [|by apply IH].
  intros (y & Hy & Hin)%list_elem_of_fmap.
  apply negb_true_iff in Hx. apply not_true_iff_false in Hx. apply Hx.
  apply py_in_true. exists y. split; [done|]. rewrite Heq. by apply bool_decide_eq_true.
Qed.

(** [try: l.remove(x) ... except ValueError: pass] on a list
    without [x] does nothing. *)
Lemma try_remove_absent {B} x l (g : list A → B) (d : B) :
  py_in x l = false →
  (try (l' ← py_remove x l; Ok (g l')) except ValueError => Ok d) = Ok d.
Proof. intros Hx. by rewrite py_remove_not_in. Qed.

Lemma try_remove_snoc {B} x l (g : list A → B) (d : B) :
  py_in x l = false →
  (try (l' ← py_remove x (l ++ [x]); Ok (g l')) except ValueError => Ok d) = Ok (g l).
Proof. intros Hx. by rewrite py_remove_snoc by auto using py_eq_refl. Qed.

(** The result of [try: l.remove(x) except ValueError: pass] is
    duplicate-free when [l] is. *)
Lemma try_remove_nodup {B} x l (g : list A → B) (d : B) (P : B → Prop) :
  py_nodup l = true → P d → (∀ l', py_nodup l' = true → P (g l')) →
  ∀ r, (try (l' ← py_remove x l; Ok (g l')) except ValueError => Ok d) = Ok r → P r.
Proof.
  intros Hl Hd Hg r. destruct (py_remove x l) as [l'|e] eqn:E; simpl.
  - intros [= <-]. apply Hg. by eapply py_remove_nodup.
  - case_decide; [by intros [= <-]|done].
Qed.
End py_list.

(** An [==] that compares a key is an equivalence. *)
Lemma py_eq_laws_by_key {A K} `{PyEq A, EqDecision K} (key : A → K) :
  (∀ x y, py_eq x y = bool_decide (key x = key y)) → PyEqLaws A.
Proof.
  intros Heq. split; intros; rewrite ?Heq in *;
    repeat match goal with H : bool_decide _ = true |- _ => apply bool_decide_eq_true in H end.
  - by apply bool_decide_eq_true.
  - apply bool_decide_ext. naive_solver.
  - apply bool_decide_eq_true. congruence.
Qed.

Lemma string_eqb_bool_decide (s1 s2 : string) : String.eqb s1 s2 = bool_decide (s1 = s2).
Proof.
  apply eq_bool_prop_intro. rewrite Is_true_true, bool_decide_spec.
  apply String.eqb_eq.
Qed.

(* ------------------------------------------------------------------ *)
(** ** Automation shared by the components *)

(** [String.append] on a literal prefix. *)
Lemma string_app_cons (c : ascii) (s t : string) : (String c s +:+ t) = String c (s +:+ t).
Proof. reflexivity. Qed.
Lemma string_app_nil_l (t : string) : ("" +:+ t) = t.
Proof. reflexivity. Qed.
Lemma string_app_inj_l (p s t : string) : (p +:+ s) = (p +:+ t) → s = t.
Proof. induction p as [|c p IH]; [done|]. rewrite !string_app_cons. intros [= ?]. auto. Qed.
Lemma string_app_nil_r (t : string) : (t +:+ "") = t.
Proof. induction t as [|c t IH]; [done|]. by rewrite string_app_cons, IH. Qed.
Lemma string_app_assoc (s t u : string) : (s +:+ (t +:+ u)) = ((s +:+ t) +:+ u).
Proof. induction s as [|c s IH]; [done|]. by rewrite !string_app_cons, IH. Qed.

Create HintDb xit discriminated.
Create Rewrite HintDb xit_rw.
#[export] Hint Resolve py_eq_refl py_in_snoc_self py_cmp_refl : xit.
#[export] Hint Rewrite @py_in_app @py_in_snoc_self @string_compare_refl : xit_rw.

(** A chain of binds that succeeds: every step succeeded. *)
Lemma res_bind_Ok {A B} (x : res A) (f : A → res B) b :
  (x ≫= f) = Ok b ↔ ∃ a, x = Ok a ∧ f a = Ok b.
Proof. destruct x; simpl; split; [eauto|by intros (? & [= ->] & ?)|done|by intros (? & ? & ?)]. Qed.

(** What every step of a loop keeps holds of what the loop returns. *)
Lemma foldM_invariant {A B} (P : A → Prop) (f : A → B → res A) a l r :
  (∀ a x a', P a → f a x = Ok a' → P a') → P a → foldM f a l = Ok r → P r.
Proof.
  intros Hf. revert a. induction l as [|x l IH]; intros a Ha; simpl; [by intros [= <-]|].
  intros (a' & Ha' & Hl)%res_bind_Ok. eauto.
Qed.

Lemma foldl_invariant {A B} (P : A → Prop) (f : A → B → A) a l :
  (∀ a x, P a → P (f a x)) → P a → P (foldl f a l).
Proof. intros Hf. revert a. induction l; simpl; auto. Qed.

Lemma mapM_Forall {A B} (P : B → Prop) (f : A → res B) l l' :
  (∀ x y, f x = Ok y → P y) → mapM f l = Ok l' → Forall P l'.
Proof.
  intros Hf. revert l'. induction l as [|x l IH]; intros l'; simpl; [by intros [= <-]|].
  intros (y & Hy & (k & Hk & [= <-])%res_bind_Ok)%res_bind_Ok. constructor; eauto.
Qed.

(** The first element of a list that satisfies [P]. *)
Lemma filter_head_Some {A} (P : A → Prop) `{∀ x, Decision (P x)} (l : list A) x :
  head (filter P l) = Some x ↔ ∃ pre post, l = pre ++ x :: post ∧ P x ∧ Forall (λ y, ¬ P y) pre.
Proof.
  induction l as [|y l IH]; simpl.
  - split; [done|]. by intros ([|] & ? & ? & _).
  - rewrite filter_cons. case_decide as Hy; simpl.
    + split; [intros [= <-]; by exists [], l|].
      intros ([|z pre] & post & [= <- ->] & Hx & Hpre); [done|].
      by apply Forall_cons in Hpre as [? _].
    + rewrite IH. split.
      * intros (pre & post & -> & Hx & Hpre). exists (y :: pre), post. by split_and!; [..|constructor].
      * intros ([|z pre] & post & [= -> Hl] & Hx & Hpre); [done|].
        apply Forall_cons in Hpre as [_ Hpre]. by exists pre, post.
Qed.

(** Take apart the successful chains of binds among the hypotheses. *)
Ltac res_inv :=
  repeat match goal with
  | H : (_ ≫= _) = Ok _ |- _ =>
      let a := fresh "v" in let Ha := fresh "E" in apply res_bind_Ok in H as (a & Ha & H)
  | H : Ok _ = Ok _ |- _ => inversion H; clear H; subst
  | H : Raise _ = Ok _ |- _ => discriminate H
  end.

(** Case analysis on the [match] a model function is stuck on. *)
Ltac xit_case :=
  repeat match goal with
  | |- context [match ?c with Ok _ => _ | Raise _ => _ end] =>
      let E := fresh "E" in destruct c eqn:E
  | |- context [if ?b then _ else _] =>
      let E := fresh "E" in destruct b eqn:E
  end.
