(* ===== verification/Annotations.v ===== *)
(** * Annotations of a test case: [XITBug], [XITFix], [XITInfo]

    The three value classes of src/registry/xit.py (lines 341-459) a
    test case carries: a known bug, a fix (a git commit or an rpm
    package) and a piece of information (text or URL).  Each has the
    [__eq__]/[__cmp__] of the source, the [createFromType] factories
    with their [ValueError] on an unknown tag, and [__str__], which
    raises [AttributeError] for an rpm fix. *)

From S2P Require Import Prelude.
Open Scope xit_scope.

(** ** [XITBug] (lines 341-361) *)
Module Bug.
Record XITBug := mkXITBug { type : string; url : string }.

Definition default_type : string := "bugzilla".

(** [__eq__]: same type and same URL. *)
Definition XITBug_eq (a b : XITBug) : bool :=
  String.eqb (type a) (type b) && String.eqb (url a) (url b).

(** [__cmp__]: by type, then by URL. *)
Definition XITBug_cmp (a b : XITBug) : comparison :=
  py_cmp (type a) (type b) <?> py_cmp (url a) (url b).

Definition XITBug_str (b : XITBug) : string := url b.

#[global] Instance XITBug_py_eq : PyEq XITBug := XITBug_eq.

Definition key (b : XITBug) : string * string := (type b, url b).
End Bug.

(** ** [XITFix], [XITFixGit], [XITFixRPM] (lines 363-416) *)
Module Fix.
(** The two subclasses; [extra_args] is the dictionary of extra XML
    attributes (e.g. [repo]) kept with the fix. *)
Inductive XITFix :=
| XITFixGit (sha1 : string) (extra_args : gmap string string)
| XITFixRPM (rpm : string) (extra_args : gmap string string).

Definition type (f : XITFix) : string :=
  match f with XITFixGit _ _ => "git" | XITFixRPM _ _ => "rpm" end.

Definition text (f : XITFix) : string :=
  match f with XITFixGit s _ => s | XITFixRPM s _ => s end.

Definition extra_args (f : XITFix) : gmap string string :=
  match f with XITFixGit _ e => e | XITFixRPM _ e => e end.

(** [__eq__]: same type and same text; [extra_args] are ignored. *)
Definition XITFix_eq (a b : XITFix) : bool :=
  String.eqb (type a) (type b) && String.eqb (text a) (text b).

Definition XITFix_cmp (a b : XITFix) : comparison :=
  py_cmp (type a) (type b) <?> py_cmp (text a) (text b).

(** [createFromType]: the type tag selects the subclass. *)
Definition createFromType (type : string) (text : string)
    (extra_args : gmap string string) : res XITFix :=
  if String.eqb type "git" then Ok (XITFixGit text extra_args)
  else if String.eqb type "rpm" then Ok (XITFixRPM text extra_args)
  else Raise ValueError.

(** [__str__]: [XITFixGit] returns [self.sha1]; [XITFixRPM] also
    returns [self.sha1], an attribute an rpm fix does not have. *)
Definition XITFix_str (f : XITFix) : res string :=
  match f with
  | XITFixGit sha1 _ => Ok sha1
  | XITFixRPM _ _ => Raise AttributeError
  end.

#[global] Instance XITFix_py_eq : PyEq XITFix := XITFix_eq.

Definition key (f : XITFix) : string * string := (type f, text f).
End Fix.

(** ** [XITInfo], [XITInfoText], [XITInfoURL] (lines 418-459) *)
Module Info.
Inductive XITInfo :=
| XITInfoText (text : string)
| XITInfoURL (url : string).

Definition type (i : XITInfo) : string :=
  match i with XITInfoText _ => "text" | XITInfoURL _ => "url" end.

Definition text (i : XITInfo) : string :=
  match i with XITInfoText t => t | XITInfoURL u => u end.

Definition createFromType (type : string) (text : string) : res XITInfo :=
  if String.eqb type "text" then Ok (XITInfoText text)
  else if String.eqb type "url" then Ok (XITInfoURL text)
  else Raise ValueError.

Definition XITInfo_cmp (a b : XITInfo) : comparison :=
  py_cmp (type a) (type b) <?> py_cmp (text a) (text b).

(** [XITInfo] has no [__eq__]: Python 2's [==] is [__cmp__ == 0]. *)
Definition XITInfo_eq (a b : XITInfo) : bool :=
  match XITInfo_cmp a b with Eq => true | _ => false end.

Definition XITInfo_str (i : XITInfo) : string := text i.

#[global] Instance XITInfo_py_eq : PyEq XITInfo := XITInfo_eq.

Definition key (i : XITInfo) : string * string := (type i, text i).
End Info.

(** ** Equality and order of the annotations *)

Lemma bug_cmp_key a b : Bug.XITBug_cmp a b = cmp_by Bug.key a b.
Proof. reflexivity. Qed.

Lemma fix_cmp_key a b : Fix.XITFix_cmp a b = cmp_by Fix.key a b.
Proof. reflexivity. Qed.

Lemma info_cmp_key a b : Info.XITInfo_cmp a b = cmp_by Info.key a b.
Proof. reflexivity. Qed.

Lemma bug_eq_key a b : py_eq a b = bool_decide (Bug.key a = Bug.key b).
Proof.
  cbv [py_eq Bug.XITBug_py_eq Bug.XITBug_eq Bug.key].
  rewrite !string_eqb_bool_decide, <-bool_decide_and.
  apply bool_decide_ext. split; [intros []; congruence | by intros [=]].
Qed.

Lemma fix_eq_key a b : py_eq a b = bool_decide (Fix.key a = Fix.key b).
Proof.
  cbv [py_eq Fix.XITFix_py_eq Fix.XITFix_eq Fix.key].
  rewrite !string_eqb_bool_decide, <-bool_decide_and.
  apply bool_decide_ext. split; [intros []; congruence | by intros [=]].
Qed.

Lemma info_eq_key a b : py_eq a b = bool_decide (Info.key a = Info.key b).
Proof.
  cbv [py_eq Info.XITInfo_py_eq Info.XITInfo_eq]. rewrite info_cmp_key.
  unfold cmp_by. destruct (py_cmp _ _) eqn:E.
  - symmetry. apply bool_decide_eq_true. by apply py_cmp_eq.
  - symmetry. apply bool_decide_eq_false. intros Hk. by rewrite Hk, py_cmp_refl in E.
  - symmetry. apply bool_decide_eq_false. intros Hk. by rewrite Hk, py_cmp_refl in E.
Qed.

#[export] Instance bug_py_eq_laws : PyEqLaws Bug.XITBug.
Proof. apply (py_eq_laws_by_key Bug.key), bug_eq_key. Qed.
#[export] Instance fix_py_eq_laws : PyEqLaws Fix.XITFix.
Proof. apply (py_eq_laws_by_key Fix.key), fix_eq_key. Qed.
#[export] Instance info_py_eq_laws : PyEqLaws Info.XITInfo.
Proof. apply (py_eq_laws_by_key Info.key), info_eq_key. Qed.
