(* ===== verification/TestCase.v ===== *)
(** * Test cases: [str2bool], [XITTestCase], [XITTest], [JUnitTestResult]

    The test-case classes of src/registry/xit.py (lines 63-71 and
    229-338, 506-546).  [XITTest] is the registry's entry: a suite, a
    name, an expected status and three annotation lists that its
    [add*]/[remove*] methods keep free of [==]-duplicates.
    [JUnitTestResult] is the observed outcome of one run.  The base
    class [XITTestCase] is the interface the two share: a suite, a
    name, a status, and the [__cmp__] on (suite, name). *)

From S2P Require Import Prelude Annotations.
Open Scope xit_scope.

(** ** [str2bool] (lines 63-71) *)

(** The argument is a Python bool or a string: [str2bool] is called
    with [True] by [JUnitTestResult.__init__] and with strings read
    from XML or produced by [str(status).lower()]. *)
Inductive pyval :=
| PyBool (b : bool)
| PyStr (s : string).

Definition str2bool (val : pyval) : res bool :=
  match val with
  | PyBool b => Ok b
  | PyStr s =>
      if bool_decide (s ∈ ["True"; "true"; "1"]) then Ok true
      else if bool_decide (s ∈ ["False"; "false"; "0"]) then Ok false
      else Raise ValueError
  end.

(** [str(b)] and [str(b).lower()] for a bool. *)
Definition bool_str (b : bool) : string := if b then "True" else "False".
Definition bool_str_lower (b : bool) : string := if b then "true" else "false".

(** ** [XITTestCase] (lines 229-258): the common interface *)
Class XITTestCase (A : Type) := {
  tc_suite : A → string;
  tc_name : A → string;
  tc_status : A → bool
}.

(** [__cmp__]: by suite name, then by test name. *)
Definition XITTestCase_cmp {A} `{XITTestCase A} (a b : A) : comparison :=
  py_cmp (tc_suite a) (tc_suite b) <?> py_cmp (tc_name a) (tc_name b).

Definition test_key {A} `{XITTestCase A} (a : A) : string * string :=
  (tc_suite a, tc_name a).

(** ** [XITTest] (lines 260-338) *)
Module Test.
Import Bug Fix Info.

Record XITTest := mkXITTest {
  suite : string;
  name : string;
  status : bool;
  bugs : list XITBug;     (* self._bugs *)
  info : list XITInfo;    (* self._info *)
  fixes : list XITFix     (* self._fixes *)
}.

Definition with_status (t : XITTest) (s : bool) : XITTest :=
  mkXITTest (suite t) (name t) s (bugs t) (info t) (fixes t).
Definition with_bugs (t : XITTest) (l : list XITBug) : XITTest :=
  mkXITTest (suite t) (name t) (status t) l (info t) (fixes t).
Definition with_info (t : XITTest) (l : list XITInfo) : XITTest :=
  mkXITTest (suite t) (name t) (status t) (bugs t) l (fixes t).
Definition with_fixes (t : XITTest) (l : list XITFix) : XITTest :=
  mkXITTest (suite t) (name t) (status t) (bugs t) (info t) l.

(** [XITTest(suite, name, success)]: [XITTestCase.__init__] runs
    [str2bool] on [success]; the annotation lists start empty. *)
Definition XITTest_init (suite name : string) (success : pyval) : res XITTest :=
  s ← str2bool success; Ok (mkXITTest suite name s [] [] []).

Definition addBug (bug : XITBug) (t : XITTest) : XITTest :=
  if py_in bug (bugs t) then t else with_bugs t (bugs t ++ [bug]).

Definition removeBug (bug : XITBug) (t : XITTest) : res XITTest :=
  try (l ← py_remove bug (bugs t); Ok (with_bugs t l))
  except ValueError => Ok t.

Definition addInfo (i : XITInfo) (t : XITTest) : XITTest :=
  if py_in i (info t) then t else with_info t (info t ++ [i]).

Definition removeInfo (i : XITInfo) (t : XITTest) : res XITTest :=
  try (l ← py_remove i (info t); Ok (with_info t l))
  except ValueError => Ok t.

Definition addFix (f : XITFix) (t : XITTest) : XITTest :=
  if py_in f (fixes t) then t else with_fixes t (fixes t ++ [f]).

Definition removeFix (f : XITFix) (t : XITTest) : res XITTest :=
  try (l ← py_remove f (fixes t); Ok (with_fixes t l))
  except ValueError => Ok t.

Definition getBugs (t : XITTest) : list XITBug := py_sorted XITBug_cmp (bugs t).
Definition getInfo (t : XITTest) : list XITInfo := py_sorted XITInfo_cmp (info t).
Definition getFixes (t : XITTest) : list XITFix := py_sorted XITFix_cmp (fixes t).

(** The numbered lines of [__str__]: [str(i) + ": " + str(x) + "\n"]. *)
Fixpoint numbered {A} (str : A → res string) (i : nat) (l : list A) : res string :=
  match l with
  | [] => Ok ""
  | x :: l' =>
      sx ← str x;
      rest ← numbered str (S i) l';
      Ok (pretty (N.of_nat i) +:+ ": " +:+ sx +:+ "
" +:+ rest)
  end.

(** [__str__] (lines 318-338), printed by [info]; the lists are shown
    in insertion order. *)
Definition XITTest_str (t : XITTest) : res string :=
  let head := suite t +:+ " " +:+ name t +:+ ":	Expected result: " +:+
              (if status t then "Success" else "Failure") +:+ "
" in
  si ← (if bool_decide (info t = []) then Ok ""
        else s ← numbered (λ x, Ok (XITInfo_str x)) 0 (info t);
             Ok ("Extra info:
" +:+ s));
  sb ← (if bool_decide (bugs t = []) then Ok ""
        else s ← numbered (λ x, Ok (XITBug_str x)) 0 (bugs t);
             Ok ("Known bugs: 
" +:+ s));
  sf ← (if bool_decide (fixes t = []) then Ok ""
        else s ← numbered XITFix_str 0 (fixes t);
             Ok ("Known fixes: 
" +:+ s));
  Ok (head +:+ si +:+ sb +:+ sf).

#[global] Instance XITTest_tc : XITTestCase XITTest :=
  {| tc_suite := suite; tc_name := name; tc_status := status |}.

(** The invariant the methods keep: no two annotations of one kind
    are [==]. *)
Definition XITTest_wf (t : XITTest) : bool :=
  py_nodup (bugs t) && py_nodup (info t) && py_nodup (fixes t).
End Test.

(** ** [JUnitTestResult], [JUnitTestFailure] (lines 506-546) *)
Module JUnit.
Record JUnitTestFailure := mkJUnitTestFailure { message : string }.

Record JUnitTestResult := mkJUnitTestResult {
  suite : string;
  name : string;
  status : bool;
  failures : list JUnitTestFailure
}.

(** [JUnitTestResult(suite, name)]: a success with no failures. *)
Definition JUnitTestResult_init (suite name : string) : JUnitTestResult :=
  mkJUnitTestResult suite name true [].

(** [addFailure]: record the failure, and the test failed. *)
Definition addFailure (f : JUnitTestFailure) (r : JUnitTestResult) : JUnitTestResult :=
  mkJUnitTestResult (suite r) (name r) false (failures r ++ [f]).

(** [JUnitTestFailure.__str__]: the message. *)
Definition JUnitTestFailure_str (f : JUnitTestFailure) : string := message f.

(** [JUnitTestResult.__str__] (lines 516-526). *)
Definition JUnitTestResult_str (r : JUnitTestResult) : string :=
  let s := suite r +:+ "." +:+ name r +:+ ":	" in
  match failures r with
  | [] => s +:+ "success"
  | _ => s +:+ "failure" +:+ "
Failures:
" +:+
         foldr (λ f acc, JUnitTestFailure_str f +:+ "
" +:+ acc) "" (failures r)
  end.

#[global] Instance JUnitTestResult_tc : XITTestCase JUnitTestResult :=
  {| tc_suite := suite; tc_name := name; tc_status := status |}.
End JUnit.

(** ** Properties of [str2bool] *)

(** The strings [toXML] writes for a status, and [str(b)],
    are read back by [str2bool] to the same bool. *)
Lemma str2bool_roundtrip b :
  str2bool (PyStr (bool_str_lower b)) = Ok b ∧ str2bool (PyStr (bool_str b)) = Ok b.
Proof. by destruct b. Qed.

(** C20: [str2bool] raises [ValueError] on exactly the strings
    outside its six spellings. *)
Lemma str2bool_error s :
  str2bool (PyStr s) = Raise ValueError ↔
    s ∉ ["True"; "true"; "1"; "False"; "false"; "0"].
Proof.
  simpl. repeat case_bool_decide; rewrite ?elem_of_cons, ?elem_of_nil in *;
    split; intros; try done; intuition (subst; discriminate).
Qed.

(** ** Properties of the annotation lists of [XITTest] *)
Section test_annotations.
Import Test.

Ltac add_tac :=
  match goal with
  | |- context [py_in ?x (?fld ?t)] =>
      is_var t; let E := fresh "E" in
      destruct (py_in x (fld t)) eqn:E; simpl; rewrite ?py_in_snoc_self, ?E; try done
  end.

(** C9: adding the same bug, info or fix twice leaves the
    test as adding it once. *)
Theorem add_annotation_idem b i f t :
  addBug b (addBug b t) = addBug b t ∧
  addInfo i (addInfo i t) = addInfo i t ∧
  addFix f (addFix f t) = addFix f t.
Proof. unfold addBug, addInfo, addFix. split_and!; add_tac. Qed.

(** C10: removing an annotation that is not there is
    not an error and changes nothing. *)
Theorem remove_absent_noop b i f t :
  py_in b (bugs t) = false → py_in i (info t) = false → py_in f (fixes t) = false →
  removeBug b t = Ok t ∧ removeInfo i t = Ok t ∧ removeFix f t = Ok t.
Proof. intros. split_and!; by apply try_remove_absent. Qed.

(** Removing a bug just added restores the test. *)
Theorem remove_add_roundtrip b i f t :
  py_in b (bugs t) = false → py_in i (info t) = false → py_in f (fixes t) = false →
  removeBug b (addBug b t) = Ok t ∧ removeInfo i (addInfo i t) = Ok t ∧
  removeFix f (addFix f t) = Ok t.
Proof.
  intros Hb Hi Hf. unfold addBug, addInfo, addFix, removeBug, removeInfo, removeFix.
  rewrite Hb, Hi, Hf. simpl.
  rewrite !try_remove_snoc by done. by destruct t.
Qed.

Lemma XITTest_init_wf s n v t : XITTest_init s n v = Ok t → XITTest_wf t = true.
Proof. unfold XITTest_init. by destruct (str2bool v); intros [= <-]. Qed.

(** Each [add*] and [remove*] keeps the annotation lists
    free of [==]-duplicates. *)
Lemma XITTest_ops_wf b i f t :
  XITTest_wf t = true →
  XITTest_wf (addBug b t) = true ∧ XITTest_wf (addInfo i t) = true ∧
  XITTest_wf (addFix f t) = true ∧
  (∀ t', removeBug b t = Ok t' → XITTest_wf t' = true) ∧
  (∀ t', removeInfo i t = Ok t' → XITTest_wf t' = true) ∧
  (∀ t', removeFix f t = Ok t' → XITTest_wf t' = true).
Proof.
  unfold XITTest_wf. intros [[Hb Hi]%andb_prop Hf]%andb_prop.
  unfold addBug, addInfo, addFix, removeBug, removeInfo, removeFix.
  split_and!;
    try (add_tac; rewrite ?py_nodup_snoc, ?Hb, ?Hi, ?Hf by done; done);
    eapply try_remove_nodup; eauto; simpl;
    try intros l' ->; by rewrite ?Hb, ?Hi, ?Hf.
Qed.

(** Each [add*] and [remove*] keeps the test's suite and name. *)
Lemma XITTest_ops_key b i f t :
  test_key (addBug b t) = test_key t ∧ test_key (addInfo i t) = test_key t ∧
  test_key (addFix f t) = test_key t ∧
  (∀ t', removeBug b t = Ok t' → test_key t' = test_key t) ∧
  (∀ t', removeInfo i t = Ok t' → test_key t' = test_key t) ∧
  (∀ t', removeFix f t = Ok t' → test_key t' = test_key t).
Proof.
  unfold addBug, addInfo, addFix, removeBug, removeInfo, removeFix.
  split_and!; try (by destruct (py_in _ _)); intros t';
    (destruct (py_remove _ _); simpl; [by intros [= <-] | case_decide; [by intros [= <-]|done]]).
Qed.

(** C18: with the invariant, [getBugs], [getInfo] and
    [getFixes] list the annotations in strictly increasing
    [__cmp__] order, each exactly once. *)
Theorem getters_sorted t :
  XITTest_wf t = true →
  (StronglySorted (λ x y, Bug.XITBug_cmp x y = Lt) (getBugs t) ∧ getBugs t ≡ₚ bugs t) ∧
  (StronglySorted (λ x y, Info.XITInfo_cmp x y = Lt) (getInfo t) ∧ getInfo t ≡ₚ info t) ∧
  (StronglySorted (λ x y, Fix.XITFix_cmp x y = Lt) (getFixes t) ∧ getFixes t ≡ₚ fixes t).
Proof.
  unfold XITTest_wf. intros [[Hb Hi]%andb_prop Hf]%andb_prop.
  split_and!.
  - exact (py_sorted_strict Bug.key _ (py_nodup_NoDup Bug.key _ bug_eq_key Hb)).
  - exact (py_sorted_Permutation Bug.key _).
  - exact (py_sorted_strict Info.key _ (py_nodup_NoDup Info.key _ info_eq_key Hi)).
  - exact (py_sorted_Permutation Info.key _).
  - exact (py_sorted_strict Fix.key _ (py_nodup_NoDup Fix.key _ fix_eq_key Hf)).
  - exact (py_sorted_Permutation Fix.key _).
Qed.

Lemma numbered_pure {A} (str : A → string) i l :
  ∃ s, numbered (λ x, Ok (str x)) i l = Ok s.
Proof.
  revert i. induction l as [|x l IH]; intros i; simpl; [by eexists|].
  destruct (IH (S i)) as [s ->]. by eexists.
Qed.

Lemma numbered_fixes i (l : list Fix.XITFix) :
  (numbered Fix.XITFix_str i l = Raise AttributeError ∧
     ∃ rpm e, Fix.XITFixRPM rpm e ∈ l) ∨
  ((∃ s, numbered Fix.XITFix_str i l = Ok s) ∧
     ∀ rpm e, Fix.XITFixRPM rpm e ∉ l).
Proof.
  revert i. induction l as [|[sha e|rpm e] l IH]; intros i; simpl.
  - right. split; [by eexists | intros ??; apply not_elem_of_nil].
  - destruct (IH (S i)) as [[-> (r & e' & Hin)] | [[s ->] Hn]].
    + left. split; [done|]. exists r, e'. by apply elem_of_cons; right.
    + right. split; [by eexists|]. intros r e' [|]%elem_of_cons; [done|]. by eapply Hn.
  - left. split; [done|]. exists rpm, e. by apply elem_of_cons; left.
Qed.

(** C19: [str(test)], printed by the [info] command, raises
    [AttributeError] exactly when the test has an rpm fix, and
    returns a string otherwise. *)
Theorem XITTest_str_rpm t :
  (XITTest_str t = Raise AttributeError ↔ ∃ rpm e, Fix.XITFixRPM rpm e ∈ fixes t) ∧
  ((∀ rpm e, Fix.XITFixRPM rpm e ∉ fixes t) → ∃ s, XITTest_str t = Ok s).
Proof.
  unfold XITTest_str.
  destruct (numbered_pure Info.XITInfo_str 0 (info t)) as [si ->].
  destruct (numbered_pure Bug.XITBug_str 0 (bugs t)) as [sb ->].
  destruct (bool_decide (info t = [])), (bool_decide (bugs t = [])); simpl.
  all: case_bool_decide as Hf;
    [rewrite Hf; split; [split; [done | intros (? & ? & ?%not_elem_of_nil); done]
                        | intros; by eexists] |].
  all: destruct (numbered_fixes 0 (fixes t)) as [[-> Hin] | [[s ->] Hn]]; simpl.
  all: split; [split; [done| intros (r & e & ?); try (exfalso; by eapply Hn)] |].
  all: try (intros Hn'; destruct Hin as (r & e & ?); exfalso; by eapply Hn').
  all: intros; by eexists.
Qed.
End test_annotations.

(** ** Witnesses *)
Section test_witnesses.
Import Test.

Lemma remove_absent_noop_witness :
  removeBug (Bug.mkXITBug "bugzilla" "https://bugs.freedesktop.org/1")
    (mkXITTest "S" "X" true [] [] []) = Ok (mkXITTest "S" "X" true [] [] []) ∧
  removeInfo (Info.XITInfoText "flaky") (mkXITTest "S" "X" true [] [] []) =
    Ok (mkXITTest "S" "X" true [] [] []) ∧
  removeFix (Fix.XITFixGit "12354534deadbeef" ∅) (mkXITTest "S" "X" true [] [] []) =
    Ok (mkXITTest "S" "X" true [] [] []).
Proof. apply remove_absent_noop; reflexivity. Defined.

Lemma remove_add_roundtrip_witness :
  let t := mkXITTest "S" "X" true [Bug.mkXITBug "bugzilla" "https://bugs.freedesktop.org/2"] [] [] in
  removeBug (Bug.mkXITBug "bugzilla" "https://bugs.freedesktop.org/1")
    (addBug (Bug.mkXITBug "bugzilla" "https://bugs.freedesktop.org/1") t) = Ok t ∧
  removeInfo (Info.XITInfoURL "https://x.org") (addInfo (Info.XITInfoURL "https://x.org") t) = Ok t ∧
  removeFix (Fix.XITFixRPM "xorg-x11-server-1.23-4.fc18.rpm" ∅)
    (addFix (Fix.XITFixRPM "xorg-x11-server-1.23-4.fc18.rpm" ∅) t) = Ok t.
Proof. cbv zeta. apply remove_add_roundtrip; reflexivity. Defined.

Lemma getters_sorted_witness :
  let t := mkXITTest "S" "X" false
             [Bug.mkXITBug "bugzilla" "https://bugs.freedesktop.org/2";
              Bug.mkXITBug "bugzilla" "https://bugs.freedesktop.org/1"]
             [Info.XITInfoURL "https://x.org"; Info.XITInfoText "flaky"]
             [Fix.XITFixRPM "xorg-x11-drv-evdev-2.7.3" ∅; Fix.XITFixGit "deadbeef" ∅] in
  (StronglySorted (λ x y, Bug.XITBug_cmp x y = Lt) (getBugs t) ∧ getBugs t ≡ₚ bugs t) ∧
  (StronglySorted (λ x y, Info.XITInfo_cmp x y = Lt) (getInfo t) ∧ getInfo t ≡ₚ info t) ∧
  (StronglySorted (λ x y, Fix.XITFix_cmp x y = Lt) (getFixes t) ∧ getFixes t ≡ₚ fixes t).
Proof. cbv zeta. apply getters_sorted. reflexivity. Defined.
End test_witnesses.
