(* ===== verification/ModuleVersion.v ===== *)
(** * Module versions: [XITModuleVersion] (src/registry/xit.py, lines 461-503)

    A module version records the version of one software component
    under a version scheme ([type]: "git" or "rpm").  Its [__cmp__]
    orders by module, then type, then version, so two records compare
    equal only when all three fields are equal.  The two methods that
    ask the system's package manager run [rpm -q <module>] through
    [subprocess.Popen]; the process is modelled by the outcome the
    shell gives for a command and by the [returncode] attribute, which
    stays [None] until [wait()] is called. *)

From S2P Require Import Prelude.
Open Scope xit_scope.

Module ModVer.
Record XITModuleVersion := mkXITModuleVersion {
  module : string;
  version : string;
  type : string
}.

#[global] Instance XITModuleVersion_eq_dec : EqDecision XITModuleVersion.
Proof. solve_decision. Defined.

(** [XITModuleVersion(module, version, type = "git")] *)
Definition default_type : string := "git".

Definition XITModuleVersion_str (m : XITModuleVersion) : string :=
  module m +:+ ": " +:+ version m.

(** [__cmp__]: module, then type, then version. *)
Definition XITModuleVersion_cmp (a b : XITModuleVersion) : comparison :=
  py_cmp (module a) (module b) <?>
    (py_cmp (type a) (type b) <?> py_cmp (version a) (version b)).

(** No [__eq__]: Python 2's [==] (used by [not in]) is
    [__cmp__ == 0]. *)
Definition XITModuleVersion_eq (a b : XITModuleVersion) : bool :=
  match XITModuleVersion_cmp a b with Eq => true | _ => false end.

#[global] Instance XITModuleVersion_py_eq : PyEq XITModuleVersion :=
  XITModuleVersion_eq.

Definition key (m : XITModuleVersion) : string * (string * string) :=
  (module m, (type m, version m)).

(** ** The shell, [subprocess.Popen] and [str.strip] *)

(** What running a shell command gives: its exit status and the
    text it writes to standard output. *)
Record shell := mkShell { run : string → Z * string }.

(** A [Popen] object: [returncode] is [None] until the process has
    been waited for. *)
Record Popen := mkPopen {
  exit_status : Z;
  returncode : option Z;
  stdout : string
}.

Definition Popen_start (sh : shell) (command : string) : Popen :=
  let '(rc, out) := run sh command in mkPopen rc None out.

Definition Popen_wait (p : Popen) : Popen :=
  mkPopen (exit_status p) (Some (exit_status p)) (stdout p).

(** [p.stdout.readline()]: up to and including the first newline. *)
Fixpoint readline (s : string) : string :=
  match s with
  | EmptyString => EmptyString
  | String c s' =>
      if Ascii.eqb c "010"%char then String c EmptyString
      else String c (readline s')
  end.

Definition is_space (c : Ascii.ascii) : bool :=
  bool_decide (c ∈ [" "; "009"; "010"; "011"; "012"; "013"]%char).

Fixpoint lstrip (s : string) : string :=
  match s with
  | EmptyString => EmptyString
  | String c s' => if is_space c then lstrip s' else s
  end.

Definition rstrip (s : string) : string :=
  String.rev (lstrip (String.rev s)).

(** [str.strip()]: whitespace removed at both ends. *)
Definition strip (s : string) : string := rstrip (lstrip s).

(** [compareSystemVersion] (lines 479-489).  The return code is
    tested before the process has been waited for. *)
Definition compareSystemVersion (sh : shell) (m : XITModuleVersion)
    : res (bool * string) :=
  if negb (String.eqb (type m) "rpm") then Raise NotImplementedError
  else
    let command := "rpm -q " +:+ module m in
    let p := Popen_start sh command in
    if bool_decide (returncode p ≠ Some 0%Z) then
      Raise (CalledProcessError (returncode p))
    else
      let v := strip (readline (stdout p)) in
      Ok (String.eqb (version m) v, v).

(** [getSystemVersion] (lines 491-503), a classmethod. *)
Definition getSystemVersion (sh : shell) (module : string) (type : string)
    : res XITModuleVersion :=
  if negb (String.eqb type "rpm") then Raise NotImplementedError
  else
    let command := "rpm -q " +:+ module in
    let p := Popen_wait (Popen_start sh command) in
    if bool_decide (returncode p ≠ Some 0%Z) then
      Raise (CalledProcessError (returncode p))
    else
      Ok (mkXITModuleVersion module (strip (readline (stdout p))) type).
End ModVer.

(** ** Order and equality *)
Section modver_facts.
Import ModVer.

Lemma modver_cmp_key a b : XITModuleVersion_cmp a b = cmp_by key a b.
Proof. reflexivity. Qed.

Lemma modver_key_inj a b : key a = key b → a = b.
Proof. destruct a, b. unfold key. simpl. by intros [= -> -> ->]. Qed.

(** [__cmp__] is [Eq] exactly on equal records. *)
Lemma modver_cmp_eq a b : XITModuleVersion_cmp a b = Eq ↔ a = b.
Proof.
  rewrite modver_cmp_key. unfold cmp_by. rewrite py_cmp_eq_iff.
  split; [apply modver_key_inj | by intros ->].
Qed.

Lemma modver_eq_key a b : py_eq a b = bool_decide (key a = key b).
Proof.
  cbv [py_eq XITModuleVersion_py_eq XITModuleVersion_eq].
  rewrite modver_cmp_key. unfold cmp_by.
  destruct (py_cmp (key a) (key b)) eqn:E; symmetry.
  - apply bool_decide_eq_true. by apply py_cmp_eq.
  - apply bool_decide_eq_false. intros Hk. by rewrite Hk, py_cmp_refl in E.
  - apply bool_decide_eq_false. intros Hk. by rewrite Hk, py_cmp_refl in E.
Qed.

#[export] Instance modver_py_eq_laws : PyEqLaws XITModuleVersion.
Proof. apply (py_eq_laws_by_key key), modver_eq_key. Qed.

(** [compareSystemVersion] raises [CalledProcessError]
    with [returncode = None] for every rpm module, whatever the
    system answers: the process is never waited for. *)
Lemma compareSystemVersion_always_raises sh m :
  type m = "rpm" →
  compareSystemVersion sh m = Raise (CalledProcessError None).
Proof.
  intros Ht. unfold compareSystemVersion, Popen_start. rewrite Ht. simpl.
  by destruct (run sh _).
Qed.

(** C21: [getSystemVersion] waits for [rpm -q]: it fails with the exit
    status when it is not 0, and otherwise returns the stripped first
    line of the output as the version. *)
Lemma getSystemVersion_spec sh module rc out :
  run sh ("rpm -q " +:+ module) = (rc, out) →
  getSystemVersion sh module "rpm" =
    if bool_decide (rc = 0%Z)
    then Ok (mkXITModuleVersion module (strip (readline out)) "rpm")
    else Raise (CalledProcessError (Some rc)).
Proof.
  intros Hrun. unfold getSystemVersion, Popen_wait, Popen_start. simpl.
  rewrite Hrun. simpl. by repeat case_bool_decide; simplify_eq.
Qed.
End modver_facts.

(** ** Witnesses *)
Lemma getSystemVersion_spec_witness :
  let out := "xorg-x11-server-Xorg-1.13.0-1.fc18" +:+ String "010"%char "" in
  ModVer.getSystemVersion (ModVer.mkShell (λ _, (0%Z, out))) "xorg-x11-server-Xorg" "rpm" =
    if bool_decide (0%Z = 0%Z)
    then Ok (ModVer.mkXITModuleVersion "xorg-x11-server-Xorg" (ModVer.strip (ModVer.readline out)) "rpm")
    else Raise (CalledProcessError (Some 0%Z)).
Proof. cbv zeta. apply getSystemVersion_spec. reflexivity. Defined.
