(* ===== verification/Registry.v ===== *)
(** * The registry: [XITTestRegistry] (src/registry/xit.py, lines 86-226)

    A registry has a name, a date, a list of module versions and its
    test cases, kept in a dictionary of dictionaries
    [tests[suite][name]].  The model keeps the two levels as stdpp
    [gmap]s.  Python's [addTest] looks the inner dictionary up and
    inserts into that same object, which the outer dictionary still
    refers to; the model writes the updated inner map back under the
    suite's key, which is the same state.  [XITTestRegistry.__init__]
    reads the clock ([time.localtime()]): the model takes the time as
    an argument. *)

From S2P Require Import Prelude Annotations TestCase ModuleVersion.
Open Scope xit_scope.

(** [time.struct_time], the fields the registry uses. *)
Record struct_time := mk_struct_time {
  tm_year : Z; tm_mon : Z; tm_mday : Z;
  tm_hour : Z; tm_min : Z; tm_sec : Z
}.

Module Reg.
Import ModVer.

Record XITTestRegistry := mkXITTestRegistry {
  tests : gmap string (gmap string Test.XITTest);
  name : string;
  date : struct_time;
  moduleversions : list XITModuleVersion
}.

Definition with_tests (r : XITTestRegistry) tests' : XITTestRegistry :=
  mkXITTestRegistry tests' (name r) (date r) (moduleversions r).
Definition with_date (r : XITTestRegistry) d : XITTestRegistry :=
  mkXITTestRegistry (tests r) (name r) d (moduleversions r).
Definition with_moduleversions (r : XITTestRegistry) mvs : XITTestRegistry :=
  mkXITTestRegistry (tests r) (name r) (date r) mvs.

(** [_from_list] (lines 198-205): [l[elem.suite][elem.name] = elem],
    creating the suite's dictionary first when it is missing. *)
Definition from_list (list_in : list Test.XITTest) : gmap string (gmap string Test.XITTest) :=
  foldl (λ l elem,
      let suite := match l !! Test.suite elem with Some d => d | None => ∅ end in
      <[Test.suite elem := <[Test.name elem := elem]> suite]> l)
    ∅ list_in.

(** [__init__(name, test_cases)] at time [now]. *)
Definition XITTestRegistry_init (now : struct_time) (name : string)
    (test_cases : list Test.XITTest) : XITTestRegistry :=
  mkXITTestRegistry (from_list test_cases) name now [].

(** [listTestNames] (lines 207-213): (suite, test, status) for every
    test, suites in sorted order and tests sorted within a suite.
    [sorted(d.iteritems())] compares the (key, value) pairs; the keys
    of a dictionary are distinct, so only the keys are compared. *)
Definition listTestNames (r : XITTestRegistry) : list (string * string * bool) :=
  '(suite_name, suite) ← py_sorted (cmp_by (K:=string) fst) (map_to_list (tests r));
  '(test_name, test) ← py_sorted (cmp_by (K:=string) fst) (map_to_list suite);
  [(suite_name, test_name, Test.status test)].

(** [getTest] (lines 215-220): a [KeyError] at either level gives
    [None]. *)
Definition getTest (r : XITTestRegistry) (testsuite testcase : string)
    : option Test.XITTest :=
  tests r !! testsuite ≫= (λ suite, suite !! testcase).

(** [tests[suite][name] = t], creating the suite's dictionary when it
    is missing: the write [addTest] does, and the state change of an
    in-place edit of the test object held at that place. *)
Definition store_test (r : XITTestRegistry) (suite name : string) (t : Test.XITTest)
    : XITTestRegistry :=
  let d := match tests r !! suite with Some d => d | None => ∅ end in
  with_tests r (<[suite := <[name := t]> d]> (tests r)).

(** [addTest] (lines 222-226). *)
Definition addTest (test : Test.XITTest) (r : XITTestRegistry) : XITTestRegistry :=
  store_test r (Test.suite test) (Test.name test) test.

(** The registry's tests in the order [listTestNames] visits them:
    suites sorted by name, tests sorted by name within a suite. *)
Definition registry_tests (r : XITTestRegistry) : list Test.XITTest :=
  '(_, suite) ← py_sorted (cmp_by (K:=string) fst) (map_to_list (tests r));
  '(_, test) ← py_sorted (cmp_by (K:=string) fst) (map_to_list suite);
  [test].

(** The registry's invariant: every test is filed under its own
    suite and name and keeps its annotation invariant, and no suite
    dictionary is empty. *)
Definition registry_wf (r : XITTestRegistry) : Prop :=
  (∀ s n t, getTest r s n = Some t →
     Test.suite t = s ∧ Test.name t = n ∧ Test.XITTest_wf t = true) ∧
  (∀ s d, tests r !! s = Some d → d ≠ ∅).

(** The invariant as a boolean check, for concrete registries. *)
Definition registry_wfb (r : XITTestRegistry) : bool :=
  forallb (λ '(s, d),
      match map_to_list d with [] => false | _ :: _ => true end &&
      forallb (λ '(n, t),
          String.eqb (Test.suite t) s && String.eqb (Test.name t) n && Test.XITTest_wf t)
        (map_to_list d))
    (map_to_list (tests r)).
End Reg.

(** ** Lookup, insertion and the invariant *)
Section registry_facts.
Import Reg.
Implicit Types (r : XITTestRegistry) (t : Test.XITTest).

(** Writing a test at [tests[s][n]], the one state change of the
    registry ([addTest] and the in-place edits of Edit.v). *)
Lemma getTest_store_test r s n t s' n' :
  getTest (store_test r s n t) s' n' =
    if decide ((s', n') = (s, n)) then Some t else getTest r s' n'.
Proof.
  unfold getTest, store_test. simpl.
  destruct (decide (s' = s)) as [->|Hs].
  - rewrite lookup_insert_eq. simpl.
    destruct (decide (n' = n)) as [->|Hn].
    + rewrite lookup_insert_eq. by rewrite decide_True.
    + rewrite lookup_insert_ne by done. rewrite decide_False by congruence.
      by destruct (tests r !! s).
  - rewrite lookup_insert_ne by done. by rewrite decide_False by congruence.
Qed.

Lemma getTest_addTest t r s n :
  getTest (addTest t r) s n =
    if decide ((s, n) = (Test.suite t, Test.name t)) then Some t else getTest r s n.
Proof. apply getTest_store_test. Qed.

(** C8: [addTest] is an upsert (specification, section 8): after
    adding [t1] and then [t2] with the same suite and name, looking up
    that key gives [t2], every other key (other tests of the same
    suite included) gives what it gave before, and the registry is the
    one where only [t2] had been added. *)
Theorem addTest_upsert t1 t2 r :
  Test.suite t1 = Test.suite t2 → Test.name t1 = Test.name t2 →
  (∀ s n, getTest (addTest t2 (addTest t1 r)) s n =
            if decide ((s, n) = (Test.suite t2, Test.name t2)) then Some t2 else getTest r s n) ∧
  addTest t2 (addTest t1 r) = addTest t2 r.
Proof.
  intros Hs Hn. split.
  - intros s n. rewrite !getTest_addTest, Hs, Hn. by case_decide.
  - unfold addTest, store_test. simpl. rewrite Hs, Hn, lookup_insert_eq.
    by rewrite insert_insert_eq, insert_insert_eq.
Qed.

(** Writing a test at its own place keeps the invariant. *)
Lemma store_test_wf r s n t :
  registry_wf r → Test.suite t = s → Test.name t = n → Test.XITTest_wf t = true →
  registry_wf (store_test r s n t).
Proof.
  intros [Hget Hne] <- <- Ht. split.
  - intros s n t'. rewrite getTest_store_test.
    case_decide as E; [intros [= <-]; by injection E as -> ->|apply Hget].
  - intros s d. unfold store_test. simpl.
    destruct (decide (s = Test.suite t)) as [->|Hs].
    + rewrite lookup_insert_eq. intros [= <-]. apply insert_non_empty.
    + rewrite lookup_insert_ne by done. apply Hne.
Qed.

(** [addTest] keeps the registry's invariant, for a test that keeps
    its own. *)
Lemma addTest_wf t r :
  registry_wf r → Test.XITTest_wf t = true → registry_wf (addTest t r).
Proof. intros. by apply store_test_wf. Qed.

(** [_from_list] is [addTest] repeated from the empty dictionary. *)
Lemma from_list_addTest now nm l :
  XITTestRegistry_init now nm l =
    foldl (λ r t, addTest t r) (mkXITTestRegistry ∅ nm now []) l.
Proof.
  unfold XITTestRegistry_init, from_list.
  match goal with |- context [foldl ?f _ l] => set (step := f) end.
  assert (∀ r0, mkXITTestRegistry (foldl step (tests r0) l) (name r0) (date r0)
                  (moduleversions r0) = foldl (λ r t, addTest t r) r0 l) as H.
  { induction l as [|t l IH]; intros r0; simpl; [by destruct r0|].
    rewrite <-IH. reflexivity. }
  apply (H (mkXITTestRegistry ∅ nm now [])).
Qed.

Lemma empty_registry_wf nm now mvs : registry_wf (mkXITTestRegistry ∅ nm now mvs).
Proof. split; [by intros ???|intros s d; simpl; by rewrite lookup_empty]. Qed.

Lemma foldl_addTest_wf r ts :
  registry_wf r → Forall (λ t, Test.XITTest_wf t = true) ts →
  registry_wf (foldl (λ r t, addTest t r) r ts).
Proof.
  intros Hr Hts. revert r Hr. induction Hts as [|t ts Ht _ IH]; intros r Hr; simpl; [done|].
  apply IH. by apply addTest_wf.
Qed.

(** C22: a registry built from a list of tests that keep their own
    invariant ([XITTestRegistry(name, test_cases)]) is well formed. *)
Theorem XITTestRegistry_init_wf now nm l :
  Forall (λ t, Test.XITTest_wf t = true) l →
  registry_wf (XITTestRegistry_init now nm l).
Proof.
  rewrite from_list_addTest. intros Hl.
  by apply foldl_addTest_wf; [apply empty_registry_wf|].
Qed.

(** [listTestNames] lists exactly the tests of the
    registry, each with its expected status. *)
Lemma listTestNames_elem_of r s n b :
  (s, n, b) ∈ listTestNames r ↔ ∃ t, getTest r s n = Some t ∧ Test.status t = b.
Proof.
  unfold listTestNames, getTest. rewrite list_elem_of_bind.
  setoid_rewrite (py_sorted_elem_of fst).
  split.
  - intros ([sn d] & Hin & Hd). rewrite elem_of_map_to_list in Hd.
    rewrite list_elem_of_bind in Hin. destruct Hin as ([tn t] & Hin & Ht).
    rewrite (py_sorted_elem_of fst), elem_of_map_to_list in Ht.
    apply list_elem_of_singleton in Hin. injection Hin as -> -> ->.
    exists t. by rewrite Hd.
  - intros (t & Hget & <-). destruct (tests r !! s) as [d|] eqn:Hd; [|done].
    simpl in Hget. exists (s, d). rewrite elem_of_map_to_list. split; [|done].
    rewrite list_elem_of_bind. exists (n, t).
    rewrite (py_sorted_elem_of fst), elem_of_map_to_list.
    split; [by apply list_elem_of_singleton|done].
Qed.

Lemma map_to_list_sorted {V} (m : gmap string V) :
  StronglySorted (λ x y, cmp_by fst x y = Lt) (py_sorted (cmp_by fst) (map_to_list m)).
Proof. apply py_sorted_strict, NoDup_fst_map_to_list. Qed.

(** [listTestNames] is strictly increasing in (suite,
    test name), so each test appears once, in the order the CLI
    prints them. *)
Lemma listTestNames_sorted r :
  StronglySorted (λ x y, py_cmp x.1 y.1 = Lt) (listTestNames r).
Proof.
  unfold listTestNames.
  apply (StronglySorted_bind (λ x y, cmp_by fst x y = Lt)); [apply map_to_list_sorted| |].
  - intros [sn d] _.
    apply (StronglySorted_bind (λ x y, cmp_by fst x y = Lt)); [apply map_to_list_sorted| |].
    + intros [tn t] _. apply StronglySorted_cons. split; [constructor|constructor].
    + intros [tn1 t1] [tn2 t2] b1 b2 Hlt. unfold cmp_by in Hlt. simpl in Hlt.
      intros ->%list_elem_of_singleton ->%list_elem_of_singleton. simpl.
      unfold py_cmp at 1, prod_py_cmp. simpl. by rewrite py_cmp_refl, Hlt.
  - intros [sn1 d1] [sn2 d2] b1 b2 Hlt. unfold cmp_by in Hlt. simpl in Hlt.
    intros ([tn1 t1] & Hb1%list_elem_of_singleton & _)%list_elem_of_bind.
    intros ([tn2 t2] & Hb2%list_elem_of_singleton & _)%list_elem_of_bind.
    subst. simpl.
    unfold py_cmp at 1, prod_py_cmp. simpl. by rewrite Hlt.
Qed.

Lemma registry_tests_elem_of r t :
  t ∈ registry_tests r ↔ ∃ s n, getTest r s n = Some t.
Proof.
  unfold registry_tests, getTest. rewrite list_elem_of_bind.
  setoid_rewrite (py_sorted_elem_of fst). split.
  - intros ([sn d] & Hin & Hd). rewrite elem_of_map_to_list in Hd.
    rewrite list_elem_of_bind in Hin. destruct Hin as ([tn t'] & Hin & Ht).
    rewrite (py_sorted_elem_of fst), elem_of_map_to_list in Ht.
    apply list_elem_of_singleton in Hin as ->. exists sn, tn. by rewrite Hd.
  - intros (s & n & Hget). destruct (tests r !! s) as [d|] eqn:Hd; [|done].
    simpl in Hget. exists (s, d). rewrite elem_of_map_to_list. split; [|done].
    rewrite list_elem_of_bind. exists (n, t).
    rewrite (py_sorted_elem_of fst), elem_of_map_to_list.
    split; [by apply list_elem_of_singleton|done].
Qed.

Lemma registry_tests_getTest r t :
  registry_wf r → t ∈ registry_tests r → getTest r (Test.suite t) (Test.name t) = Some t.
Proof.
  intros [Hget _] (s & n & Ht)%registry_tests_elem_of.
  by destruct (Hget _ _ _ Ht) as (-> & -> & _).
Qed.

(** Under the invariant, [listTestNames] is the (suite, name, status)
    of each test of [registry_tests]. *)
Lemma listTestNames_tests r :
  registry_wf r →
  listTestNames r =
    (λ t, (Test.suite t, Test.name t, Test.status t)) <$> registry_tests r.
Proof.
  intros [Hget _]. unfold listTestNames, registry_tests.
  rewrite fmap_bind_distr. apply bind_ext_in. intros [sn d] Hd.
  rewrite (py_sorted_elem_of fst), elem_of_map_to_list in Hd.
  rewrite fmap_bind_distr. apply bind_ext_in. intros [tn t] Ht.
  rewrite (py_sorted_elem_of fst), elem_of_map_to_list in Ht.
  simpl. destruct (Hget sn tn t) as (-> & -> & _); [|done].
  unfold getTest. by rewrite Hd.
Qed.

Lemma registry_tests_sorted r :
  registry_wf r →
  StronglySorted (λ x y, py_cmp (test_key x) (test_key y) = Lt) (registry_tests r).
Proof.
  intros Hwf. pose proof (listTestNames_sorted r) as Hs.
  rewrite listTestNames_tests in Hs by done. by apply StronglySorted_fmap_inv in Hs.
Qed.

Lemma registry_tests_keys_sorted r :
  registry_wf r →
  StronglySorted (λ a b, py_cmp a b = Lt) (test_key <$> registry_tests r).
Proof. intros Hwf. eapply StronglySorted_fmap; [|by apply registry_tests_sorted]. done. Qed.

Lemma registry_wfb_spec r : registry_wfb r = true → registry_wf r.
Proof.
  unfold registry_wfb. rewrite forallb_forall. intros Hall. split.
  - intros s n t. unfold getTest. destruct (tests r !! s) as [d|] eqn:Hd; [|done].
    simpl. intros Ht.
    apply elem_of_map_to_list, list_elem_of_In, Hall, andb_prop in Hd as [_ Hd].
    rewrite forallb_forall in Hd.
    apply elem_of_map_to_list, list_elem_of_In, Hd in Ht.
    apply andb_prop in Ht as [[Hs Hn]%andb_prop Hw].
    by apply String.eqb_eq in Hs, Hn.
  - intros s d Hd ->.
    apply elem_of_map_to_list, list_elem_of_In, Hall in Hd.
    by rewrite map_to_list_empty in Hd.
Qed.

(** Adding the tests of a list with distinct keys: each is found
    under its key, and the other keys keep their test. *)
Lemma getTest_foldl_addTest r ts s n t :
  NoDup (test_key <$> ts) →
  getTest (foldl (λ r t, addTest t r) r ts) s n = Some t ↔
    (t ∈ ts ∧ test_key t = (s, n)) ∨ (((s, n) ∉ (test_key <$> ts)) ∧ getTest r s n = Some t).
Proof.
  revert r. induction ts as [|t0 ts IH]; intros r Hnd; simpl.
  { split; [intros H; right; split; [apply not_elem_of_nil|done]|].
    by intros [[?%not_elem_of_nil _]|[_ ?]]. }
  apply NoDup_cons in Hnd as [Ht0 Hnd]. rewrite IH, getTest_addTest by done.
  rewrite elem_of_cons, elem_of_cons. unfold test_key in *. simpl in *.
  case_decide as E; [injection E as -> ->|]; split.
  - intros [[? ?]|[? [= <-]]]; [left; split; auto|left; auto].
  - intros [[[->|?] Hk]|[Hn _]]; [right; split; [done|done]|left; done|].
    exfalso. apply Hn. by left.
  - intros [[? ?]|[? ?]]; [left; auto|right; split; [|done]].
    intros [Hk|?]; [|done]. apply E. by rewrite Hk.
  - intros [[[->|?] Hk]|[Hn ?]]; [by rewrite Hk in E|left; auto|right; split; [|done]].
    intros ?. apply Hn. by right.
Qed.

(** C17: [listTestNames] lists each test of the registry exactly
    once, with its expected status, in strictly increasing (suite,
    name) order. *)
Theorem listTestNames_spec r :
  (∀ s n b, (s, n, b) ∈ listTestNames r ↔ ∃ t, getTest r s n = Some t ∧ Test.status t = b) ∧
  StronglySorted (λ x y, py_cmp x.1 y.1 = Lt) (listTestNames r).
Proof. split; [apply listTestNames_elem_of|apply listTestNames_sorted]. Qed.

(** Adding tests changes only the tests. *)
Lemma foldl_addTest_meta (reg : XITTestRegistry) ts :
  let r := foldl (λ r t, addTest t r) reg ts in
  name r = name reg ∧ date r = date reg ∧
  moduleversions r = moduleversions reg.
Proof.
  revert reg. induction ts as [|t ts IH]; intros reg; [done|].
  simpl. destruct (IH (addTest t reg)) as (? & ? & ?). done.
Qed.

(** The tests of two registries without empty suites are equal when
    [getTest] agrees on them. *)
Lemma tests_ext r1 r2 :
  (∀ s d, tests r1 !! s = Some d → d ≠ ∅) → (∀ s d, tests r2 !! s = Some d → d ≠ ∅) →
  (∀ s n, getTest r1 s n = getTest r2 s n) → tests r1 = tests r2.
Proof.
  intros Hne1 Hne2 Hget. apply map_eq. intros s.
  pose proof (λ n, Hget s n) as Hs. unfold getTest in Hs.
  destruct (tests r1 !! s) as [d1|] eqn:E1, (tests r2 !! s) as [d2|] eqn:E2; simpl in Hs.
  - f_equal. apply map_eq. exact Hs.
  - destruct (map_choose d1) as (n & t & Hn); [by eapply Hne1|]. by rewrite Hs in Hn.
  - destruct (map_choose d2) as (n & t & Hn); [by eapply Hne2|]. by rewrite <-Hs in Hn.
  - done.
Qed.

End registry_facts.

(** ** Witnesses *)
Section registry_witnesses.
Import Reg.

Lemma addTest_upsert_witness :
  let r := mkXITTestRegistry ∅ "r" (mk_struct_time 2012 12 31 0 0 0) [] in
  getTest (addTest (Test.mkXITTest "S" "X" false [] [] [])
             (addTest (Test.mkXITTest "S" "X" true [] [] []) r)) "S" "X" =
    Some (Test.mkXITTest "S" "X" false [] [] []).
Proof.
  cbv zeta. rewrite (proj1 (addTest_upsert (Test.mkXITTest "S" "X" true [] [] []) (Test.mkXITTest "S" "X" false [] [] []) _ eq_refl eq_refl) "S" "X").
  by rewrite decide_True.
Defined.

Lemma XITTestRegistry_init_wf_witness :
  registry_wf (XITTestRegistry_init (mk_struct_time 2012 12 31 0 0 0) "r"
                 [Test.mkXITTest "S" "X" true [] [] []; Test.mkXITTest "T" "Y" false [] [] []]).
Proof. apply XITTestRegistry_init_wf. repeat constructor. Defined.
End registry_witnesses.
