(* ===== verification/Time.v ===== *)
(** * Dates in the registry file: [time.strftime] and [time.strptime]
    with the format "%Y-%m-%d"

    [XITTestRegistry.toXML] writes the registry's date with
    [time.strftime("%Y-%m-%d", self.date)] (src/registry/xit.py, line
    158); [fromXML] (line 107) and [set_date] (line 866) read a date
    with [time.strptime(text, "%Y-%m-%d")].  These are Python 2.7's
    library functions; the model follows their documented behaviour on
    this one format:
    - [strftime]: a year before 1900 goes through the [accept2dyear]
      rule (69-99 becomes 1969-1999, 0-68 becomes 2000-2068, 100-1899
      raises [ValueError]); a zero month or day is forced to 1, any
      other field out of its range raises [ValueError]; [%Y] is the
      year in decimal, [%m] and [%d] two zero-padded digits;
    - [strptime]: the regular expression
      [(\d\d\d\d)-(1[0-2]|0[1-9]|[1-9])-(3[01]|[12]\d|0[1-9]|[1-9]| [1-9])]
      is matched at the start of the string with leftmost-first
      backtracking; the whole string must be consumed ("unconverted
      data remains"), and the day must exist in that month of that
      year ([datetime.date] raises otherwise).  The time of day of the
      result is midnight.
    [time.localtime] is not modelled: the caller passes the current
    time.

    [%Y] is computed with fuel ([decimal_go]); [decimal_digits] is the
    same division by ten written with Equations by well-founded
    recursion, and [decimal_terminates] shows the fuel [decimal] gives
    is always enough. *)

From S2P Require Import Prelude Registry.
From Equations Require Import Equations.
Open Scope xit_scope.

Module Time.
Local Open Scope Z_scope.

(** ** Digits *)

Definition digit (n : Z) : ascii := ascii_of_nat (48 + Z.to_nat n).

(** [\d] on a byte string: an ASCII digit. *)
Definition char_digit (c : ascii) : option Z :=
  let n := nat_of_ascii c in
  if (48 <=? n)%nat && (n <=? 57)%nat then Some (Z.of_nat n - 48) else None.

(** [%m], [%d]: two digits, zero-padded. *)
Definition pad2 (n : Z) : string :=
  String (digit (n / 10)) (String (digit (n mod 10)) EmptyString).

(** [%Y]: the year in decimal, without padding; the fuel (one more
    than the number of bits) is at least the number of digits. *)
Fixpoint decimal_go (fuel : nat) (n : Z) (acc : string) : string :=
  match fuel with
  | O => acc
  | S f =>
      let acc' := String (digit (n mod 10)) acc in
      if n <? 10 then acc' else decimal_go f (n / 10) acc'
  end.

Definition decimal (n : Z) : string := decimal_go (S (Z.to_nat (Z.log2 n))) n "".

(** The decimal writing of [n ≥ 0] in front of [acc], by division by
    ten until one digit is left: the recursion [%Y] performs, written
    without fuel, by well-founded recursion on [n]. *)
Equations? decimal_digits (n : Z) (acc : string) : string by wf (Z.to_nat n) lt :=
  decimal_digits n acc with Z_lt_dec n 10 => {
    | left _ => String (digit (n mod 10)) acc;
    | right _ => decimal_digits (n / 10) (String (digit (n mod 10)) acc) }.
Proof. Z.to_euclidean_division_equations; lia. Qed.

(** ** [time.strftime("%Y-%m-%d", t)] *)

(** The year check of [gettmarg] with [accept2dyear] set (the
    default). *)
Definition year_2k (y : Z) : res Z :=
  if 1900 <=? y then Ok y
  else if (69 <=? y) && (y <=? 99) then Ok (y + 1900)
  else if (0 <=? y) && (y <=? 68) then Ok (y + 2000)
  else Raise ValueError.

(** A field in [lo..hi]; 0 is forced to [lo]; anything else raises. *)
Definition field (lo hi v : Z) : res Z :=
  if (lo <=? v) && (v <=? hi) then Ok v
  else if v =? 0 then Ok lo
  else Raise ValueError.

Definition strftime_ymd (t : struct_time) : res string :=
  y ← year_2k (tm_year t);
  m ← field 1 12 (tm_mon t);
  d ← field 1 31 (tm_mday t);
  _ ← field 0 23 (tm_hour t);
  _ ← field 0 59 (tm_min t);
  _ ← field 0 61 (tm_sec t);
  Ok (decimal y +:+ "-" +:+ pad2 m +:+ "-" +:+ pad2 d).

(** ** [time.strptime(s, "%Y-%m-%d")] *)

(** One alternative of the pattern: the number it reads and the rest
    of the string. *)
Definition alt := string → option (Z * string).

(** [[a-b][c-d]]: two digits in the given ranges. *)
Definition two (lo1 hi1 lo2 hi2 : Z) : alt := λ s,
  match s with
  | String a (String b r) =>
      a' ← char_digit a; b' ← char_digit b;
      if (lo1 <=? a') && (a' <=? hi1) && (lo2 <=? b') && (b' <=? hi2)
      then Some (10 * a' + b', r) else None
  | _ => None
  end.

(** [[a-b]]: one digit. *)
Definition one (lo hi : Z) : alt := λ s,
  match s with
  | String a r =>
      a' ← char_digit a;
      if (lo <=? a') && (a' <=? hi) then Some (a', r) else None
  | _ => None
  end.

(** [ [a-b]]: a space and one digit ([int(" 5")] is 5). *)
Definition space_one (lo hi : Z) : alt := λ s,
  match s with
  | String c r => if Ascii.eqb c " " then one lo hi r else None
  | _ => None
  end.

(** [\d\d\d\d] *)
Definition four_digits : alt := λ s,
  match s with
  | String a (String b (String c (String d r))) =>
      a' ← char_digit a; b' ← char_digit b; c' ← char_digit c; d' ← char_digit d;
      Some (1000 * a' + 100 * b' + 10 * c' + d', r)
  | _ => None
  end.

(** A literal character. *)
Definition lit (c : ascii) (s : string) : option string :=
  match s with
  | String c' r => if Ascii.eqb c c' then Some r else None
  | _ => None
  end.

Definition month_alts : list alt := [two 1 1 0 2; two 0 0 1 9; one 1 9].
Definition day_alts : list alt :=
  [two 3 3 0 1; two 1 2 0 9; two 0 0 1 9; one 1 9; space_one 1 9].

(** An alternation followed by the rest of the pattern [k]: the first
    alternative for which the rest matches (the regex engine's
    backtracking). *)
Fixpoint alts_then {X} (alts : list alt) (k : Z → string → option X) (s : string)
    : option X :=
  match alts with
  | [] => None
  | a :: rest =>
      match a s ≫= (λ '(v, r), k v r) with
      | Some x => Some x
      | None => alts_then rest k s
      end
  end.

(** [format_regex.match(s)]: year, month, day and the unmatched rest. *)
Definition match_ymd (s : string) : option (Z * Z * Z * string) :=
  '(y, r) ← four_digits s;
  r ← lit "-" r;
  alts_then month_alts (λ m r,
    r ← lit "-" r;
    alts_then day_alts (λ d r, Some (y, m, d, r)) r) r.

Definition is_leap (y : Z) : bool :=
  (y mod 4 =? 0) && (negb (y mod 100 =? 0) || (y mod 400 =? 0)).

Definition days_in_month (y m : Z) : Z :=
  if m =? 2 then (if is_leap y then 29 else 28)
  else if (m =? 4) || (m =? 6) || (m =? 9) || (m =? 11) then 30
  else 31.

(** [datetime.date(y, m, d)] does not raise. *)
Definition valid_ymd (y m d : Z) : bool :=
  (1 <=? y) && (y <=? 9999) && (1 <=? m) && (m <=? 12) &&
  (1 <=? d) && (d <=? days_in_month y m).

Definition strptime_ymd (s : string) : res struct_time :=
  match match_ymd s with
  | None => Raise ValueError
  | Some (y, m, d, r) =>
      if negb (String.eqb r "") then Raise ValueError
      else if valid_ymd y m d then Ok (mk_struct_time y m d 0 0 0)
      else Raise ValueError
  end.

(** [time.strptime(text, ...)] on an element's text, [None] for an
    element without text. *)
Definition strptime_text (text : option string) : res struct_time :=
  match text with Some s => strptime_ymd s | None => Raise TypeError end.

(** The date at midnight: what a date written and read back holds. *)
Definition midnight (t : struct_time) : struct_time :=
  mk_struct_time (tm_year t) (tm_mon t) (tm_mday t) 0 0 0.

(** A date as [time.localtime] returns it, in the years [%Y] writes
    as four digits that [time.strftime] accepts unchanged. *)
Definition date_ok (t : struct_time) : Prop :=
  1900 ≤ tm_year t ≤ 9999 ∧ valid_ymd (tm_year t) (tm_mon t) (tm_mday t) = true ∧
  0 ≤ tm_hour t ≤ 23 ∧ 0 ≤ tm_min t ≤ 59 ∧ 0 ≤ tm_sec t ≤ 61.

(** ** Properties *)

Lemma char_digit_digit n : 0 ≤ n ≤ 9 → char_digit (digit n) = Some n.
Proof.
  intros Hn. assert (n = 0 ∨ n = 1 ∨ n = 2 ∨ n = 3 ∨ n = 4 ∨ n = 5 ∨ n = 6 ∨
                     n = 7 ∨ n = 8 ∨ n = 9) as Hc by lia.
  by repeat destruct Hc as [->|Hc]; [..|subst].
Qed.

Lemma decimal_go_S f n acc :
  decimal_go (S f) n acc =
  if n <? 10 then String (digit (n mod 10)) acc
  else decimal_go f (n / 10) (String (digit (n mod 10)) acc).
Proof. reflexivity. Qed.

Lemma decimal_digits_eq n acc :
  decimal_digits n acc =
  if Z_lt_dec n 10 then String (digit (n mod 10)) acc
  else decimal_digits (n / 10) (String (digit (n mod 10)) acc).
Proof. simp decimal_digits. by destruct (Z_lt_dec n 10); simp decimal_digits. Qed.

(** Fuel [f + 1] is enough for a number below [2 ^ (f + 1)]. *)
Lemma decimal_go_digits f n acc :
  0 ≤ n < 2 ^ Z.of_nat (S f) → decimal_go (S f) n acc = decimal_digits n acc.
Proof.
  revert n acc. induction f as [|f IH]; intros n acc Hn;
    rewrite decimal_go_S, decimal_digits_eq;
    destruct (Z.ltb_spec n 10), (Z_lt_dec n 10); try done; try lia.
  apply IH. rewrite (Nat2Z.inj_succ (S f)), Z.pow_succ_r in Hn by lia.
  Z.to_euclidean_division_equations; lia.
Qed.

(** Every number is below [2] to the power one more than its
    logarithm, the fuel [decimal] gives. *)
Lemma log2_fuel n f : 0 ≤ n → (Z.to_nat (Z.log2 n) < f)%nat → n < 2 ^ Z.of_nat f.
Proof.
  intros Hn Hf. destruct (Z.eq_dec n 0) as [->|Hn0]; [apply Z.pow_pos_nonneg; lia|].
  destruct (Z.log2_spec n) as [_ Hlt]; [lia|].
  eapply Z.lt_le_trans; [exact Hlt|]. apply Z.pow_le_mono_r; [lia|].
  pose proof (Z.log2_nonneg n). lia.
Qed.

(** A year of four digits is written as its four digits. *)
Lemma decimal_four y :
  1000 ≤ y ≤ 9999 →
  decimal y = String (digit (y / 1000)) (String (digit (y / 100 mod 10))
                (String (digit (y / 10 mod 10)) (String (digit (y mod 10)) ""))).
Proof.
  intros Hy. unfold decimal.
  assert (3 ≤ Z.log2 y) by (change 3 with (Z.log2 8); apply Z.log2_le_mono; lia).
  destruct (Z.to_nat (Z.log2 y)) as [|[|[|f]]] eqn:E; [lia..|].
  rewrite !decimal_go_S, !Z.div_div by lia.
  change (10 * 10 * 10 * 10) with 10000. change (10 * 10 * 10) with 1000.
  change (10 * 10) with 100.
  destruct (Z.ltb_spec y 10), (Z.ltb_spec (y / 10) 10), (Z.ltb_spec (y / 100) 10),
    (Z.ltb_spec (y / 1000) 10); try (Z.to_euclidean_division_equations; lia).
  by rewrite (Z.mod_small (y / 1000) 10) by (Z.to_euclidean_division_equations; lia).
Qed.

Lemma four_digits_cons a b c d r :
  four_digits (String a (String b (String c (String d r)))) =
  (a' ← char_digit a; b' ← char_digit b; c' ← char_digit c; d' ← char_digit d;
   Some (1000 * a' + 100 * b' + 10 * c' + d', r)).
Proof. reflexivity. Qed.

Lemma four_digits_decimal y s :
  1000 ≤ y ≤ 9999 → four_digits (decimal y +:+ s) = Some (y, s).
Proof.
  intros Hy. rewrite decimal_four by done. rewrite !string_app_cons, string_app_nil_l, four_digits_cons.
  rewrite !char_digit_digit by (Z.to_euclidean_division_equations; lia).
  cbn. f_equal. f_equal. Z.to_euclidean_division_equations; lia.
Qed.
(** A printed month is read back by the month alternatives. *)
Lemma month_alts_pad2 {X} m (k : Z → string → option X) s x :
  1 ≤ m ≤ 12 → k m s = Some x → alts_then month_alts k (pad2 m +:+ s) = Some x.
Proof.
  intros Hm Hk.
  assert (m = 1 ∨ m = 2 ∨ m = 3 ∨ m = 4 ∨ m = 5 ∨ m = 6 ∨ m = 7 ∨ m = 8 ∨ m = 9 ∨
          m = 10 ∨ m = 11 ∨ m = 12) as Hc by lia.
  unfold pad2. rewrite !string_app_cons, string_app_nil_l.
  repeat destruct Hc as [->|Hc]; [..|subst]; vm_compute; by rewrite Hk.
Qed.

(** A printed day is read back by the day alternatives. *)
Lemma day_alts_pad2 {X} d (k : Z → string → option X) s x :
  1 ≤ d ≤ 31 → k d s = Some x → alts_then day_alts k (pad2 d +:+ s) = Some x.
Proof.
  intros Hd Hk.
  assert (d = 1 ∨ d = 2 ∨ d = 3 ∨ d = 4 ∨ d = 5 ∨ d = 6 ∨ d = 7 ∨ d = 8 ∨ d = 9 ∨ d = 10 ∨ d = 11 ∨ d = 12 ∨ d = 13 ∨ d = 14 ∨ d = 15 ∨ d = 16 ∨ d = 17 ∨ d = 18 ∨ d = 19 ∨ d = 20 ∨ d = 21 ∨ d = 22 ∨ d = 23 ∨ d = 24 ∨ d = 25 ∨ d = 26 ∨ d = 27 ∨ d = 28 ∨ d = 29 ∨ d = 30 ∨ d = 31) as Hc by lia.
  unfold pad2. rewrite !string_app_cons, string_app_nil_l.
  repeat destruct Hc as [->|Hc]; [..|subst]; vm_compute; by rewrite Hk.
Qed.

Lemma lit_eq c s : lit c (String c s) = Some s.
Proof. unfold lit. by rewrite Ascii.eqb_refl. Qed.

Lemma field_in lo hi v : lo ≤ v ≤ hi → field lo hi v = Ok v.
Proof. intros H. unfold field. by rewrite (proj2 (andb_true_iff _ _)) by lia. Qed.

(** [strptime] reads a date written with four-digit year back. *)
Lemma strptime_written y m d :
  1000 ≤ y ≤ 9999 → valid_ymd y m d = true →
  strptime_ymd (decimal y +:+ "-" +:+ pad2 m +:+ "-" +:+ pad2 d) =
  Ok (mk_struct_time y m d 0 0 0).
Proof.
  intros Hy Hv. pose proof Hv as Hv'.
  unfold valid_ymd in Hv'. rewrite !andb_true_iff, !Z.leb_le in Hv'.
  assert (days_in_month y m ≤ 31) by (unfold days_in_month; repeat case_match; lia).
  unfold strptime_ymd, match_ymd. rewrite four_digits_decimal by done. cbn [mbind option_bind lit].
  rewrite string_app_cons, string_app_nil_l, lit_eq. cbv [mbind option_bind].
  rewrite (month_alts_pad2 m _ _ (y, m, d, "")).
  - cbn. by rewrite Hv.
  - lia.
  - rewrite string_app_cons, string_app_nil_l, lit_eq. cbv [mbind option_bind].
    rewrite <- (string_app_nil_r (pad2 d)).
    by apply (day_alts_pad2 d _ "" (y, m, d, "")); [lia|].
Qed.

(** ** The years [set-date] accepts before 1900 *)

Lemma is_leap_shift y c : 1 ≤ y ≤ 99 → c = 1900 ∨ c = 2000 → is_leap (y + c) = is_leap y.
Proof.
  intros Hy Hc. unfold is_leap.
  destruct (Z.eqb_spec ((y + c) mod 4) 0), (Z.eqb_spec (y mod 4) 0),
    (Z.eqb_spec ((y + c) mod 100) 0), (Z.eqb_spec (y mod 100) 0),
    (Z.eqb_spec ((y + c) mod 400) 0), (Z.eqb_spec (y mod 400) 0);
    simpl; Z.to_euclidean_division_equations; lia.
Qed.
Lemma strftime_ok t :
  date_ok t →
  strftime_ymd t = Ok (decimal (tm_year t) +:+ "-" +:+ pad2 (tm_mon t) +:+ "-" +:+ pad2 (tm_mday t)).
Proof.
  intros (Hy & Hv & Hh & Hmi & Hs). pose proof Hv as Hv'.
  unfold valid_ymd in Hv'. rewrite !andb_true_iff, !Z.leb_le in Hv'.
  assert (days_in_month (tm_year t) (tm_mon t) ≤ 31)
    by (unfold days_in_month; repeat case_match; lia).
  unfold strftime_ymd, year_2k.
  rewrite (proj2 (Z.leb_le 1900 _)) by lia.
  rewrite !field_in by lia. reflexivity.
Qed.

(** C26: the date [toXML] writes is read back by [fromXML]: for a
    date [time.localtime] can return with a year of four digits,
    [strptime(strftime(d))] is the same calendar day at midnight. *)
Theorem strftime_strptime t :
  date_ok t → (strftime_ymd t ≫= strptime_ymd) = Ok (midnight t).
Proof.
  intros Hd. rewrite strftime_ok by done. cbn [mbind res_bind].
  destruct Hd as (? & ? & _). unfold midnight. apply strptime_written; [lia|done].
Qed.

(** C27: a date before 1900 that [set-date] accepts is not written
    back as it was read: a year from 100 to 1899 makes [strftime]
    raise [ValueError], and a year from 1 to 99 is written, and read
    back, as a year of the 1900s or 2000s. *)
Theorem strftime_before_1900 y m d :
  valid_ymd y m d = true → y < 1900 →
  (strftime_ymd (mk_struct_time y m d 0 0 0) ≫= strptime_ymd) =
  if y <? 100 then Ok (mk_struct_time (y + if y <=? 68 then 2000 else 1900) m d 0 0 0)
  else Raise ValueError.
Proof.
  intros Hv Hy. pose proof Hv as Hv'.
  unfold valid_ymd in Hv'. rewrite !andb_true_iff, !Z.leb_le in Hv'.
  destruct (Z.ltb_spec y 100).
  - set (c := if y <=? 68 then 2000 else 1900).
    assert (year_2k y = Ok (y + c)) as Hyk.
    { unfold year_2k, c. destruct (Z.leb_spec y 68), (Z.leb_spec 1900 y),
        (Z.leb_spec 69 y), (Z.leb_spec y 99), (Z.leb_spec 0 y); simpl; f_equal; lia. }
    assert (c = 1900 ∨ c = 2000) as Hc by (unfold c; destruct (y <=? 68); auto).
    assert (valid_ymd (y + c) m d = true).
    { revert Hv. unfold valid_ymd, days_in_month. rewrite is_leap_shift by lia.
      rewrite !andb_true_iff, !Z.leb_le. lia. }
    assert (days_in_month y m ≤ 31) by (unfold days_in_month; repeat case_match; lia).
    unfold strftime_ymd. cbn [tm_year tm_mon tm_mday tm_hour tm_min tm_sec]. rewrite Hyk.
    rewrite !field_in by lia. cbn [mbind res_bind]. apply strptime_written; [lia|done].
  - unfold strftime_ymd, year_2k. simpl tm_year.
    destruct (Z.leb_spec 1900 y), (Z.leb_spec 69 y), (Z.leb_spec y 99),
      (Z.leb_spec 0 y), (Z.leb_spec y 68); simpl; lia || done.
Qed.
(** Termination of the [%Y] printer: the fuel [decimal] gives,
    one more than the logarithm of the year, never runs out: for every
    year [y ≥ 0], [decimal y] is the decimal writing of [y]
    ([decimal_digits], defined without fuel by well-founded recursion
    on [y]), and any fuel above the logarithm gives the same string. *)
Theorem decimal_terminates y f :
  0 ≤ y → (Z.to_nat (Z.log2 y) < f)%nat →
  decimal y = decimal_digits y "" ∧ decimal_go f y "" = decimal y.
Proof.
  intros Hy Hf. assert (decimal y = decimal_digits y "") as Hd.
  { unfold decimal. apply decimal_go_digits. split; [done|]. apply log2_fuel; lia. }
  split; [done|]. rewrite Hd. destruct f as [|f]; [lia|].
  apply decimal_go_digits. split; [done|]. by apply log2_fuel.
Qed.

Lemma strftime_strptime_witness :
  date_ok (mk_struct_time 2012 2 29 23 59 60) ∧
  (strftime_ymd (mk_struct_time 2012 2 29 23 59 60) ≫= strptime_ymd) =
    Ok (mk_struct_time 2012 2 29 0 0 0).
Proof.
  assert (date_ok (mk_struct_time 2012 2 29 23 59 60)) as H
    by (split; [cbn; lia|split; [reflexivity|cbn; lia]]).
  split; [exact H|exact (strftime_strptime _ H)].
Defined.

Lemma strftime_before_1900_witness :
  valid_ymd 50 6 1 = true ∧ 50 < 1900 ∧
  (strftime_ymd (mk_struct_time 50 6 1 0 0 0) ≫= strptime_ymd) =
    Ok (mk_struct_time 2050 6 1 0 0 0).
Proof.
  split; [reflexivity|split; [lia|]].
  exact (strftime_before_1900 50 6 1 eq_refl ltac:(lia)).
Defined.
Lemma decimal_terminates_witness :
  (0 ≤ 2012 ∧ (Z.to_nat (Z.log2 2012) < 20)%nat) ∧
  decimal 2012 = decimal_digits 2012 "" ∧ decimal_go 20 2012 "" = decimal 2012.
Proof.
  assert (0 ≤ 2012 ∧ (Z.to_nat (Z.log2 2012) < 20)%nat) as [H1 H2] by (split; [lia|vm_compute; lia]).
  split; [done|]. exact (decimal_terminates 2012 20 H1 H2).
Defined.
End Time.
