(* ===== verification/Xml.v ===== *)
(** * The element trees of [lxml.objectify], as xit.py uses them

    [XITTestRegistry.toXML] builds a tree with an [ElementMaker] and
    serialises it with [lxml.etree.tostring]; [fromXML] and
    [JUnitTestResult.fromXML] parse a file with [objectify.parse] and
    walk the tree with [iterchildren(tag=...)], [find], [attrib] and
    [text] (src/registry/xit.py, lines 57-61, 97-196 and 528-539).
    The model is the tree itself: an element has a (namespaced) tag,
    its attributes as a map, its text ([None] for an element without
    text) and its children in document order.  The text serialisation
    of [tostring] and the parser are not modelled: a tree written and
    read back is taken to be the same tree, which is what lxml
    guarantees for the trees [toXML] builds (leaf elements with text,
    attributes with string values); the whitespace [pretty_print]
    adds is the text of container elements, which xit.py never
    reads. *)

From S2P Require Import Prelude.
Open Scope xit_scope.

#[local] Set Warnings "-register-all".

Module ET.

Inductive element := Element {
  tag : string;
  attrib : gmap string string;
  text : option string;
  children : list element
}.

(** [XMLNS] and [xmlns_tag] (lines 57-61): the fully qualified tag
    [iterchildren] expects. *)
Definition XMLNS : string := "http://www.x.org/xorg-integration-testing".

Definition xmlns_tag (tag : string) : string := "{" +:+ XMLNS +:+ "}" +:+ tag.

(** [E.tag()] and [E.tag(text)] of the [ElementMaker] created with
    [namespace = XMLNS]: a new element without attributes or
    children. *)
Definition E (tag : string) (text : option string) : element :=
  Element (xmlns_tag tag) ∅ text [].

(** [el.set(key, value)]: add or replace an attribute. *)
Definition set (key value : string) (e : element) : element :=
  Element (tag e) (<[key := value]> (attrib e)) (text e) (children e).

(** [parent.append(child)]: the child becomes the last one. *)
Definition append (child : element) (e : element) : element :=
  Element (tag e) (attrib e) (text e) (children e ++ [child]).

(** [el.iterchildren(tag=t)]: the children with tag [t], in order. *)
Definition iterchildren (t : string) (e : element) : list element :=
  filter (λ c, tag c = t) (children e).

(** [el.find(t)]: the first child with tag [t], or [None]. *)
Definition find (t : string) (e : element) : option element :=
  head (iterchildren t e).

(** [el.attrib[key]]: [KeyError] when the attribute is missing. *)
Definition attrib_get (key : string) (e : element) : res string :=
  match attrib e !! key with Some v => Ok v | None => Raise KeyError end.

(** [try: v = el.attrib[key] except KeyError: v = default]. *)
Definition attrib_default (key default : string) (e : element) : string :=
  match attrib e !! key with Some v => v | None => default end.

(** [el.text] where xit.py stores it in a string field of a model
    class; the classes of the model hold strings, so an element
    without text ([None] in Python) is read as the empty string. *)
Definition text_str (e : element) : string :=
  match text e with Some s => s | None => "" end.

(** ** Facts about building and walking trees *)

Lemma element_eta e : Element (tag e) (attrib e) (text e) (children e) = e.
Proof. by destruct e. Qed.

Lemma xmlns_tag_inj t1 t2 : xmlns_tag t1 = xmlns_tag t2 → t1 = t2.
Proof. unfold xmlns_tag. intros H. by do 3 apply string_app_inj_l in H. Qed.

(** A loop that appends one child per element of a list. *)
Lemma foldl_append {A} (step : element → A → element) (f : A → element) e l :
  (∀ e x, step e x = append (f x) e) →
  foldl step e l = Element (tag e) (attrib e) (text e) (children e ++ (f <$> l)).
Proof.
  intros Hstep. revert e. induction l as [|x l IH]; intros e; simpl.
  - by rewrite app_nil_r, element_eta.
  - rewrite Hstep, IH. simpl. by rewrite <-app_assoc.
Qed.

(** [for k, v in d.iteritems(): el.set(k, v)]: the keys of a
    dictionary are distinct, so the order does not matter. *)
Lemma foldl_set_map e (m : gmap string string) :
  foldl (λ e '(k, v), set k v e) e (map_to_list m) =
  Element (tag e) (m ∪ attrib e) (text e) (children e).
Proof.
  rewrite <-(list_to_map_to_list m) at 2.
  pose proof (NoDup_fst_map_to_list m) as Hnd. revert e Hnd.
  induction (map_to_list m) as [|[k v] l IH]; intros e Hnd; simpl.
  - by rewrite map_empty_union, element_eta.
  - apply NoDup_cons in Hnd as [Hk Hnd]. rewrite IH by done. simpl.
    f_equal. rewrite <-insert_union_l, insert_union_r; [done|].
    by apply not_elem_of_list_to_map_1.
Qed.

(** The children of one kind among a list of elements of one tag. *)
Lemma filter_tag_fmap {A} t t' (f : A → element) (l : list A) :
  (∀ x, tag (f x) = t') →
  filter (λ c, tag c = t) (f <$> l) = if decide (t' = t) then f <$> l else [].
Proof.
  intros Hf. induction l as [|x l IH]; [by case_decide|].
  rewrite fmap_cons, filter_cons, Hf, IH. by case_decide.
Qed.

End ET.

(** Two tags of the registry namespace with different local names
    differ. *)
Ltac tag_neq := let H := fresh in intros H%ET.xmlns_tag_inj; discriminate H.

(** Decide the comparisons of two namespaced tags. *)
Ltac tag_decide :=
  repeat match goal with
  | |- context [decide (ET.xmlns_tag ?a = ET.xmlns_tag ?b)] =>
      first [rewrite (decide_True _ _ (eq_refl (ET.xmlns_tag a)))
            | rewrite (decide_False _ _ ltac:(tag_neq) : (if decide (ET.xmlns_tag a = ET.xmlns_tag b) then _ else _) = _)]
  end.
