(* ===== verification/Fixtures.v ===== *)
(** * Concrete registries, runs and a shell

    Small inputs the witnesses of the theorems evaluate on: the
    registries and runs of the specification's example scenarios
    (section 8) and a shell whose every command succeeds. *)

From S2P Require Import Prelude Annotations TestCase ModuleVersion Registry.
Open Scope xit_scope.

Module Fixtures.
Import ModVer.

Definition date0 : struct_time := mk_struct_time 2012 12 31 0 0 0.

(** A shell on which [rpm -q] answers with exit status 0. *)
Definition sh_ok : shell := mkShell (λ _, (0%Z, "xorg-x11-server-Xorg-1.13.0-1.fc18" +:+ String "010"%char "")).

Definition test (suite name : string) (status : bool) : Test.XITTest :=
  Test.mkXITTest suite name status [] [] [].

Definition result (suite name : string) (status : bool) : JUnit.JUnitTestResult :=
  JUnit.mkJUnitTestResult suite name status [].

(** Scenarios 1 and 2: the registry expects [TestCaseA] to pass and
    knows nothing of [TestCaseB]; the run fails [TestCaseA] and
    passes [TestCaseB]. *)
Definition reg_verify : Reg.XITTestRegistry :=
  Reg.mkXITTestRegistry (Reg.from_list [test "InputTest" "TestCaseA" true;
                                        test "InputTest" "TestCaseC" false])
    "xorg-1.13" date0 [mkXITModuleVersion "xorg-x11-server-Xorg" "1.13.0" "rpm"].

Definition run_verify : list JUnit.JUnitTestResult :=
  [result "InputTest" "TestCaseB" true; result "InputTest" "TestCaseA" false].

(** Scenario 4: registry A has tests X and Y, registry B has Y (with
    another status) and Z. *)
Definition reg_A : Reg.XITTestRegistry :=
  Reg.mkXITTestRegistry (Reg.from_list [test "S" "X" true; test "S" "Y" true])
    "A" date0 [mkXITModuleVersion "libfoo" "1.0" "git"].

Definition reg_B : Reg.XITTestRegistry :=
  Reg.mkXITTestRegistry (Reg.from_list [test "S" "Y" false; test "S" "Z" true])
    "B" date0 [mkXITModuleVersion "libfoo" "1.1" "git"].

(** A registry with every test of [reg_A]. *)
Definition reg_A' : Reg.XITTestRegistry :=
  Reg.mkXITTestRegistry (Reg.from_list [test "S" "X" false; test "S" "Y" true;
                                        test "S" "W" true])
    "A2" date0 [].
(** A registry with annotations, as [edit] commands leave it: bugs
    in insertion order, a commit fix with its repository, an info
    note, a date with a time of day, module versions unsorted. *)
Definition reg_annot : Reg.XITTestRegistry :=
  Reg.mkXITTestRegistry
    (Reg.from_list [Test.mkXITTest "InputTest" "TestCaseA" false
                      [Bug.mkXITBug "bugzilla" "https://bugs.freedesktop.org/2";
                       Bug.mkXITBug "bugzilla" "https://bugs.freedesktop.org/1"]
                      [Info.XITInfoText "flaky on slow machines"]
                      [Fix.XITFixGit "a1b2c3" {[ "repo" := "xserver" ]}];
                    test "InputTest" "TestCaseB" true])
    "annotated" (mk_struct_time 2013 2 28 17 45 3)
    [mkXITModuleVersion "xorg-x11-server-Xorg" "1.13.0" "rpm";
     mkXITModuleVersion "libfoo" "1.0" "git"].
End Fixtures.
