(* ===== verification/Output.v ===== *)
(** * Printed output of the command-line interface

    The CLI methods of [XITTestRegistryCLI] print lines with [print].
    A line is modelled by the data handed to [format_str.format]: its
    colour (a [termcolors] attribute, lines 73-84), the format string
    it is formatted with, and the fields.  [termcolors.disable()]
    blanks the colour codes when standard output is not a terminal;
    the colour recorded here is the attribute the code selects. *)

From S2P Require Import Prelude.
Open Scope xit_scope.

(** [PLAIN] is a line printed with no colour code at all. *)
Inductive color := DEFAULT | RED | GREEN | BLUE | PLAIN.

#[export] Instance color_eq_dec : EqDecision color.
Proof. solve_decision. Defined.

(** The format strings of the CLI. *)
Inductive fmt :=
| FmtModVersions                               (* "{0:<30} {1:<50} {2:<50}" *)
| FmtVerify (sname_len tname_len : nat)        (* "{0:<5}{1:<%d}{2:<%d}{3:>10}{4:>10}" *)
| FmtCompare (sname_len tname_len w1 w2 : nat) (* "{0:<4}{1:<%d}{2:<%d}{3:>%d}{4:>%d}" *)
| FmtList                                      (* "{:<50}{:<50}{:>10}" *)
| FmtText                                      (* [print str(x)] *)
| FmtBlank.                                    (* a bare [print] *)

Record line := mkLine {
  line_color : color;
  line_fmt : fmt;
  line_fields : list string
}.

Definition blank_line : line := mkLine DEFAULT FmtBlank [].

(** [print_modversions] (lines 623-629): red when colours are asked
    for and the two versions differ. *)
Definition print_modversions (name v1 v2 : string) (use_colors : bool) : line :=
  mkLine (if use_colors && negb (String.eqb v1 v2) then RED else DEFAULT)
         FmtModVersions [name; v1; v2].
