(* ===== verification/Comparison.v ===== *)
(** * The comparison engine of the specification: a sorted merge-join

    The specification (section 4.1) describes a comparison engine: two
    sequences sorted by key are aligned by a merge-join that emits one
    event per key of their union, in increasing key order, classifying
    it as present on both sides (agreeing or not) or on one side only.
    This file states that engine as a reference definition
    [merge_join], proves the properties the specification lists for it
    (order, completeness, one event per key, classification), and
    packages them as the interface [MergeJoinSpec] that the code's
    merge loop ([compare_meta], CompareMeta.v) is measured against. *)

From S2P Require Import Prelude.
Open Scope xit_scope.

(** An event of the engine: the left side is an element of the first
    sequence, the right side one of the second (a registry's test and
    a run's result, two module versions, ...). *)
Inductive event (A B : Type) :=
| BothAgree (l : A) (r : B)
| BothDisagree (l : A) (r : B)
| OnlyLeft (l : A)
| OnlyRight (r : B).
Arguments BothAgree {A B} l r.
Arguments BothDisagree {A B} l r.
Arguments OnlyLeft {A B} l.
Arguments OnlyRight {A B} r.

Section merge_join.
Context {A B K : Type} `{PyOrd K} (keyl : A → K) (keyr : B → K)
  (agree : A → B → bool).

Fixpoint merge_join (L : list A) (R : list B) : list (event A B) :=
  match L with
  | [] => OnlyRight <$> R
  | x :: L' =>
      (fix mj R :=
         match R with
         | [] => OnlyLeft <$> L
         | y :: R' =>
             match py_cmp (keyl x) (keyr y) with
             | Eq => (if agree x y then BothAgree x y else BothDisagree x y)
                       :: merge_join L' R'
             | Lt => OnlyLeft x :: merge_join L' R
             | Gt => OnlyRight y :: mj R'
             end
         end) R
  end.

Definition event_key (e : event A B) : K :=
  match e with
  | BothAgree l _ | BothDisagree l _ | OnlyLeft l => keyl l
  | OnlyRight r => keyr r
  end.

(** What an event says about the inputs: the classification the
    specification asks for. *)
Definition event_sound (L : list A) (R : list B) (e : event A B) : Prop :=
  match e with
  | BothAgree l r => l ∈ L ∧ r ∈ R ∧ keyl l = keyr r ∧ agree l r = true
  | BothDisagree l r => l ∈ L ∧ r ∈ R ∧ keyl l = keyr r ∧ agree l r = false
  | OnlyLeft l => l ∈ L ∧ keyl l ∉ keyr <$> R
  | OnlyRight r => r ∈ R ∧ keyr r ∉ keyl <$> L
  end.

(** The element of a list with a given key, if any. *)
Fixpoint find_key {C} (f : C → K) (l : list C) (k : K) : option C :=
  match l with
  | [] => None
  | z :: l' => if decide (py_cmp (f z) k = Eq) then Some z else find_key f l' k
  end.

Definition both_event (x : A) (y : B) : event A B :=
  if agree x y then BothAgree x y else BothDisagree x y.

(** The event of a right element [y], and of a left element [x],
    looked up by key on the other side. *)
Definition right_view (L : list A) (y : B) : event A B :=
  match find_key keyl L (keyr y) with
  | Some x => both_event x y
  | None => OnlyRight y
  end.

Definition left_view (R : list B) (x : A) : event A B :=
  match find_key keyr R (keyl x) with
  | Some y => both_event x y
  | None => OnlyLeft x
  end.

Definition is_only_left (e : event A B) : bool :=
  match e with OnlyLeft _ => true | _ => false end.
Definition is_only_right (e : event A B) : bool :=
  match e with OnlyRight _ => true | _ => false end.
End merge_join.

(** The status markers of the presentation (specification, section
    4.1): [++] and [--] for an expectation met, [XX] for one not met,
    [??] for a result with no expectation on record. *)
Definition spec_marker {A B} (expected : A → bool) (e : event A B) : string :=
  match e with
  | BothAgree l _ => if expected l then "++" else "--"
  | BothDisagree _ _ => "XX"
  | OnlyRight _ => "??"
  | OnlyLeft _ => ""
  end.

(** ** Strictly sorted keys *)
Section sorted_keys.
Context {A K : Type} `{PyOrd K} (key : A → K).
Abbreviation klt := (λ a b : K, py_cmp a b = Lt).

Lemma klt_trans a b c : klt a b → klt b c → klt a c.
Proof. apply py_cmp_lt_trans. Qed.

Lemma klt_irrefl a : ¬ klt a a.
Proof. cbn. by rewrite py_cmp_refl. Qed.

Lemma klt_asym a b : klt a b → klt b a → False.
Proof. intros Hab Hba. apply (klt_irrefl a). exact (klt_trans _ _ _ Hab Hba). Qed.

Lemma sorted_keys_cons (x : A) (L : list A) :
  StronglySorted klt (key <$> x :: L) →
  StronglySorted klt (key <$> L) ∧ ∀ k, k ∈ key <$> L → klt (key x) k.
Proof.
  rewrite fmap_cons, StronglySorted_cons, Forall_forall. naive_solver.
Qed.

Lemma strict_sorted_NoDup (ks : list K) : StronglySorted klt ks → NoDup ks.
Proof.
  induction 1 as [|k ks _ IH Hk]; constructor; [|done].
  intros Hin. rewrite Forall_forall in Hk. by apply (klt_irrefl k), Hk.
Qed.
End sorted_keys.

(** ** Properties of the reference engine *)
Section merge_join_facts.
Context {A B K : Type} `{PyOrd K} (keyl : A → K) (keyr : B → K)
  (agree : A → B → bool).
Abbreviation mj := (merge_join keyl keyr agree).
Abbreviation ekey := (event_key keyl keyr).
Abbreviation klt := (λ a b : K, py_cmp a b = Lt).
Abbreviation sound := (event_sound keyl keyr agree).

Lemma ekey_OnlyLeft (L : list A) : ekey <$> (OnlyLeft (B:=B) <$> L) = keyl <$> L.
Proof. by rewrite <-list_fmap_compose. Qed.

Lemma ekey_OnlyRight (R : list B) : ekey <$> (OnlyRight (A:=A) <$> R) = keyr <$> R.
Proof. by rewrite <-list_fmap_compose. Qed.

Lemma merge_join_nil_l (R : list B) : mj [] R = OnlyRight <$> R.
Proof. reflexivity. Qed.

Lemma merge_join_nil_r (L : list A) : mj L [] = OnlyLeft <$> L.
Proof. destruct L; reflexivity. Qed.

Lemma merge_join_cons_cons x y (L : list A) (R : list B) :
  mj (x :: L) (y :: R) =
    match py_cmp (keyl x) (keyr y) with
    | Eq => (if agree x y then BothAgree x y else BothDisagree x y) :: mj L R
    | Lt => OnlyLeft x :: mj L (y :: R)
    | Gt => OnlyRight y :: mj (x :: L) R
    end.
Proof. reflexivity. Qed.

Lemma ekey_both x y : ekey (if agree x y then BothAgree x y else BothDisagree x y) = keyl x.
Proof. by destruct (agree x y). Qed.

(** The keys of the events are the keys of the two inputs. *)
Lemma merge_join_keys (L : list A) (R : list B) k :
  k ∈ ekey <$> mj L R ↔ k ∈ keyl <$> L ∨ k ∈ keyr <$> R.
Proof.
  revert R. induction L as [|x L IHL]; intros R.
  { rewrite merge_join_nil_l, ekey_OnlyRight. set_solver. }
  induction R as [|y R IHR].
  { rewrite merge_join_nil_r, ekey_OnlyLeft. set_solver. }
  rewrite merge_join_cons_cons. destruct (py_cmp (keyl x) (keyr y)) eqn:E.
  - apply py_cmp_eq in E. rewrite fmap_cons, ekey_both.
    rewrite elem_of_cons, IHL, !fmap_cons, !elem_of_cons, <-E. tauto.
  - rewrite !fmap_cons, !elem_of_cons, IHL, fmap_cons, elem_of_cons. simpl. tauto.
  - rewrite !fmap_cons, !elem_of_cons, IHR, fmap_cons, elem_of_cons. simpl. tauto.
Qed.

(** Every key the events carry is above a bound of both inputs. *)
Lemma merge_join_lower_bound k (L : list A) (R : list B) :
  (∀ k', k' ∈ keyl <$> L ∨ k' ∈ keyr <$> R → klt k k') →
  ∀ e, e ∈ mj L R → klt k (ekey e).
Proof.
  intros Hk e He. apply Hk, merge_join_keys. by apply list_elem_of_fmap_2.
Qed.

Lemma merge_join_keys_above k (L : list A) (R : list B) :
  (∀ k', k' ∈ keyl <$> L ∨ k' ∈ keyr <$> R → klt k k') →
  Forall (klt k) (ekey <$> mj L R).
Proof. intros Hk. apply Forall_forall. intros k' ?. by apply Hk, merge_join_keys. Qed.

Lemma klt_keys_cons {C} (f : C → K) k z (l : list C) :
  klt k (f z) → (∀ k', k' ∈ f <$> l → klt (f z) k') →
  ∀ k', k' ∈ f <$> z :: l → klt k k'.
Proof.
  intros Hz Hl k'. rewrite fmap_cons, elem_of_cons. intros [->|Hk']; [done|].
  exact (klt_trans _ _ _ Hz (Hl k' Hk')).
Qed.

(** Order: the events come in strictly increasing key order. *)
Lemma merge_join_sorted (L : list A) (R : list B) :
  StronglySorted klt (keyl <$> L) → StronglySorted klt (keyr <$> R) →
  StronglySorted klt (ekey <$> mj L R).
Proof.
  revert R. induction L as [|x L IHL]; intros R HL HR.
  { by rewrite merge_join_nil_l, ekey_OnlyRight. }
  induction R as [|y R IHR].
  { by rewrite merge_join_nil_r, ekey_OnlyLeft. }
  pose proof HL as [HL' HxL]%sorted_keys_cons.
  pose proof HR as [HR' HyR]%sorted_keys_cons.
  rewrite merge_join_cons_cons. destruct (py_cmp (keyl x) (keyr y)) eqn:E;
    rewrite fmap_cons; apply StronglySorted_cons; split.
  - apply merge_join_keys_above. rewrite ekey_both.
    apply py_cmp_eq in E. rewrite E in HxL |- *. intros k [|]; auto.
  - by apply IHL.
  - apply merge_join_keys_above. intros k [|Hk]; [by auto|].
    by eapply klt_keys_cons.
  - by apply IHL.
  - apply (proj1 (py_cmp_gt_lt _ _)) in E.
    apply merge_join_keys_above. intros k [Hk|]; [|by auto].
    by eapply klt_keys_cons.
  - by apply IHR.
Qed.

Lemma event_sound_cons_l x (L : list A) (R : list B) e :
  sound L R e → klt (keyl x) (ekey e) → sound (x :: L) R e.
Proof.
  destruct e; simpl; rewrite ?fmap_cons, ?elem_of_cons; try naive_solver.
  intros [? Hn] Hlt. split; [done|]. intros [Heq|?]; [|done].
  rewrite Heq in Hlt. by apply klt_irrefl in Hlt.
Qed.

Lemma event_sound_cons_r y (L : list A) (R : list B) e :
  sound L R e → klt (keyr y) (ekey e) → sound L (y :: R) e.
Proof.
  destruct e; simpl; rewrite ?fmap_cons, ?elem_of_cons; try naive_solver.
  intros [? Hn] Hlt. split; [done|]. intros [Heq|?]; [|done].
  rewrite Heq in Hlt. by apply klt_irrefl in Hlt.
Qed.

Lemma not_in_keys_above {C} (f : C → K) k (l : list C) :
  (∀ k', k' ∈ f <$> l → klt k k') → k ∉ f <$> l.
Proof. intros Hl Hin. by apply (klt_irrefl k), Hl. Qed.

(** Classification: each event is of the right kind for its key. *)
Lemma merge_join_sound (L : list A) (R : list B) :
  StronglySorted klt (keyl <$> L) → StronglySorted klt (keyr <$> R) →
  Forall (sound L R) (mj L R).
Proof.
  revert R. induction L as [|x L IHL]; intros R HL HR.
  { rewrite merge_join_nil_l, Forall_fmap, Forall_forall. intros r Hr.
    simpl. split; [done|]. apply not_elem_of_nil. }
  induction R as [|y R IHR].
  { rewrite merge_join_nil_r, Forall_fmap, Forall_forall. intros l Hl.
    simpl. split; [done|]. apply not_elem_of_nil. }
  pose proof HL as [HL' HxL]%sorted_keys_cons.
  pose proof HR as [HR' HyR]%sorted_keys_cons.
  rewrite merge_join_cons_cons. destruct (py_cmp (keyl x) (keyr y)) eqn:E;
    apply Forall_cons; split.
  - apply py_cmp_eq in E. simpl. destruct (agree x y) eqn:Ea; simpl; set_solver.
  - apply py_cmp_eq in E. rewrite Forall_forall. intros e He.
    assert (klt (keyl x) (ekey e)) as Hx.
    { eapply merge_join_lower_bound; [|done]. rewrite E in HxL |- *.
      intros k [|]; auto. }
    apply event_sound_cons_l; [apply event_sound_cons_r|done].
    + by eapply Forall_forall; [apply IHL|].
    + by rewrite <-E.
  - cbv beta iota delta [event_sound]. split; [set_solver|].
    apply not_in_keys_above. by eapply klt_keys_cons.
  - rewrite Forall_forall. intros e He. apply event_sound_cons_l.
    + by eapply Forall_forall; [apply IHL|].
    + eapply merge_join_lower_bound; [|done]. intros k [|Hk]; [by auto|].
      by eapply klt_keys_cons.
  - apply (proj1 (py_cmp_gt_lt _ _)) in E. cbv beta iota delta [event_sound].
    split; [set_solver|].
    apply not_in_keys_above. by eapply klt_keys_cons.
  - apply (proj1 (py_cmp_gt_lt _ _)) in E. rewrite Forall_forall. intros e He.
    apply event_sound_cons_r.
    + by eapply Forall_forall; [apply IHR|].
    + eapply merge_join_lower_bound; [|done]. intros k [Hk|]; [|by auto].
      by eapply klt_keys_cons.
Qed.

Lemma find_key_skip {C} (f : C → K) z (l : list C) k :
  py_cmp (f z) k ≠ Eq → find_key f (z :: l) k = find_key f l k.
Proof. intros Hne. simpl. by rewrite decide_False. Qed.

Lemma find_key_head {C} (f : C → K) z (l : list C) k :
  f z = k → find_key f (z :: l) k = Some z.
Proof. intros <-. simpl. by rewrite decide_True by apply py_cmp_refl. Qed.

Lemma find_key_above {C} (f : C → K) (l : list C) k :
  (∀ k', k' ∈ f <$> l → klt k k') → find_key f l k = None.
Proof.
  induction l as [|z l IH]; intros Hl; [done|].
  rewrite find_key_skip.
  - apply IH. intros k' ?. apply Hl. rewrite fmap_cons. by apply elem_of_cons; right.
  - rewrite py_cmp_antisym. assert (klt k (f z)) as ->; [|done].
    apply Hl. rewrite fmap_cons. by apply elem_of_cons; left.
Qed.

Lemma find_key_Some_NoDup {C} (f : C → K) (l : list C) k z :
  NoDup (f <$> l) → z ∈ l → f z = k → find_key f l k = Some z.
Proof.
  induction l as [|z' l IH]; [set_solver|]. rewrite fmap_cons.
  intros [Hz' Hnd]%NoDup_cons [->|Hz]%elem_of_cons Hk; [by apply find_key_head|].
  rewrite find_key_skip; [by apply IH|]. intros Heq%py_cmp_eq. apply Hz'.
  rewrite Heq, <-Hk. by apply list_elem_of_fmap_2.
Qed.

Lemma find_key_None {C} (f : C → K) (l : list C) k :
  k ∉ f <$> l → find_key f l k = None.
Proof.
  induction l as [|z l IH]; [done|]. rewrite fmap_cons, elem_of_cons.
  intros Hk. rewrite find_key_skip; [apply IH; tauto|]. intros Heq%py_cmp_eq. subst k. tauto.
Qed.

Lemma klt_ne_eq a b : klt a b → py_cmp b a ≠ Eq.
Proof. intros Hab Hba%py_cmp_eq. subst. by apply klt_irrefl in Hab. Qed.

(** Keeping the events that have a right element gives, in the order
    of [R], one event per element of [R], classified by looking its
    key up in [L]. *)
Lemma merge_join_right_view (L : list A) (R : list B) :
  StronglySorted klt (keyl <$> L) → StronglySorted klt (keyr <$> R) →
  filter (λ e, is_only_left e = false) (mj L R) = right_view keyl keyr agree L <$> R.
Proof.
  revert R. induction L as [|x L IHL]; intros R HL HR.
  { rewrite merge_join_nil_l. induction R as [|y R IH]; [done|].
    rewrite !fmap_cons, filter_cons_True by done. f_equal.
    apply IH. by apply sorted_keys_cons in HR as [? _]. }
  induction R as [|y R IHR].
  { rewrite merge_join_nil_r. clear. induction L as [|x' L IH]; [done|].
    rewrite fmap_cons, filter_cons_False by done. apply IH. }
  pose proof HL as [HL' HxL]%sorted_keys_cons.
  pose proof HR as [HR' HyR]%sorted_keys_cons.
  rewrite merge_join_cons_cons, fmap_cons.
  unfold right_view at 1. destruct (py_cmp (keyl x) (keyr y)) eqn:E.
  - apply py_cmp_eq in E. rewrite find_key_head by done.
    rewrite filter_cons_True by (unfold both_event; by destruct (agree x y)).
    f_equal. rewrite IHL by done. apply list_fmap_ext. intros i y' Hy'.
    unfold right_view. rewrite find_key_skip; [done|]. rewrite E.
    rewrite (HyR (keyr y')); [done|].
    by eapply list_elem_of_fmap_2, list_elem_of_lookup_2.
  - rewrite filter_cons_False by done. rewrite IHL by done.
    rewrite fmap_cons. f_equal; [|apply list_fmap_ext; intros i y' Hy'];
      unfold right_view; rewrite find_key_skip; try done; try by rewrite E.
    assert (keyr y' ∈ keyr <$> R) as Hin
      by by eapply list_elem_of_fmap_2, list_elem_of_lookup_2.
    by rewrite (klt_trans _ _ _ E (HyR (keyr y') Hin)).
  - apply (proj1 (py_cmp_gt_lt _ _)) in E.
    rewrite find_key_above, filter_cons_True by (done || by eapply klt_keys_cons).
    f_equal. by apply IHR.
Qed.

(** Symmetrically, keeping the events that have a left element gives
    one event per element of [L], in the order of [L]. *)
Lemma merge_join_left_view (L : list A) (R : list B) :
  StronglySorted klt (keyl <$> L) → StronglySorted klt (keyr <$> R) →
  filter (λ e, is_only_right e = false) (mj L R) = left_view keyl keyr agree R <$> L.
Proof.
  revert R. induction L as [|x L IHL]; intros R HL HR.
  { rewrite merge_join_nil_l. clear. induction R as [|y R IH]; [done|].
    rewrite fmap_cons, filter_cons_False by done. apply IH. }
  pose proof HL as [HL' HxL]%sorted_keys_cons.
  induction R as [|y R IHR].
  { rewrite merge_join_nil_r, !fmap_cons, filter_cons_True by done. f_equal.
    rewrite <-merge_join_nil_r. by apply IHL. }
  pose proof HR as [HR' HyR]%sorted_keys_cons.
  rewrite merge_join_cons_cons, fmap_cons.
  unfold left_view at 1. destruct (py_cmp (keyl x) (keyr y)) eqn:E.
  - apply py_cmp_eq in E. rewrite find_key_head by done.
    rewrite filter_cons_True by (unfold both_event; by destruct (agree x y)).
    f_equal. rewrite IHL by done. apply list_fmap_ext. intros i x' Hx'.
    unfold left_view. rewrite find_key_skip; [done|]. rewrite <-E.
    assert (keyl x' ∈ keyl <$> L) as Hin
      by by eapply list_elem_of_fmap_2, list_elem_of_lookup_2.
    by rewrite (HxL (keyl x') Hin).
  - rewrite find_key_above, filter_cons_True by (done || by eapply klt_keys_cons).
    f_equal. by apply IHL.
  - apply (proj1 (py_cmp_gt_lt _ _)) in E.
    rewrite filter_cons_False by done. rewrite IHR by done.
    rewrite fmap_cons. f_equal.
    + unfold left_view. rewrite find_key_skip; [done|]. by rewrite E.
    + apply list_fmap_ext. intros i x' Hx'. unfold left_view.
      rewrite find_key_skip; [done|].
      assert (keyl x' ∈ keyl <$> L) as Hin
        by by eapply list_elem_of_fmap_2, list_elem_of_lookup_2.
      by rewrite (klt_trans _ _ _ E (HxL (keyl x') Hin)).
Qed.
End merge_join_facts.
