(* ===== verification/Verify.v ===== *)
(** * Verifying a run against the registry: [verify_one_result],
    [check_installed_rpms], [verify_results], [list_tests],
    [show_test_info] (src/registry/xit.py, lines 550-620)

    [verify] reads a JUnit result file, sorts the results and, for
    each, looks its (suite, name) up in the registry and prints a line
    with a status marker: [++]/[--] for an expectation met, [XX] for
    one not met, [??] for a result the registry has no entry for.
    The theorems relate the lines to the specification's comparison
    engine (Comparison.v): the code prints the events of the
    merge-join of the registry's tests with the results, except the
    events of tests that are in the registry but not in the run,
    which it never reports. *)

From S2P Require Import Prelude Annotations TestCase ModuleVersion Registry Fixtures Output Comparison.
Open Scope xit_scope.

Module Verify.
Import ModVer.

(** [verify_one_result] (lines 566-588).  [result] is [None] when the
    caller passes a missing test ([compare_registry] does); reading
    [result.status] or [result.suite] then raises [AttributeError]. *)
Definition verify_one_result {R} `{XITTestCase R} (test : option Test.XITTest)
    (result : option R) (format_str : fmt) : res line :=
  match test, result with
  | Some t, Some r =>
      let expected_status := bool_str_lower (Test.status t) in
      if negb (String.eqb (bool_str_lower (Test.status t)) (bool_str_lower (tc_status r)))
      then Ok (mkLine (if tc_status r then GREEN else RED) format_str
                 ["XX"; tc_suite r; tc_name r; bool_str_lower (tc_status r); expected_status])
      else Ok (mkLine DEFAULT format_str
                 [if Test.status t then "++" else "--"; tc_suite r; tc_name r;
                  bool_str_lower (tc_status r); expected_status])
  | None, Some r =>
      Ok (mkLine BLUE format_str ["??"; tc_suite r; tc_name r; bool_str_lower (tc_status r); ""])
  | _, None => Raise AttributeError
  end.

(** The agreement of a registry test and a result the code tests:
    [str(test.status).lower() == str(result.status).lower()]. *)
Definition status_agree {R} `{XITTestCase R} (t : Test.XITTest) (r : R) : bool :=
  String.eqb (bool_str_lower (Test.status t)) (bool_str_lower (tc_status r)).

(** The presentation of an event of the comparison engine as a line
    of the verification report: the specification's marker, the
    result's suite and name, its status and the expected status.
    Only [OnlyLeft] has no result; its line is never printed by
    [verify_results]. *)
Definition verify_row {R} `{XITTestCase R} (format_str : fmt)
    (e : event Test.XITTest R) : line :=
  let m := spec_marker Test.status e in
  match e with
  | BothAgree t r =>
      mkLine DEFAULT format_str
        [m; tc_suite r; tc_name r; bool_str_lower (tc_status r); bool_str_lower (Test.status t)]
  | BothDisagree t r =>
      mkLine (if tc_status r then GREEN else RED) format_str
        [m; tc_suite r; tc_name r; bool_str_lower (tc_status r); bool_str_lower (Test.status t)]
  | OnlyRight r =>
      mkLine BLUE format_str [m; tc_suite r; tc_name r; bool_str_lower (tc_status r); ""]
  | OnlyLeft t =>
      mkLine DEFAULT format_str [m; Test.suite t; Test.name t; ""; bool_str_lower (Test.status t)]
  end.

Definition verify_header (format_str : fmt) : list line :=
  [mkLine PLAIN format_str ["Code"; "TestSuite"; "TestCase"; "Result"; "Expected"];
   mkLine PLAIN format_str ["----"; "---------"; "--------"; "------"; "--------"]].

(** The loop of [check_installed_rpms] (lines 594-598): modules of
    type rpm are compared with the installed package. *)
Fixpoint check_rpms (sh : shell) (mvs : list XITModuleVersion) : res (list line) :=
  match mvs with
  | [] => Ok []
  | mv :: rest =>
      if negb (String.eqb (type mv) "rpm") then check_rpms sh rest
      else
        '(rc, v) ← compareSystemVersion sh mv;
        rows ← check_rpms sh rest;
        Ok (print_modversions (module mv) (version mv) v true :: rows)
  end.

Definition check_installed_rpms (sh : shell) (registry : Reg.XITTestRegistry)
    : res (list line) :=
  rows ← check_rpms sh (Reg.moduleversions registry);
  Ok (print_modversions "Module name" (Reg.name registry) "System-installed" false ::
      print_modversions "-----------" "-------------" "----------------" false :: rows).

(** [verify_results] (lines 601-620) on the loaded registry and the
    results read from the JUnit file. *)
Definition verify_results (sh : shell) (registry : Reg.XITTestRegistry)
    (results : list JUnit.JUnitTestResult) (check_all : bool) : res (list line) :=
  sname_len ← py_max ((λ x, String.length (JUnit.suite x)) <$> results);
  tname_len ← py_max ((λ x, String.length (JUnit.name x)) <$> results);
  rpm_lines ← (if check_all then check_installed_rpms sh registry else Ok []);
  let format_str := FmtVerify (sname_len + 1) (tname_len + 1) in
  rows ← mapM (λ result,
            verify_one_result (Reg.getTest registry (JUnit.suite result) (JUnit.name result))
              (Some result) format_str)
          (py_sorted XITTestCase_cmp results);
  Ok (rpm_lines ++ verify_header format_str ++ rows).

(** [list_tests] (lines 550-557): the two header rows, then every
    test with [str(status)]. *)
Definition list_tests (registry : Reg.XITTestRegistry) : list line :=
  let all_tests :=
    ("TestSuite", "TestCase", "Success") :: ("---------", "--------", "-------") ::
    ((λ '(s, t, b), (s, t, bool_str b)) <$> Reg.listTestNames registry) in
  (λ '(suite, test, status), mkLine PLAIN FmtList [suite; test; status]) <$> all_tests.

(** [show_test_info] (lines 559-564): [print str(test)] when the test
    exists, nothing otherwise. *)
Definition show_test_info (registry : Reg.XITTestRegistry) (testsuite testcase : string)
    : res (list line) :=
  match Reg.getTest registry testsuite testcase with
  | Some test => s ← Test.XITTest_str test; Ok [mkLine PLAIN FmtText [s]]
  | None => Ok []
  end.
End Verify.

(** ** Verification is the comparison engine on the registry and the run *)
Section verify_facts.
Import Verify.
Implicit Types (reg : Reg.XITTestRegistry).

(** Looking a test up in the registry is looking its key up in the
    registry's tests. *)
Lemma getTest_find_key reg s n :
  Reg.registry_wf reg →
  Reg.getTest reg s n = find_key test_key (Reg.registry_tests reg) (s, n).
Proof.
  intros Hwf. pose proof (registry_tests_sorted reg Hwf) as Hs.
  destruct Hwf as [Hget _]. destruct (Reg.getTest reg s n) as [t|] eqn:Ht.
  - symmetry. apply find_key_Some_NoDup.
    + apply strict_sorted_NoDup. eapply StronglySorted_fmap; [|exact Hs]. done.
    + apply registry_tests_elem_of. eauto.
    + destruct (Hget _ _ _ Ht) as (Hs1 & Hn1 & _). unfold test_key. simpl. by rewrite Hs1, Hn1.
  - symmetry. apply find_key_None.
    intros (t & Hk & (s' & n' & Ht')%registry_tests_elem_of)%list_elem_of_fmap.
    destruct (Hget _ _ _ Ht') as (Hs1 & Hn1 & _). unfold test_key in Hk.
    simpl in Hk. rewrite Hs1, Hn1 in Hk. injection Hk as -> ->. congruence.
Qed.

(** [verify_one_result] on a found or missing test prints the line of
    the event the engine gives the pair. *)
Lemma verify_one_result_event {R} `{XITTestCase R} (ot : option Test.XITTest) (r : R) f :
  verify_one_result ot (Some r) f =
    Ok (verify_row f (match ot with
                      | Some t => both_event status_agree t r
                      | None => OnlyRight r
                      end)).
Proof.
  destruct ot as [t|]; [|done]. unfold verify_one_result, both_event, status_agree.
  by destruct (String.eqb _ _).
Qed.

(** [verify_one_result] only raises [AttributeError], on a missing
    result. *)
Lemma verify_one_result_cases {R} `{XITTestCase R} ot (r : option R) f :
  verify_one_result ot r f = Raise AttributeError ∨ is_ok (verify_one_result ot r f) = true.
Proof.
  destruct r as [r|]; [right|by destruct ot; left].
  by rewrite verify_one_result_event.
Qed.

(** The rpm check stops at the first rpm module, with the exception
    [compareSystemVersion] raises. *)
Lemma check_rpms_raises sh mvs :
  Exists (λ mv, ModVer.type mv = "rpm") mvs →
  check_rpms sh mvs = Raise (CalledProcessError None).
Proof.
  induction 1 as [mv mvs Hmv|mv mvs _ IH]; simpl.
  - rewrite Hmv. simpl. by rewrite compareSystemVersion_always_raises.
  - destruct (String.eqb (ModVer.type mv) "rpm") eqn:E; simpl; [|done].
    apply String.eqb_eq in E. by rewrite compareSystemVersion_always_raises.
Qed.

(** C1: on a well-formed registry and a run with one result per
    (suite, name), [verify] (without [--check-all]) prints its two
    header lines and then, in key order, the events of the
    specification's merge-join of the registry's tests with the
    sorted results, each with the specification's marker ([++], [--],
    [XX], [??]), except the [OnlyLeft] events: a registry test that
    did not run is never reported. *)
Theorem verify_results_refines sh reg (results : list JUnit.JUnitTestResult) sl tl :
  Reg.registry_wf reg →
  NoDup (test_key <$> results) →
  py_max ((λ x, String.length (JUnit.suite x)) <$> results) = Ok sl →
  py_max ((λ x, String.length (JUnit.name x)) <$> results) = Ok tl →
  verify_results sh reg results false =
    Ok (verify_header (FmtVerify (sl + 1) (tl + 1)) ++
        (verify_row (FmtVerify (sl + 1) (tl + 1)) <$>
          filter (λ e, is_only_left e = false)
            (merge_join test_key test_key status_agree
               (Reg.registry_tests reg) (py_sorted XITTestCase_cmp results)))).
Proof.
  intros Hwf Hnd Hs Ht. unfold verify_results. rewrite Hs, Ht. simpl.
  rewrite (mapM_Ok _ (verify_row (FmtVerify (sl + 1) (tl + 1)) ∘
                      right_view test_key test_key status_agree (Reg.registry_tests reg))).
  - simpl. rewrite merge_join_right_view, list_fmap_compose; [done| |].
    + by apply registry_tests_keys_sorted.
    + exact (py_sorted_keys_strict test_key results Hnd).
  - intros x _. cbv beta. rewrite verify_one_result_event, getTest_find_key by done.
    reflexivity.
Qed.

(** C12: [verify --check-all] on a registry that records an
    rpm module always fails with [CalledProcessError] (return code
    [None]) before printing any result, whatever the installed
    packages are. *)
Theorem verify_check_all_raises sh reg (results : list JUnit.JUnitTestResult) :
  results ≠ [] →
  Exists (λ mv, ModVer.type mv = "rpm") (Reg.moduleversions reg) →
  verify_results sh reg results true = Raise (CalledProcessError None).
Proof.
  intros Hne Hex. destruct results as [|x l]; [done|].
  unfold verify_results, check_installed_rpms. simpl.
  by rewrite check_rpms_raises.
Qed.

(** [verify] on a run with no results fails: [max] of an empty list
    raises [ValueError]. *)
Lemma verify_results_empty sh reg check_all :
  verify_results sh reg [] check_all = Raise ValueError.
Proof. reflexivity. Qed.
End verify_facts.

(** ** Witnesses *)
Section verify_witnesses.
Import Verify Fixtures.

Lemma verify_results_refines_witness :
  verify_results sh_ok reg_verify run_verify false =
    Ok (verify_header (FmtVerify (9 + 1) (9 + 1)) ++
        (verify_row (FmtVerify (9 + 1) (9 + 1)) <$>
          filter (λ e, is_only_left e = false)
            (merge_join test_key test_key status_agree
               (Reg.registry_tests reg_verify) (py_sorted XITTestCase_cmp run_verify)))).
Proof.
  apply verify_results_refines;
    [apply registry_wfb_spec; vm_compute; reflexivity
    |apply (bool_decide_unpack _); vm_compute; exact I
    |reflexivity|reflexivity].
Defined.

Lemma verify_check_all_raises_witness :
  verify_results sh_ok reg_verify run_verify true = Raise (CalledProcessError None).
Proof. apply verify_check_all_raises; [discriminate|constructor; reflexivity]. Defined.

(** The specification's scenarios 1 and 2: [TestCaseA], expected to
    pass, fails ([XX], in red); [TestCaseB] has no entry ([??], in
    blue).  The results are reported in sorted order. *)
Example verify_scenarios :
  (λ ls : list line, (λ ln, (line_color ln, head (line_fields ln), line_fields ln !! 2%nat)) <$> ls)
    <$> verify_results sh_ok reg_verify run_verify false =
  Ok [(PLAIN, Some "Code", Some "TestCase"); (PLAIN, Some "----", Some "--------");
      (RED, Some "XX", Some "TestCaseA"); (BLUE, Some "??", Some "TestCaseB")].
Proof. vm_compute. reflexivity. Qed.
End verify_witnesses.
