(* ===== verification/CompareMeta.v ===== *)
(** * The merge loop of [compare_meta] (src/registry/xit.py, lines 631-670)

    [compare_meta] prints the module versions of two registries side
    by side.  Both lists are sorted with [XITModuleVersion.__cmp__] and
    walked with two iterators in a hand-written merge-join: equal
    records share a row, a record present on one side only gets a row
    with "???" on the other.  The iterators' [StopIteration] ends the
    joint loop, after which each iterator is drained.

    The model keeps the iterators as the lists of elements not yet
    fetched: [meta_loop] returns the rows printed by the joint loop and
    what remains in each iterator when [next()] raises.  The theorems
    compare the rows with the reference engine [merge_join]
    (Comparison.v): the loop prints the rows of the reference in the
    same order, except that it loses exactly one row, the element that
    was already fetched from the iterator that was not exhausted,
    whenever the largest module version of the first registry is not
    also in the second. *)

From S2P Require Import Prelude ModuleVersion Output Comparison.
Open Scope xit_scope.

Module CompareMeta.
Import ModVer.
Abbreviation MV := XITModuleVersion.

(** The three [print_modversions] calls of the loop. *)
Definition row_both (a b : MV) : line :=
  print_modversions (module a) (version a) (version b) true.
Definition row_left (a : MV) : line :=
  print_modversions (module a) (version a) "???" true.
Definition row_right (b : MV) : line :=
  print_modversions (module b) "???" (version b) true.

(** The [while True] loop (lines 640-655) entered with [r1_modversion
    = c1], [r2_modversion = c2] and the iterators holding [it1],
    [it2].  It returns the rows printed and the elements left in the
    two iterators when [next()] raises [StopIteration]. *)
Fixpoint meta_loop (c1 : MV) (it1 : list MV) {struct it1}
    : MV → list MV → list line * list MV * list MV :=
  fix loop2 (c2 : MV) (it2 : list MV) {struct it2} :=
    match XITModuleVersion_cmp c1 c2 with
    | Eq =>
        match it1 with
        | [] => ([row_both c1 c2], [], it2)
        | x :: it1' =>
            match it2 with
            | [] => ([row_both c1 c2], it1', [])
            | y :: it2' =>
                let '(rows, r1, r2) := meta_loop x it1' y it2' in
                (row_both c1 c2 :: rows, r1, r2)
            end
        end
    | Gt =>
        match it2 with
        | [] => ([row_right c2], it1, [])
        | y :: it2' =>
            let '(rows, r1, r2) := loop2 y it2' in (row_right c2 :: rows, r1, r2)
        end
    | Lt =>
        match it1 with
        | [] => ([row_left c1], [], it2)
        | x :: it1' =>
            let '(rows, r1, r2) := meta_loop x it1' c2 it2 in
            (row_left c1 :: rows, r1, r2)
        end
    end.

(** Lines 636-668 on the sorted lists [L] and [R]: the first two
    [next()] calls, the loop, then the two draining loops. *)
Definition meta_rows (L R : list MV) : list line :=
  let '(rows, r1, r2) :=
    match L with
    | [] => ([], [], R)
    | c1 :: it1 =>
        match R with
        | [] => ([], it1, [])
        | c2 :: it2 => meta_loop c1 it1 c2 it2
        end
    end in
  rows ++ (row_left <$> r1) ++ (row_right <$> r2).

(** ** The reference: the rows of the specification's merge-join *)

Definition version_agree (a b : MV) : bool := String.eqb (version a) (version b).

Definition event_row (e : event MV MV) : line :=
  match e with
  | BothAgree a b | BothDisagree a b => row_both a b
  | OnlyLeft a => row_left a
  | OnlyRight b => row_right b
  end.

Definition spec_rows (L R : list MV) : list line :=
  event_row <$> merge_join key key version_agree L R.

(** The loop loses a row exactly when the last (largest) element of
    [L] is not in [R]. *)
Definition meta_drops (L R : list MV) : bool :=
  match last L with
  | None => false
  | Some m => negb (bool_decide (m ∈ R))
  end.

(** [out] is [spec], or [spec] with one row removed. *)
Definition drop_rel (dropped : bool) (out spec : list line) : Prop :=
  if dropped then ∃ pre e post, spec = pre ++ e :: post ∧ out = pre ++ post
  else out = spec.
End CompareMeta.

(** ** The loop against the reference *)
Section compare_meta_facts.
Import ModVer CompareMeta.
Abbreviation klt := (λ a b : string * (string * string), py_cmp a b = Lt).
Abbreviation sorted := (λ L : list MV, StronglySorted klt (key <$> L)).

Lemma meta_loop_unfold c1 it1 c2 it2 :
  meta_loop c1 it1 c2 it2 =
    match py_cmp (key c1) (key c2) with
    | Eq =>
        match it1 with
        | [] => ([row_both c1 c2], [], it2)
        | x :: it1' =>
            match it2 with
            | [] => ([row_both c1 c2], it1', [])
            | y :: it2' =>
                let '(rows, r1, r2) := meta_loop x it1' y it2' in
                (row_both c1 c2 :: rows, r1, r2)
            end
        end
    | Gt =>
        match it2 with
        | [] => ([row_right c2], it1, [])
        | y :: it2' =>
            let '(rows, r1, r2) := meta_loop c1 it1 y it2' in
            (row_right c2 :: rows, r1, r2)
        end
    | Lt =>
        match it1 with
        | [] => ([row_left c1], [], it2)
        | x :: it1' =>
            let '(rows, r1, r2) := meta_loop x it1' c2 it2 in
            (row_left c1 :: rows, r1, r2)
        end
    end.
Proof. destruct it1, it2; reflexivity. Qed.

Lemma event_row_OnlyLeft (L : list MV) : event_row <$> (OnlyLeft <$> L) = row_left <$> L.
Proof. by rewrite <-list_fmap_compose. Qed.

Lemma event_row_OnlyRight (R : list MV) : event_row <$> (OnlyRight <$> R) = row_right <$> R.
Proof. by rewrite <-list_fmap_compose. Qed.

Lemma drop_rel_cons d x out spec :
  drop_rel d out spec → drop_rel d (x :: out) (x :: spec).
Proof.
  destruct d; simpl; [|by intros ->].
  intros (pre & e & post & -> & ->). by exists (x :: pre), e, post.
Qed.

Lemma drop_rel_head x y out :
  drop_rel true (x :: out) (x :: y :: out).
Proof. by exists [x], y, out. Qed.

Lemma meta_drops_cons_l c (L R : list MV) :
  L ≠ [] → meta_drops (c :: L) R = meta_drops L R.
Proof. destruct L; [done|]. intros _. unfold meta_drops. by rewrite last_cons_cons. Qed.

Lemma meta_drops_cons_r c (L R : list MV) :
  (∀ z, z ∈ L → z ≠ c) → meta_drops L (c :: R) = meta_drops L R.
Proof.
  intros Hne. unfold meta_drops. destruct (last L) as [m|] eqn:Hm; [|done].
  apply last_Some_elem_of in Hm. f_equal. apply bool_decide_ext.
  rewrite elem_of_cons. specialize (Hne m Hm). tauto.
Qed.

Lemma klt_ne a b : klt (key a) (key b) → a ≠ b.
Proof. intros Hlt ->. by rewrite py_cmp_refl in Hlt. Qed.

Lemma sorted_head_lt c (L : list MV) :
  sorted (c :: L) → ∀ z, z ∈ L → klt (key c) (key z).
Proof.
  intros [_ Hc]%sorted_keys_cons z Hz. apply Hc. by apply list_elem_of_fmap_2.
Qed.

Lemma spec_rows_cons_cons c1 it1 c2 it2 :
  spec_rows (c1 :: it1) (c2 :: it2) =
    match py_cmp (key c1) (key c2) with
    | Eq => row_both c1 c2 :: spec_rows it1 it2
    | Lt => row_left c1 :: spec_rows it1 (c2 :: it2)
    | Gt => row_right c2 :: spec_rows (c1 :: it1) it2
    end.
Proof.
  unfold spec_rows. rewrite merge_join_cons_cons.
  destruct (py_cmp _ _); [destruct (version_agree c1 c2)|..]; reflexivity.
Qed.

Lemma spec_rows_nil_l R : spec_rows [] R = row_right <$> R.
Proof. apply event_row_OnlyRight. Qed.

Lemma spec_rows_nil_r L : spec_rows L [] = row_left <$> L.
Proof. unfold spec_rows. rewrite merge_join_nil_r. apply event_row_OnlyLeft. Qed.

Lemma meta_drops_single c (R : list MV) :
  meta_drops [c] R = negb (bool_decide (c ∈ R)).
Proof. reflexivity. Qed.

Lemma meta_drops_nil_r (L : list MV) : L ≠ [] → meta_drops L [] = true.
Proof.
  unfold meta_drops. destruct (last L) eqn:E; [done|].
  by apply last_None in E.
Qed.

(** A list whose elements are all above [c] loses a row against
    [[c]]. *)
Lemma meta_drops_above c (L : list MV) :
  L ≠ [] → (∀ z, z ∈ L → klt (key c) (key z)) → meta_drops L [c] = true.
Proof.
  intros Hne Hgt. rewrite meta_drops_cons_r; [by apply meta_drops_nil_r|].
  intros z Hz ->. apply Hgt in Hz. by rewrite py_cmp_refl in Hz.
Qed.

Lemma sorted_tail c (L : list MV) : sorted (c :: L) → sorted L.
Proof. by intros [? _]%sorted_keys_cons. Qed.

Ltac loop_ih IH :=
  match goal with
  | |- context [meta_loop ?a ?b ?c ?d] =>
      let Hm := fresh "Hm" in let IHs := fresh "IHs" in
      destruct (meta_loop a b c d) as [[rows r1] r2] eqn:Hm;
      first [pose proof (IH a c d) as IHs | pose proof (IH c) as IHs];
      specialize (IHs ltac:(eauto using sorted_tail) ltac:(eauto using sorted_tail));
      rewrite Hm in IHs; simpl in IHs |- *
  end.

#[local] Arguments meta_drops : simpl never.
#[local] Arguments spec_rows : simpl never.

Ltac base_tac :=
  rewrite ?spec_rows_nil_l, ?spec_rows_nil_r; simpl; rewrite ?app_nil_r;
  first [done | by eexists [_], _, _].

(** The joint loop and the draining loops print the reference rows,
    with one row lost exactly when [meta_drops] says so. *)
Lemma meta_loop_rel c1 it1 c2 it2 :
  sorted (c1 :: it1) → sorted (c2 :: it2) →
  let '(rows, r1, r2) := meta_loop c1 it1 c2 it2 in
  drop_rel (meta_drops (c1 :: it1) (c2 :: it2))
    (rows ++ (row_left <$> r1) ++ (row_right <$> r2))
    (spec_rows (c1 :: it1) (c2 :: it2)).
Proof.
  revert c1 c2 it2. induction it1 as [|x it1 IH1]; intros c1 c2 it2;
    revert c2; induction it2 as [|y it2 IH2]; intros c2 H1 H2;
    rewrite meta_loop_unfold, spec_rows_cons_cons;
    pose proof (sorted_head_lt _ _ H1) as G1;
    pose proof (sorted_head_lt _ _ H2) as G2;
    destruct (py_cmp (key c1) (key c2)) eqn:E;
    try (apply py_cmp_eq, modver_key_inj in E; subst c2);
    try apply (proj1 (py_cmp_gt_lt _ _)) in E.
  (* L = [c1], R = [c2] *)
  - rewrite meta_drops_single, bool_decide_true by set_solver. base_tac.
  - rewrite meta_drops_single, bool_decide_false by (apply klt_ne in E; set_solver).
    base_tac.
  - rewrite meta_drops_single, bool_decide_false by (apply klt_ne in E; set_solver).
    base_tac.
  (* L = [c1], R = c2 :: y :: it2 *)
  - rewrite meta_drops_single, bool_decide_true by set_solver. base_tac.
  - rewrite meta_drops_single, bool_decide_false; [base_tac|].
    rewrite elem_of_cons. intros [->|Hin]; [by rewrite py_cmp_refl in E|].
    apply G2 in Hin. by apply (klt_asym _ _ E).
  - loop_ih IH2. rewrite meta_drops_cons_r.
    + by apply drop_rel_cons.
    + intros z ->%list_elem_of_singleton ->. by rewrite py_cmp_refl in E.
  (* L = c1 :: x :: it1, R = [c2] *)
  - rewrite meta_drops_cons_l, meta_drops_above by (done || auto). base_tac.
  - loop_ih IH1. rewrite meta_drops_cons_l by done.
    by apply drop_rel_cons.
  - rewrite meta_drops_above; [base_tac | done |].
    intros z [->|Hz]%elem_of_cons; [done|]. eapply klt_trans; eauto.
  (* L = c1 :: x :: it1, R = c2 :: y :: it2 *)
  - loop_ih IH1. rewrite meta_drops_cons_l by done. rewrite meta_drops_cons_r.
    + by apply drop_rel_cons.
    + intros z Hz ->. apply G1 in Hz. by rewrite py_cmp_refl in Hz.
  - loop_ih IH1. rewrite meta_drops_cons_l by done.
    by apply drop_rel_cons.
  - loop_ih IH2. rewrite meta_drops_cons_r.
    + by apply drop_rel_cons.
    + intros z [->|Hz]%elem_of_cons ->; [by rewrite py_cmp_refl in E|].
      apply G1 in Hz. by apply (klt_asym _ _ E).
Qed.

Lemma meta_rows_rel L R :
  sorted L → sorted R → drop_rel (meta_drops L R) (meta_rows L R) (spec_rows L R).
Proof.
  intros HL HR. unfold meta_rows. destruct L as [|c1 it1].
  { simpl. by rewrite spec_rows_nil_l. }
  destruct R as [|c2 it2].
  - rewrite meta_drops_nil_r, spec_rows_nil_r by done. simpl.
    exists [], (row_left c1), (row_left <$> it1). by rewrite app_nil_r.
  - pose proof (meta_loop_rel c1 it1 c2 it2 HL HR) as Hrel.
    by destruct (meta_loop c1 it1 c2 it2) as [[rows r1] r2].
Qed.

Lemma sorted_py_sorted (mvs : list MV) :
  NoDup mvs → sorted (py_sorted XITModuleVersion_cmp mvs).
Proof.
  intros Hnd. cbv beta. change XITModuleVersion_cmp with (cmp_by key).
  apply (py_sorted_keys_strict key).
  apply NoDup_fmap_2; [|done]. intros a b. apply modver_key_inj.
Qed.

(** C2: on the module versions of two registries (no
    duplicates within one registry), the rows [compare_meta] prints
    are the rows of the specification's merge-join, in the same
    order, when the largest module version of the first registry is
    also in the second; otherwise they are those rows with exactly
    one row missing. *)
Theorem compare_meta_refines (mvs1 mvs2 : list MV) :
  NoDup mvs1 → NoDup mvs2 →
  let L := py_sorted XITModuleVersion_cmp mvs1 in
  let R := py_sorted XITModuleVersion_cmp mvs2 in
  (meta_drops L R = false → meta_rows L R = spec_rows L R) ∧
  (meta_drops L R = true →
     ∃ pre e post, spec_rows L R = pre ++ e :: post ∧ meta_rows L R = pre ++ post).
Proof.
  intros H1 H2 L R.
  pose proof (meta_rows_rel L R (sorted_py_sorted _ H1) (sorted_py_sorted _ H2)) as Hr.
  destruct (meta_drops L R); split; intros; done.
Qed.

Lemma drop_rel_incl d out spec : drop_rel d out spec → ∀ x, x ∈ out → x ∈ spec.
Proof.
  destruct d; simpl; [|by intros ->].
  intros (pre & e & post & -> & ->) x. rewrite !elem_of_app, elem_of_cons. tauto.
Qed.

Lemma spec_rows_sound L R ln :
  sorted L → sorted R → ln ∈ spec_rows L R →
  (∃ a, a ∈ L ∧ a ∈ R ∧ ln = row_both a a) ∨
  (∃ a, a ∈ L ∧ ln = row_left a) ∨ (∃ b, b ∈ R ∧ ln = row_right b).
Proof.
  intros HL HR (e & -> & He)%list_elem_of_fmap.
  pose proof (merge_join_sound key key version_agree L R HL HR) as Hs.
  rewrite Forall_forall in Hs. specialize (Hs e He).
  destruct e as [l r|l r|l|r]; simpl in Hs |- *.
  1,2: destruct Hs as (? & ? & Hk%modver_key_inj & _); subst; left; eauto.
  all: destruct Hs; right; eauto.
Qed.

(** C14: every row [compare_meta] prints for two registries
    is a module version present in both, shown with the same version
    on both sides, or a module version of one side shown against
    "???".  Two different versions are never shown side by side. *)
Theorem compare_meta_rows_sound (mvs1 mvs2 : list MV) :
  NoDup mvs1 → NoDup mvs2 →
  ∀ ln, ln ∈ meta_rows (py_sorted XITModuleVersion_cmp mvs1)
                       (py_sorted XITModuleVersion_cmp mvs2) →
  (∃ a, a ∈ mvs1 ∧ a ∈ mvs2 ∧ ln = row_both a a) ∨
  (∃ a, a ∈ mvs1 ∧ ln = row_left a) ∨ (∃ b, b ∈ mvs2 ∧ ln = row_right b).
Proof.
  intros H1 H2 ln Hln.
  pose proof (sorted_py_sorted _ H1) as S1. pose proof (sorted_py_sorted _ H2) as S2.
  apply (drop_rel_incl _ _ _ (meta_rows_rel _ _ S1 S2)) in Hln.
  pose proof (py_sorted_elem_of key) as Hel. unfold cmp_by in Hel.
  destruct (spec_rows_sound _ _ _ S1 S2 Hln) as [(a & ? & ? & ->)|[(a & ? & ->)|(b & ? & ->)]].
  - left. exists a. rewrite <-(Hel a mvs1), <-(Hel a mvs2). auto.
  - right; left. exists a. rewrite <-(Hel a mvs1). auto.
  - right; right. exists b. rewrite <-(Hel b mvs2). auto.
Qed.

(** Two records of one module and one type compare as their
    versions. *)
Lemma modver_cmp_same_module a b :
  module a = module b → type a = type b →
  py_cmp (key a) (key b) = py_cmp (version a) (version b).
Proof. intros Hm Ht. unfold key. rewrite Hm, Ht. cbv [py_cmp prod_py_cmp string_py_cmp fst snd]. by rewrite !string_compare_refl. Qed.

(** C13: the specification's scenario 3, for any module, type and
    versions.  When the first registry records one version of a
    module and the second another version of the same module and
    type, the loop of [compare_meta] never shows the drift as one
    pair: it prints a single one-sided row for the smaller version
    and loses the other record altogether, while the reference prints
    both one-sided rows. *)
Theorem compare_meta_version_drift a b :
  module a = module b → type a = type b → version a ≠ version b →
  if bool_decide (py_cmp (version a) (version b) = Lt)
  then meta_rows [a] [b] = [row_left a] ∧ spec_rows [a] [b] = [row_left a; row_right b]
  else meta_rows [a] [b] = [row_right b] ∧ spec_rows [a] [b] = [row_right b; row_left a].
Proof.
  intros Hm Ht Hv. pose proof (modver_cmp_same_module a b Hm Ht) as Hc.
  unfold meta_rows, spec_rows. cbn [meta_loop merge_join].
  rewrite modver_cmp_key. unfold cmp_by. rewrite Hc.
  destruct (py_cmp (version a) (version b)) eqn:E.
  - by apply py_cmp_eq_iff in E.
  - by rewrite bool_decide_true.
  - by rewrite bool_decide_false.
Qed.
End compare_meta_facts.

(** ** Witnesses *)
Section compare_meta_witnesses.
Import ModVer CompareMeta.

Lemma compare_meta_refines_witness :
  let L := py_sorted XITModuleVersion_cmp [mkXITModuleVersion "libfoo" "1.0" "git"] in
  let R := py_sorted XITModuleVersion_cmp [mkXITModuleVersion "libfoo" "1.1" "git"] in
  meta_drops L R = true ∧
  ∃ pre e post, spec_rows L R = pre ++ e :: post ∧ meta_rows L R = pre ++ post.
Proof.
  split; [reflexivity|].
  refine (proj2 (compare_meta_refines _ _ _ _) _);
    [apply NoDup_singleton | apply NoDup_singleton | reflexivity].
Defined.

Lemma compare_meta_rows_sound_witness :
  let a := mkXITModuleVersion "xorg-x11-drv-evdev" "2.7.3" "rpm" in
  (∃ x, x ∈ [a] ∧ x ∈ [a] ∧ row_both a a = row_both x x) ∨
  (∃ x, x ∈ [a] ∧ row_both a a = row_left x) ∨
  (∃ x, x ∈ [a] ∧ row_both a a = row_right x).
Proof.
  apply (compare_meta_rows_sound _ _ (NoDup_singleton _) (NoDup_singleton _)).
  apply list_elem_of_singleton. reflexivity.
Defined.
(** Scenario 3: [libfoo 1.0] against [libfoo 1.1]. *)
Lemma compare_meta_version_drift_witness :
  let a := mkXITModuleVersion "libfoo" "1.0" "git" in
  let b := mkXITModuleVersion "libfoo" "1.1" "git" in
  meta_rows [a] [b] = [row_left a] ∧ spec_rows [a] [b] = [row_left a; row_right b].
Proof.
  intros a b. pose proof (compare_meta_version_drift a b eq_refl eq_refl ltac:(discriminate)) as H.
  rewrite bool_decide_true in H; [exact H|vm_compute; reflexivity].
Defined.
End compare_meta_witnesses.
