(* ===== verification/MetaLoop.v ===== *)
(** * The [while True] loop of [compare_meta] as a state machine
    (src/registry/xit.py, lines 639-655)

    CompareMeta.v models the loop as one recursive function
    [meta_loop].  The code is a loop whose state is the two current
    records [r1_modversion], [r2_modversion] and the two iterators; one
    pass of the body prints one row and calls [next()] once or twice,
    and the [StopIteration] of a [next()] leaves the loop.  This file
    models that loop as it runs: [loop_body] is one pass, [loop_steps]
    the passes in sequence (an inductive relation labelled with the
    rows printed), and the state [Stopped] the one [StopIteration]
    leaves, with what remains in each iterator.

    The theorems: the loop always leaves by [StopIteration], after at
    most [n + m + 1] passes for iterators holding [n] and [m] records,
    in exactly the state and with exactly the rows of [meta_loop]
    (liveness and equivalence with the recursive model); the loop is
    deterministic. *)

From S2P Require Import Prelude ModuleVersion Output CompareMeta.
Open Scope xit_scope.

Module MetaLoop.
Import ModVer CompareMeta.

(** The loop's variables: [r1_modversion], [r1_iter], [r2_modversion],
    [r2_iter] while it runs; the elements left in the iterators once
    [next()] has raised [StopIteration]. *)
Inductive loop_state :=
| Running (c1 : MV) (it1 : list MV) (c2 : MV) (it2 : list MV)
| Stopped (it1 it2 : list MV).

(** One pass of the body (lines 643-653): the row printed and the
    state after the [next()] calls; [None] once the loop has left. *)
Definition loop_body (s : loop_state) : option (line * loop_state) :=
  match s with
  | Stopped _ _ => None
  | Running c1 it1 c2 it2 =>
      match XITModuleVersion_cmp c1 c2 with
      | Eq =>
          Some (row_both c1 c2,
                match it1 with
                | [] => Stopped [] it2
                | x :: it1' =>
                    match it2 with
                    | [] => Stopped it1' []
                    | y :: it2' => Running x it1' y it2'
                    end
                end)
      | Gt =>
          Some (row_right c2,
                match it2 with
                | [] => Stopped it1 []
                | y :: it2' => Running c1 it1 y it2'
                end)
      | Lt =>
          Some (row_left c1,
                match it1 with
                | [] => Stopped [] it2
                | x :: it1' => Running x it1' c2 it2
                end)
      end
  end.

(** The passes of a run of the loop, with the rows they print. *)
Inductive loop_steps : loop_state → list line → loop_state → Prop :=
| loop_done s : loop_steps s [] s
| loop_pass s l s' rows s'' :
    loop_body s = Some (l, s') → loop_steps s' rows s'' → loop_steps s (l :: rows) s''.

(** The records the loop has still to look at. *)
Definition pending (s : loop_state) : nat :=
  match s with
  | Running _ it1 _ it2 => S (List.length it1 + List.length it2)
  | Stopped _ _ => 0
  end.

End MetaLoop.

Section meta_loop_facts.
Import ModVer CompareMeta MetaLoop.

(** Every pass looks at one record at least. *)
Lemma loop_body_pending s l s' : loop_body s = Some (l, s') → pending s' < pending s.
Proof.
  destruct s as [c1 it1 c2 it2|]; [|done]. simpl.
  destruct (XITModuleVersion_cmp c1 c2); intros [= <- <-];
    repeat case_match; simplify_eq/=; lia.
Qed.

(** Once stopped, the loop prints nothing more. *)
Lemma loop_steps_stopped r1 r2 rows s :
  loop_steps (Stopped r1 r2) rows s → rows = [] ∧ s = Stopped r1 r2.
Proof. by inversion 1. Qed.

(** A run of the loop is fixed by the state it starts from. *)
Lemma loop_steps_det s rows1 rows2 r1 r2 r1' r2' :
  loop_steps s rows1 (Stopped r1 r2) → loop_steps s rows2 (Stopped r1' r2') →
  rows1 = rows2 ∧ r1 = r1' ∧ r2 = r2'.
Proof.
  intros H1. remember (Stopped r1 r2) as f eqn:Hf. revert rows2.
  induction H1 as [s|s l s' rows s'' Hb _ IH]; intros rows2 H2; subst.
  - by destruct (loop_steps_stopped _ _ _ _ H2) as [-> [= -> ->]].
  - inversion H2 as [|? l' s2 rows' ? Hb' H2']; subst; [by simpl in Hb|].
    rewrite Hb in Hb'. injection Hb' as <- <-.
    by destruct (IH eq_refl _ H2') as (-> & -> & ->).
Qed.

(** A pass on the running state, by the comparison of the two
    current records. *)
Lemma loop_body_running c1 it1 c2 it2 :
  loop_body (Running c1 it1 c2 it2) =
    match py_cmp (key c1) (key c2) with
    | Eq => Some (row_both c1 c2,
                  match it1, it2 with
                  | [], _ => Stopped [] it2
                  | _ :: it1', [] => Stopped it1' []
                  | x :: it1', y :: it2' => Running x it1' y it2'
                  end)
    | Gt => Some (row_right c2, match it2 with [] => Stopped it1 [] | y :: it2' => Running c1 it1 y it2' end)
    | Lt => Some (row_left c1, match it1 with [] => Stopped [] it2 | x :: it1' => Running x it1' c2 it2 end)
    end.
Proof. unfold loop_body. rewrite modver_cmp_key. by destruct it1, it2. Qed.

(** The loop run pass by pass ends in the state [meta_loop] returns,
    having printed the rows it returns. *)
Lemma loop_steps_meta_loop c1 it1 c2 it2 :
  loop_steps (Running c1 it1 c2 it2) (meta_loop c1 it1 c2 it2).1.1
    (Stopped (meta_loop c1 it1 c2 it2).1.2 (meta_loop c1 it1 c2 it2).2).
Proof.
  revert c1 c2 it2. induction it1 as [|x it1 IH1]; intros c1 c2 it2;
    revert c2; induction it2 as [|y it2 IH2]; intros c2; rewrite meta_loop_unfold;
    destruct (py_cmp (key c1) (key c2)) eqn:Hc; cbn [fst snd];
    try (eapply loop_pass; [rewrite loop_body_running, Hc; reflexivity|constructor]);
    match goal with
    | |- context [meta_loop ?a ?b ?c ?d] =>
        let pass E := (destruct (meta_loop a b c d) as [[? ?] ?]; cbn [fst snd] in *;
                       eapply loop_pass; [rewrite loop_body_running, Hc; reflexivity|exact E]) in
        first [pose proof (IH1 a c d) as E; pass E | pose proof (IH2 c) as E; pass E]
    end.
Qed.

(** A run prints one row per pass, and each pass looks at a record. *)
Lemma loop_steps_length s rows s' :
  loop_steps s rows s' → List.length rows + pending s' ≤ pending s.
Proof.
  induction 1 as [|s l s' rows s'' Hb _ IH]; [done|].
  apply loop_body_pending in Hb. simpl. lia.
Qed.

(** C37: liveness of the [while True] loop of [compare_meta]: from
    any two current records and any iterators holding [n] and [m]
    records, the loop leaves by [StopIteration] after at most
    [n + m + 1] passes; that run is the only one, and it prints the
    rows and leaves in the iterators the records [meta_loop]
    returns. *)
Theorem meta_loop_stops c1 it1 c2 it2 :
  ∃ rows r1 r2,
    loop_steps (Running c1 it1 c2 it2) rows (Stopped r1 r2) ∧
    List.length rows ≤ S (List.length it1 + List.length it2) ∧
    meta_loop c1 it1 c2 it2 = (rows, r1, r2) ∧
    ∀ rows' r1' r2', loop_steps (Running c1 it1 c2 it2) rows' (Stopped r1' r2') →
      rows' = rows ∧ r1' = r1 ∧ r2' = r2.
Proof.
  pose proof (loop_steps_meta_loop c1 it1 c2 it2) as H.
  destruct (meta_loop c1 it1 c2 it2) as [[rows r1] r2]. simpl in H.
  exists rows, r1, r2. split_and!; [done| |done|].
  - apply loop_steps_length in H. simpl in H. lia.
  - intros rows' r1' r2' H'. destruct (loop_steps_det _ _ _ _ _ _ _ H H') as (-> & -> & ->). done.
Qed.
End meta_loop_facts.
