(* ===== verification/Compare.v ===== *)
(** * Comparing two registries: [compare_meta], [compare_registry],
    [find_reg], [compare_registries] (src/registry/xit.py, lines 631-730)

    [compare] loads two registry files and compares registries of the
    same name: first their module versions ([compare_meta], whose
    merge loop is CompareMeta.v), then their tests.  The test rows are
    produced by walking the first registry's tests and handing each,
    with the second registry's test of the same key, to
    [verify_one_result] (Verify.v), which reads the second one as the
    "result".  The theorems show that when every test of the first
    registry is in the second, the rows are the events of the
    specification's merge-join of the two registries' tests without
    its [OnlyRight] events (tests of the second registry only are
    never shown), and that otherwise the command raises
    [AttributeError].  A run that raises is modelled by its exception
    alone; the lines printed before it are not recorded. *)

From S2P Require Import Prelude TestCase ModuleVersion Registry Output Fixtures Comparison Verify CompareMeta.
Open Scope xit_scope.

Module Compare.
Import ModVer.

(** [compare_meta] (lines 631-670): the header, the rows of the merge
    loop on the sorted module versions, and a bare [print]. *)
Definition compare_meta (reg1 reg2 : Reg.XITTestRegistry) : list line :=
  print_modversions "Module name" (Reg.name reg1) (Reg.name reg2) false ::
  print_modversions "-----------" "----------" "----------" false ::
  CompareMeta.meta_rows (py_sorted XITModuleVersion_cmp (Reg.moduleversions reg1))
    (py_sorted XITModuleVersion_cmp (Reg.moduleversions reg2)) ++ [blank_line].

(** ["-" * n] *)
Fixpoint str_repeat (n : nat) (s : string) : string :=
  match n with 0 => "" | S n' => s +:+ str_repeat n' s end.

Definition compare_header (reg1 reg2 : Reg.XITTestRegistry) (format_str : fmt)
    : list line :=
  [mkLine PLAIN format_str ["Code"; "TestSuite"; "TestCase"; Reg.name reg1; Reg.name reg2];
   mkLine PLAIN format_str ["----"; "---------"; "--------";
     str_repeat (String.length (Reg.name reg1)) "-";
     str_repeat (String.length (Reg.name reg2)) "-"]].

(** [compare_registry] (lines 714-730). *)
Definition compare_registry (reg1 reg2 : Reg.XITTestRegistry) : res (list line) :=
  let meta := compare_meta reg1 reg2 in
  sname_len ← py_max ((λ x, String.length x.1.1) <$> Reg.listTestNames reg1);
  tname_len ← py_max ((λ x, String.length x.1.2) <$> Reg.listTestNames reg1);
  let format_str := FmtCompare (sname_len + 1) (tname_len + 1)
                      (String.length (Reg.name reg1)) (String.length (Reg.name reg2)) in
  rows ← mapM (λ '(suite, test, _),
            Verify.verify_one_result (Reg.getTest reg1 suite test) (Reg.getTest reg2 suite test)
              format_str)
          (py_sorted py_cmp (Reg.listTestNames reg1));
  Ok (meta ++ compare_header reg1 reg2 format_str ++ rows).

(** [find_reg] (lines 710-712): the first registry of the list with
    that name. *)
Definition find_reg (name : string) (reglist : list Reg.XITTestRegistry)
    : option Reg.XITTestRegistry :=
  head (filter (λ r, Reg.name r = name) reglist).

(** The [for r1 in regs1] loop of [compare_registries] (lines
    691-700), with the printed lines and the lists [failed_regs] and
    [done_regs]. *)
Fixpoint compare_each (regs2 : list Reg.XITTestRegistry) (regs1 : list Reg.XITTestRegistry)
    (rows : list line) (failed_regs done_regs : list string)
    : res (list line * list string * list string) :=
  match regs1 with
  | [] => Ok (rows, failed_regs, done_regs)
  | r1 :: rest =>
      match find_reg (Reg.name r1) regs2 with
      | None => compare_each regs2 rest rows (failed_regs ++ [Reg.name r1]) done_regs
      | Some r2 =>
          rows' ← compare_registry r1 r2;
          compare_each regs2 rest (rows ++ rows') failed_regs (done_regs ++ [Reg.name r1])
      end
  end.

(** [compare_registries] (lines 672-708) on the two lists as
    [regs.sort()] left them (the registries have no [__cmp__], so
    Python 2 orders them by identity: the model takes the order as
    given).  It returns the printed lines and the names reported by
    [logging.error("Failed to compare ...")]; a missing named registry
    is [sys.exit(1)]. *)
Definition compare_registries (regs1 regs2 : list Reg.XITTestRegistry)
    (regname : option string) : res (list line * list string) :=
  match regname with
  | Some n =>
      match find_reg n regs1 with
      | None => Raise (SystemExit 1)
      | Some reg1 =>
          match find_reg n regs2 with
          | None => Raise (SystemExit 1)
          | Some reg2 => rows ← compare_registry reg1 reg2; Ok (rows, [])
          end
      end
  | None =>
      '(rows, failed_regs, done_regs) ← compare_each regs2 regs1 [] [] [];
      Ok (rows, failed_regs ++
                  (Reg.name <$> filter (λ r2, Reg.name r2 ∉ done_regs) regs2))
  end.
End Compare.

(** ** The test rows against the comparison engine *)
Section compare_facts.
Import Compare Verify.
Implicit Types (reg : Reg.XITTestRegistry).

(** [sorted(reg1.listTestNames())] is [listTestNames] itself: the
    triples are already strictly increasing. *)
Lemma listTestNames_sorted_id reg :
  py_sorted py_cmp (Reg.listTestNames reg) = Reg.listTestNames reg.
Proof.
  change (py_sorted (cmp_by (K:=string * string * bool) id) (Reg.listTestNames reg) =
          Reg.listTestNames reg).
  apply py_sorted_id.
  eapply StronglySorted_weaken; [|apply listTestNames_sorted].
  intros x y Hxy. change (py_cmp x.1 y.1 <?> py_cmp x.2 y.2 = Lt).
  by rewrite Hxy.
Qed.

(** C3: when every test of the first registry is also in the
    second, [compare_registry] prints the module-version comparison,
    its header, and then, in key order, one line per event of the
    specification's merge-join of the two registries' tests, except
    the [OnlyRight] events: a test of the second registry only is
    never shown. *)
Theorem compare_registry_refines reg1 reg2 sl tl :
  Reg.registry_wf reg1 → Reg.registry_wf reg2 →
  Forall (λ t, is_Some (Reg.getTest reg2 (Test.suite t) (Test.name t)))
    (Reg.registry_tests reg1) →
  py_max ((λ x, String.length x.1.1) <$> Reg.listTestNames reg1) = Ok sl →
  py_max ((λ x, String.length x.1.2) <$> Reg.listTestNames reg1) = Ok tl →
  let F := FmtCompare (sl + 1) (tl + 1)
             (String.length (Reg.name reg1)) (String.length (Reg.name reg2)) in
  compare_registry reg1 reg2 =
    Ok (compare_meta reg1 reg2 ++ compare_header reg1 reg2 F ++
        (verify_row F <$>
          filter (λ e, is_only_right e = false)
            (merge_join test_key test_key status_agree
               (Reg.registry_tests reg1) (Reg.registry_tests reg2)))).
Proof.
  intros Hwf1 Hwf2 Hin Hs Ht F. unfold compare_registry. rewrite Hs, Ht. simpl.
  rewrite listTestNames_sorted_id, (listTestNames_tests reg1), mapM_fmap by done.
  rewrite (mapM_Ok _ (verify_row F ∘
                      left_view test_key test_key status_agree (Reg.registry_tests reg2))).
  - simpl. rewrite merge_join_left_view, list_fmap_compose;
      [done|by apply registry_tests_keys_sorted..].
  - intros x Hx. unfold compose. simpl.
    rewrite (registry_tests_getTest reg1 x) by done.
    destruct (Reg.getTest reg2 (Test.suite x) (Test.name x)) as [y|] eqn:Hy;
      [|by eapply Forall_forall in Hin as [? Hin']; [rewrite Hin' in Hy|]].
    rewrite verify_one_result_event. unfold left_view.
    rewrite getTest_find_key in Hy by done.
    change (test_key x) with (Test.suite x, Test.name x). by rewrite Hy.
Qed.

(** C11: if a test of the first registry is missing from
    the second, [compare_registry] raises [AttributeError]
    ([verify_one_result] reads [result.status] of [None]). *)
Theorem compare_registry_missing_raises reg1 reg2 s n t :
  Reg.getTest reg1 s n = Some t → Reg.getTest reg2 s n = None →
  compare_registry reg1 reg2 = Raise AttributeError.
Proof.
  intros H1 H2.
  assert ((s, n, Test.status t) ∈ Reg.listTestNames reg1) as Hin
    by (apply listTestNames_elem_of; eauto).
  unfold compare_registry. destruct (Reg.listTestNames reg1) as [|x l] eqn:E;
    [by apply not_elem_of_nil in Hin|].
  simpl. rewrite <-E, listTestNames_sorted_id.
  rewrite (mapM_Raise _ _ AttributeError); [done| |].
  - exists (s, n, Test.status t). split; [by rewrite E|].
    cbn -[Reg.getTest]. by rewrite H1, H2.
  - intros [[s' n'] b] _. apply verify_one_result_cases.
Qed.

Lemma find_reg_None nm regs : find_reg nm regs = None ↔ nm ∉ (Reg.name <$> regs).
Proof.
  unfold find_reg. destruct (filter _ regs) as [|r l] eqn:Hf; simpl; split; try done.
  - intros _ (r & -> & Hr)%list_elem_of_fmap.
    assert (r ∈ filter (λ r', Reg.name r' = Reg.name r) regs) as Hin
      by (by apply list_elem_of_filter).
    rewrite Hf in Hin. by apply not_elem_of_nil in Hin.
  - intros Hn. exfalso.
    assert (r ∈ filter (λ r', Reg.name r' = nm) regs) as Hin by (rewrite Hf; by left).
    apply list_elem_of_filter in Hin as [<- Hin]. apply Hn. by apply list_elem_of_fmap_2.
Qed.

(** The loop over the first list records the names without a
    partner as failed and those with one as done. *)
Lemma compare_each_spec regs2 rs rows failed done out :
  compare_each regs2 rs rows failed done = Ok out →
  out.1.2 = failed ++ filter (λ nm, nm ∉ (Reg.name <$> regs2)) (Reg.name <$> rs) ∧
  out.2 = done ++ filter (λ nm, nm ∈ (Reg.name <$> regs2)) (Reg.name <$> rs).
Proof.
  revert rows failed done. induction rs as [|r1 rs IH]; intros rows failed done; simpl.
  { intros [= <-]. by rewrite !app_nil_r. }
  rewrite !filter_cons. destruct (find_reg (Reg.name r1) regs2) eqn:Hf.
  - assert (Reg.name r1 ∈ (Reg.name <$> regs2)) as Hin
      by (destruct (decide (Reg.name r1 ∈ (Reg.name <$> regs2))) as [|Hn];
          [done|apply find_reg_None in Hn; congruence]).
    rewrite decide_False, decide_True by auto.
    destruct (compare_registry r1 _); simpl; [|done].
    intros (-> & ->)%IH. by rewrite <-app_assoc.
  - apply find_reg_None in Hf. rewrite decide_True, decide_False by auto.
    intros (-> & ->)%IH. by rewrite <-app_assoc.
Qed.

(** C25: when [compare] without [-r] completes, it reports as failed
    exactly the registry names found in one file and not in the
    other. *)
Theorem compare_registries_failed regs1 regs2 rows failed :
  compare_registries regs1 regs2 None = Ok (rows, failed) →
  ∀ nm, nm ∈ failed ↔
    (nm ∈ (Reg.name <$> regs1) ∧ nm ∉ (Reg.name <$> regs2)) ∨
    (nm ∈ (Reg.name <$> regs2) ∧ nm ∉ (Reg.name <$> regs1)).
Proof.
  simpl. destruct (compare_each regs2 regs1 [] [] []) as [[[rows' f] d]|] eqn:E; [|done].
  apply compare_each_spec in E as [Ef Ed]. simpl in Ef, Ed. subst f d.
  intros [= <- <-] nm. cbn [app]. rewrite elem_of_app. split.
  - intros [Hf|(r2 & -> & Hr2)%list_elem_of_fmap].
    + apply list_elem_of_filter in Hf as [Hn Hin]. by left.
    + apply list_elem_of_filter in Hr2 as [Hn Hr2]. right.
      split; [by apply list_elem_of_fmap_2|]. intros Hin. apply Hn.
      apply list_elem_of_filter. split; [by apply list_elem_of_fmap_2|done].
  - intros [[Hin Hn]|[Hin Hn]]; [left; by apply list_elem_of_filter|right].
    apply list_elem_of_fmap in Hin as (r2 & -> & Hr2). apply list_elem_of_fmap_2.
    apply list_elem_of_filter. split; [|done]. by intros [_ ?]%list_elem_of_filter.
Qed.
End compare_facts.

(** ** Witnesses *)
Section compare_witnesses.
Import Compare Verify Fixtures.

Lemma compare_registry_refines_witness :
  let F := FmtCompare (1 + 1) (1 + 1)
             (String.length (Reg.name reg_A)) (String.length (Reg.name reg_A')) in
  compare_registry reg_A reg_A' =
    Ok (compare_meta reg_A reg_A' ++ compare_header reg_A reg_A' F ++
        (verify_row F <$>
          filter (λ e, is_only_right e = false)
            (merge_join test_key test_key status_agree
               (Reg.registry_tests reg_A) (Reg.registry_tests reg_A')))).
Proof.
  apply compare_registry_refines;
    [apply registry_wfb_spec; vm_compute; reflexivity
    |apply registry_wfb_spec; vm_compute; reflexivity
    |vm_compute; repeat constructor; eexists; reflexivity
    |reflexivity|reflexivity].
Defined.

Lemma compare_registry_missing_raises_witness :
  compare_registry reg_A reg_B = Raise AttributeError.
Proof.
  apply (compare_registry_missing_raises _ _ "S" "X" (test "S" "X" true));
    vm_compute; reflexivity.
Defined.

Lemma compare_registries_failed_witness :
  "B" ∈ ["A"; "B"] ↔
    ("B" ∈ (Reg.name <$> [reg_A]) ∧ "B" ∉ (Reg.name <$> [reg_B])) ∨
    ("B" ∈ (Reg.name <$> [reg_B]) ∧ "B" ∉ (Reg.name <$> [reg_A])).
Proof. apply (compare_registries_failed _ _ []). vm_compute. reflexivity. Defined.
End compare_witnesses.
