(* ===== verification/Merge.v ===== *)
(** * Merging and creating registries: [merge_add_registries] and
    [create_registry] (src/registry/xit.py, lines 732-779)

    [merge --add] walks the tests of the second registry and adds to
    the first each one whose (suite, name) the first does not have;
    the first registry's tests, name, date and module versions are
    left as they are.  [create] groups the results of a JUnit run by
    suite in a dictionary of lists, then adds one test per result,
    suites in sorted order and results sorted within a suite, with the
    result's status as the expected status; with [--auto-modversion
    rpm] it first queries the installed version of each of
    [DEFAULT_MODULES].  Reading and writing the XML files is not
    modelled: the operations take and return registries. *)

From S2P Require Import Prelude TestCase ModuleVersion Registry Fixtures.
Open Scope xit_scope.

Module Merge.
Import ModVer.

(** The loop of [merge_add_registries] (lines 773-777) over the
    triples of [reg2.listTestNames()], on the registry [reg1] as it is
    being updated.  [reg1.addTest(None)] would raise
    [AttributeError]. *)
Fixpoint merge_loop (reg2 : Reg.XITTestRegistry) (tests2 : list (string * string * bool))
    (reg1 : Reg.XITTestRegistry) : res Reg.XITTestRegistry :=
  match tests2 with
  | [] => Ok reg1
  | (suite, name, _) :: rest =>
      match Reg.getTest reg1 suite name with
      | None =>
          match Reg.getTest reg2 suite name with
          | Some t => merge_loop reg2 rest (Reg.addTest t reg1)
          | None => Raise AttributeError
          end
      | Some _ => merge_loop reg2 rest reg1
      end
  end.

(** [merge_add_registries] (lines 768-779) on the first registry of
    each file. *)
Definition merge_add_registries (reg1 reg2 : Reg.XITTestRegistry) : res Reg.XITTestRegistry :=
  merge_loop reg2 (Reg.listTestNames reg2) reg1.

(** [DEFAULT_MODULES] (lines 50-55). *)
Definition DEFAULT_MODULES : list string :=
  ["xorg-x11-server-Xorg"; "xorg-x11-drv-evdev"; "xorg-x11-drv-synaptics";
   "xorg-x11-drv-wacom"; "xorg-x11-drv-mouse"; "xorg-x11-drv-keyboard"].

(** The [results_dict] of [create_registry] (lines 736-740): the
    results of each suite, in the order of the run. *)
Definition group_by_suite (results_list : list JUnit.JUnitTestResult)
    : gmap string (list JUnit.JUnitTestResult) :=
  foldl (λ d r,
      let l := match d !! JUnit.suite r with Some l => l | None => [] end in
      <[JUnit.suite r := l ++ [r]]> d)
    ∅ results_list.

(** The nested loop of [create_registry] (lines 755-758). *)
Definition add_results (results_dict : gmap string (list JUnit.JUnitTestResult))
    (registry : Reg.XITTestRegistry) : res Reg.XITTestRegistry :=
  foldl (λ acc suite,
      foldl (λ acc r,
          registry ← acc;
          testcase ← Test.XITTest_init suite (JUnit.name r)
                       (PyStr (bool_str_lower (JUnit.status r)));
          Ok (Reg.addTest testcase registry))
        acc (py_sorted XITTestCase_cmp
               (match results_dict !! suite with Some l => l | None => [] end)))
    (Ok registry) (py_sorted py_cmp (map_to_list results_dict).*1).

(** [create_registry] (lines 732-761) at time [now], with the
    registry name already chosen ([args.name] or the file's base
    name) and [auto_rpm] for [args.auto_modversion == ["rpm"]]. *)
Definition create_registry (sh : shell) (now : struct_time) (reg_name : string)
    (auto_rpm : bool) (results_list : list JUnit.JUnitTestResult)
    : res Reg.XITTestRegistry :=
  let results_dict := group_by_suite results_list in
  let registry := Reg.XITTestRegistry_init now reg_name [] in
  let registry := Reg.with_date registry now in
  registry ← (if auto_rpm then
                mvs ← mapM (λ module, getSystemVersion sh module "rpm") DEFAULT_MODULES;
                Ok (Reg.with_moduleversions registry (Reg.moduleversions registry ++ mvs))
              else Ok registry);
  add_results results_dict registry.
End Merge.

(** ** [merge --add] keeps the first registry and adds the rest *)
Section merge_facts.
Import Merge.
Implicit Types (r : Reg.XITTestRegistry).

Abbreviation keys := (fmap (λ x : string * string * bool, x.1)).

Lemma keys_cons_ne (k k0 : string * string) b0 l :
  k ≠ k0 → bool_decide (k ∈ keys ((k0, b0) :: l)) = bool_decide (k ∈ keys l).
Proof. intros Hne. apply bool_decide_ext. rewrite fmap_cons, elem_of_cons. naive_solver. Qed.

Lemma keys_cons_eq (k : string * string) b0 l : bool_decide (k ∈ keys ((k, b0) :: l)) = true.
Proof. apply bool_decide_eq_true. rewrite fmap_cons. by apply elem_of_cons; left. Qed.

(** The loop adds, for each key of [l] the registry does not have,
    the second registry's test, and changes nothing else. *)
Lemma merge_loop_spec reg2 l r :
  Reg.registry_wf reg2 → (∀ s n b, (s, n, b) ∈ l → Reg.getTest reg2 s n ≠ None) →
  ∃ r', merge_loop reg2 l r = Ok r' ∧
    (∀ s n, Reg.getTest r' s n =
       match Reg.getTest r s n with
       | Some t => Some t
       | None => if bool_decide ((s, n) ∈ keys l) then Reg.getTest reg2 s n else None
       end) ∧
    Reg.name r' = Reg.name r ∧ Reg.date r' = Reg.date r ∧
    Reg.moduleversions r' = Reg.moduleversions r.
Proof.
  intros Hwf. revert r. induction l as [|[[s0 n0] b0] l IH]; intros r Hall.
  { exists r. split_and!; try done. intros s n. by destruct (Reg.getTest r s n). }
  assert (∀ s n b, (s, n, b) ∈ l → Reg.getTest reg2 s n ≠ None) as Hl
    by (intros; eapply Hall, elem_of_cons; eauto).
  cbn [merge_loop]. destruct (Reg.getTest r s0 n0) as [t0|] eqn:H0.
  - destruct (IH r Hl) as (r' & Hr' & Hget & ? & ? & ?). exists r'. split_and!; try done.
    intros s n. rewrite Hget. destruct (Reg.getTest r s n) eqn:E; [done|].
    rewrite keys_cons_ne; [done|]. intros [= -> ->]. congruence.
  - destruct (Reg.getTest reg2 s0 n0) as [t|] eqn:H2;
      [|by destruct (Hall s0 n0 b0); [apply elem_of_cons; left|]].
    destruct (proj1 Hwf _ _ _ H2) as (Hs & Hn & _).
    destruct (IH (Reg.addTest t r) Hl) as (r' & Hr' & Hget & ? & ? & ?). exists r'.
    split_and!; try done.
    intros s n. rewrite Hget, getTest_addTest, Hs, Hn.
    destruct (decide ((s, n) = (s0, n0))) as [[= -> ->]|Hne].
    + by rewrite H0, keys_cons_eq, H2.
    + by rewrite keys_cons_ne.
Qed.

(** C4: [merge --add] succeeds on a well-formed second registry;
    the result has every test of the first registry unchanged, the
    second registry's test for exactly the keys the first one lacks,
    and the first registry's name, date and module versions (module
    versions are not merged). *)
Theorem merge_add_registries_spec reg1 reg2 :
  Reg.registry_wf reg2 →
  ∃ r, merge_add_registries reg1 reg2 = Ok r ∧
    (∀ s n, Reg.getTest r s n =
       match Reg.getTest reg1 s n with Some t => Some t | None => Reg.getTest reg2 s n end) ∧
    Reg.name r = Reg.name reg1 ∧ Reg.date r = Reg.date reg1 ∧
    Reg.moduleversions r = Reg.moduleversions reg1.
Proof.
  intros Hwf. destruct (merge_loop_spec reg2 (Reg.listTestNames reg2) reg1)
    as (r & Hr & Hget & ? & ? & ?); [done| |].
  { intros s n b (t & Ht & _)%listTestNames_elem_of. congruence. }
  exists r. split_and!; try done.
  intros s n. rewrite Hget. destruct (Reg.getTest reg1 s n); [done|].
  case_bool_decide as Hin; [done|].
  destruct (Reg.getTest reg2 s n) as [t|] eqn:Ht; [|done].
  destruct Hin. apply list_elem_of_fmap. exists (s, n, Test.status t).
  split; [done|]. apply listTestNames_elem_of. eauto.
Qed.
End merge_facts.

(** ** [create] adds one test per result *)
Section create_facts.
Import Merge.
Implicit Types (results : list JUnit.JUnitTestResult).

(** The registry test [create] makes of a result. *)
Abbreviation mk := (λ x : JUnit.JUnitTestResult,
  Test.mkXITTest (JUnit.suite x) (JUnit.name x) (JUnit.status x) [] [] []).

(** Splitting a list by a key that takes its values in [ks] and
    concatenating the parts gives a permutation of the list. *)
Lemma bind_filter_partition {A K} `{EqDecision K} (key : A → K) (ks : list K) (l : list A) :
  NoDup ks → (∀ x, x ∈ l → key x ∈ ks) →
  ks ≫= (λ k, filter (λ x, key x = k) l) ≡ₚ l.
Proof.
  intros Hnd. revert l. induction Hnd as [|k ks Hk Hnd IH]; intros l Hl.
  { destruct l as [|x l]; [done|]. exfalso. apply (not_elem_of_nil (key x)), Hl. by left. }
  rewrite bind_cons. etransitivity; [|apply (filter_app_complement (λ x, key x = k) l)].
  apply Permutation_app_head.
  etransitivity; [|apply (IH (filter (λ x, key x ≠ k) l))].
  - erewrite bind_ext_in; [reflexivity|]. intros k' Hk'. simpl.
    rewrite list_filter_filter. apply list_filter_iff. intros x.
    split; [intros ->; split; [done|by intros ->]|by intros []].
  - intros x [Hne Hx]%list_elem_of_filter.
    by apply Hl, elem_of_cons in Hx as [|].
Qed.

(** [results_dict[s]] holds the results of suite [s] in the order of
    the run, and there is no entry for a suite without result. *)
Lemma group_by_suite_lookup results s :
  group_by_suite results !! s =
    match filter (λ x, JUnit.suite x = s) results with [] => None | l => Some l end.
Proof.
  unfold group_by_suite.
  assert (∀ d : gmap string (list JUnit.JUnitTestResult), foldl (λ d r,
      <[JUnit.suite r := match d !! JUnit.suite r with Some l => l | None => [] end ++ [r]]> d)
      d results !! s =
    match d !! s with
    | Some l0 => Some (l0 ++ filter (λ x, JUnit.suite x = s) results)
    | None => match filter (λ x, JUnit.suite x = s) results with [] => None | l => Some l end
    end) as H.
  { induction results as [|x l IH]; intros d; simpl.
    - destruct (d !! s); [by rewrite app_nil_r|done].
    - rewrite IH, filter_cons. destruct (decide (JUnit.suite x = s)) as [<-|Hne].
      + rewrite lookup_insert_eq. destruct (d !! JUnit.suite x); by rewrite <-?app_assoc.
      + by rewrite lookup_insert_ne. }
  by rewrite H, lookup_empty.
Qed.

(** The loop of one suite: the tests are made and added one by one;
    [XITTest(suite, r.name, str(r.status).lower())] never raises. *)
Lemma add_suite_pure s (l : list JUnit.JUnitTestResult) reg :
  Forall (λ x, JUnit.suite x = s) l →
  foldl (λ acc r,
      registry ← acc;
      testcase ← Test.XITTest_init s (JUnit.name r) (PyStr (bool_str_lower (JUnit.status r)));
      Ok (Reg.addTest testcase registry)) (Ok reg) l =
    Ok (foldl (λ r x, Reg.addTest (mk x) r) reg l).
Proof.
  intros Hl. revert reg. induction Hl as [|x l Hx _ IH]; intros reg; [done|].
  simpl. rewrite <-IH. f_equal. rewrite <-Hx. by destruct (JUnit.status x).
Qed.

(** [add_results] adds the made test of every result, suite by suite
    in sorted order, sorted within a suite. *)
Lemma add_results_pure results reg :
  add_results (group_by_suite results) reg =
    Ok (foldl (λ r x, Reg.addTest (mk x) r) reg
          (py_sorted py_cmp (map_to_list (group_by_suite results)).*1 ≫=
             (λ s, py_sorted XITTestCase_cmp (filter (λ x, JUnit.suite x = s) results)))).
Proof.
  unfold add_results. rewrite foldl_bind. generalize reg.
  induction (py_sorted py_cmp (map_to_list (group_by_suite results)).*1) as [|s ks IH];
    intros r; [done|].
  simpl. rewrite group_by_suite_lookup.
  replace (match match filter (λ x, JUnit.suite x = s) results with [] => None | l => Some l end
           with Some l => l | None => [] end)
    with (filter (λ x, JUnit.suite x = s) results) by (by destruct filter).
  rewrite add_suite_pure; [apply IH|].
  apply Forall_forall. intros x Hx.
  assert (x ∈ filter (λ x, JUnit.suite x = s) results) as Hx'
    by (eapply (py_sorted_elem_of (K:=string * string) test_key); exact Hx).
  by apply list_elem_of_filter in Hx' as [? _].
Qed.

(** The results, suite by suite, are a permutation of the run. *)
Lemma create_order_Permutation results :
  py_sorted py_cmp (map_to_list (group_by_suite results)).*1 ≫=
    (λ s, py_sorted XITTestCase_cmp (filter (λ x, JUnit.suite x = s) results)) ≡ₚ results.
Proof.
  etransitivity.
  { apply bind_Permutation_pointwise. intros s _. apply merge_sort_Permutation. }
  apply bind_filter_partition.
  - unfold py_sorted. rewrite merge_sort_Permutation. apply NoDup_fst_map_to_list.
  - intros x Hx. unfold py_sorted. rewrite merge_sort_Permutation.
    apply list_elem_of_fmap. 
    exists (JUnit.suite x, filter (λ y, JUnit.suite y = JUnit.suite x) results).
    split; [done|]. apply elem_of_map_to_list. rewrite group_by_suite_lookup.
    destruct (filter _ results) eqn:Hf; [|done].
    assert (x ∈ filter (λ y, JUnit.suite y = JUnit.suite x) results) as Hin
      by (by apply list_elem_of_filter).
    rewrite Hf in Hin. by apply not_elem_of_nil in Hin.
Qed.

(** The order in which [create] adds the tests: suites sorted, the
    results of a suite sorted. *)
Abbreviation create_order results :=
  (py_sorted py_cmp (map_to_list (group_by_suite results)).*1 ≫=
     (λ s, py_sorted XITTestCase_cmp (filter (λ x, JUnit.suite x = s) results))).

(** [create] without [--auto-modversion] never raises: it adds the
    test of every result to the empty registry of that name and date. *)
Lemma create_registry_pure sh now nm results :
  create_registry sh now nm false results =
    Ok (foldl (λ r t, Reg.addTest t r) (Reg.with_date (Reg.XITTestRegistry_init now nm []) now)
          (mk <$> create_order results)).
Proof. unfold create_registry. simpl. by rewrite add_results_pure, foldl_fmap_l. Qed.

(** On a run with one result per key, the tests of the registry
    [create] builds are exactly the tests of the results. *)
Lemma create_getTest now nm results s n t :
  NoDup (test_key <$> results) →
  Reg.getTest (foldl (λ r t, Reg.addTest t r) (Reg.with_date (Reg.XITTestRegistry_init now nm []) now)
                 (mk <$> create_order results)) s n = Some t ↔
    ∃ x, x ∈ results ∧ test_key x = (s, n) ∧ t = mk x.
Proof.
  intros Hnd. pose proof (create_order_Permutation results) as HL.
  assert (test_key <$> (mk <$> create_order results) = test_key <$> create_order results) as Hkeys
    by (clear; induction (create_order results); simpl; by f_equal).
  rewrite getTest_foldl_addTest by (by rewrite Hkeys, HL).
  assert (Reg.getTest (Reg.with_date (Reg.XITTestRegistry_init now nm []) now) s n = None) as ->
    by (unfold Reg.getTest; simpl; rewrite ?lookup_empty; done).
  rewrite list_elem_of_fmap. setoid_rewrite HL. split.
  - intros [[(x & -> & Hx) Hk]|[_ ?]]; [|done]. exists x. by split_and!.
  - intros (x & Hx & Hk & ->). left. split; [by exists x|done].
Qed.

(** C24: [create] without [--auto-modversion] succeeds on a run with
    one result per (suite, name) and builds a well-formed registry
    with the given name and date, no module version, and exactly one
    test per result, with the result's suite, name and status as the
    expected status and no annotation. *)
Theorem create_registry_spec sh now nm results :
  NoDup (test_key <$> results) →
  ∃ r, create_registry sh now nm false results = Ok r ∧ Reg.registry_wf r ∧
    Reg.name r = nm ∧ Reg.date r = now ∧ Reg.moduleversions r = [] ∧
    ∀ s n t, Reg.getTest r s n = Some t ↔
      ∃ x, x ∈ results ∧ test_key x = (s, n) ∧
           t = Test.mkXITTest (JUnit.suite x) (JUnit.name x) (JUnit.status x) [] [] [].
Proof.
  intros Hnd. rewrite create_registry_pure.
  set (reg0 := Reg.with_date (Reg.XITTestRegistry_init now nm []) now).
  destruct (foldl_addTest_meta reg0 (mk <$> create_order results)) as (Hn & Hd & Hm).
  eexists. split_and!; [reflexivity| |exact Hn|exact Hd|exact Hm|].
  - apply foldl_addTest_wf; [apply empty_registry_wf|].
    apply Forall_forall. intros t (x & -> & _)%list_elem_of_fmap. reflexivity.
  - intros s n t. by apply create_getTest.
Qed.
End create_facts.

(** ** Witnesses *)
Section merge_witnesses.
Import Merge Fixtures.

Lemma merge_add_registries_spec_witness :
  ∃ r, merge_add_registries reg_A reg_B = Ok r ∧
    (∀ s n, Reg.getTest r s n =
       match Reg.getTest reg_A s n with Some t => Some t | None => Reg.getTest reg_B s n end) ∧
    Reg.name r = Reg.name reg_A ∧ Reg.date r = Reg.date reg_A ∧
    Reg.moduleversions r = Reg.moduleversions reg_A.
Proof. apply merge_add_registries_spec, registry_wfb_spec. vm_compute. reflexivity. Defined.

Lemma create_registry_spec_witness :
  ∃ r, create_registry sh_ok date0 "xorg-1.13" false run_verify = Ok r ∧ Reg.registry_wf r ∧
    Reg.name r = "xorg-1.13" ∧ Reg.date r = date0 ∧ Reg.moduleversions r = [] ∧
    ∀ s n t, Reg.getTest r s n = Some t ↔
      ∃ x, x ∈ run_verify ∧ test_key x = (s, n) ∧
           t = Test.mkXITTest (JUnit.suite x) (JUnit.name x) (JUnit.status x) [] [] [].
Proof.
  apply create_registry_spec. apply (bool_decide_unpack _). vm_compute. exact I.
Defined.

(** The specification's scenario 4: merging B = {Y, Z} into
    A = {X, Y} gives {X, Y, Z} with A's Y (expected to pass). *)
Example merge_scenario4 :
  Reg.listTestNames <$> merge_add_registries reg_A reg_B =
    Ok [("S", "X", true); ("S", "Y", true); ("S", "Z", true)].
Proof. vm_compute. reflexivity. Qed.
End merge_witnesses.
