(* ===== verification/Edit.v ===== *)
(** * Editing a registry: the [edit] and [meta] commands and
    [load_registry_from_file] (src/registry/xit.py, lines 781-883 and
    980-995)

    Every [edit] command loads a registry, looks the test up with
    [getTest], exits with status 1 when it is missing, and otherwise
    changes the test object in place.  [getTest] returns the object
    the registry's inner dictionary holds, so the change is a change
    of the registry: the model writes the changed test back at
    [tests[suite][name]] ([store_test]), which is the state the
    aliasing produces.  [set-status] reads the status from a
    dictionary of four lower-case words; [meta set-module-version]
    appends a module version unless an [==] one is recorded;
    [meta set-date] parses its date with the [strptime] of Time.v.
    The commands return the registry they write back; Codec.v
    composes them with reading and writing the file. *)

From S2P Require Import Prelude Annotations TestCase ModuleVersion Registry Time Fixtures.
Open Scope xit_scope.

Module Edit.
Import Bug Fix ModVer.

(** The shape of every [edit] command: look the test up, exit with
    status 1 when it is missing ([logging.error], [sys.exit(1)]),
    otherwise change it. *)
Definition edit_test (reg : Reg.XITTestRegistry) (testsuite testcase : string)
    (change : Test.XITTest → res Test.XITTest) : res Reg.XITTestRegistry :=
  match Reg.getTest reg testsuite testcase with
  | None => Raise (SystemExit 1)
  | Some testcase' => t ← change testcase'; Ok (Reg.store_test reg testsuite testcase t)
  end.

(** [add_bug], [rm_bug] (lines 781-801). *)
Definition add_bug (reg : Reg.XITTestRegistry) (testsuite testcase url : string) :=
  edit_test reg testsuite testcase (λ t, Ok (Test.addBug (mkXITBug "bugzilla" url) t)).

Definition rm_bug (reg : Reg.XITTestRegistry) (testsuite testcase url : string) :=
  edit_test reg testsuite testcase (λ t, Test.removeBug (mkXITBug "bugzilla" url) t).

(** [add_fix] (lines 803-812). *)
Definition add_fix (reg : Reg.XITTestRegistry) (testsuite testcase : string)
    (type text : string) (extra_args : gmap string string) :=
  edit_test reg testsuite testcase
    (λ t, f ← createFromType type text extra_args; Ok (Test.addFix f t)).

(** [add_commit] (lines 814-819): [if args.repo:] is false for a
    missing and for an empty repository name. *)
Definition add_commit (reg : Reg.XITTestRegistry) (testsuite testcase sha1 : string)
    (repo : option string) :=
  let extra_args := match repo with
                    | Some r => if String.eqb r "" then ∅ else {[ "repo" := r ]}
                    | None => ∅
                    end in
  add_fix reg testsuite testcase "git" sha1 extra_args.

(** [add_rpm] (lines 821-822). *)
Definition add_rpm (reg : Reg.XITTestRegistry) (testsuite testcase rpm : string) :=
  add_fix reg testsuite testcase "rpm" rpm ∅.

(** [rm_fix], [rm_commit], [rm_rpm] (lines 824-839). *)
Definition rm_fix (reg : Reg.XITTestRegistry) (testsuite testcase : string) (type text : string) :=
  edit_test reg testsuite testcase
    (λ t, f ← createFromType type text ∅; Test.removeFix f t).

Definition rm_commit (reg : Reg.XITTestRegistry) (testsuite testcase sha1 : string) :=
  rm_fix reg testsuite testcase "git" sha1.

Definition rm_rpm (reg : Reg.XITTestRegistry) (testsuite testcase rpm : string) :=
  rm_fix reg testsuite testcase "rpm" rpm.

(** The dictionary [status] of [set_status] (lines 849-852). *)
Definition status_table (s : string) : option bool :=
  if String.eqb s "true" then Some true
  else if String.eqb s "false" then Some false
  else if String.eqb s "success" then Some true
  else if String.eqb s "failure" then Some false
  else None.

(** [set_status] (lines 841-860): a [KeyError] is [sys.exit(1)]. *)
Definition set_status (reg : Reg.XITTestRegistry) (testsuite testcase status : string) :=
  edit_test reg testsuite testcase
    (λ t, match status_table status with
          | Some b => Ok (Test.with_status t b)
          | None => Raise (SystemExit 1)
          end).

(** [set_date] (lines 862-871): the date given is parsed with
    [time.strptime(date, "%Y-%m-%d")], which raises [ValueError] on a
    malformed date; without one the current time is taken. *)
Definition set_date (reg : Reg.XITTestRegistry) (date : option string)
    (now : struct_time) : res Reg.XITTestRegistry :=
  d ← match date with Some s => Time.strptime_ymd s | None => Ok now end;
  Ok (Reg.with_date reg d).

(** [set_modversion] (lines 873-883). *)
Definition set_modversion (reg : Reg.XITTestRegistry) (name version : string)
    (type : option string) : Reg.XITTestRegistry :=
  let type := match type with
              | Some t => if String.eqb t "" then "git" else t
              | None => "git"
              end in
  let modversion := mkXITModuleVersion name version type in
  if negb (py_in modversion (Reg.moduleversions reg))
  then Reg.with_moduleversions reg (Reg.moduleversions reg ++ [modversion])
  else reg.

(** [load_registry_from_file] (lines 980-995) on the registries
    [fromXML] read. *)
Definition load_registry_from_file (registries : list Reg.XITTestRegistry)
    (regname : option string) : res Reg.XITTestRegistry :=
  match registries with
  | [] => Raise (SystemExit 1)
  | [r] => Ok r
  | r0 :: _ =>
      match regname with
      | Some n =>
          match filter (λ r, Reg.name r = n) registries with
          | r :: _ => Ok r
          | [] => Raise (SystemExit 1)
          end
      | None => Ok r0
      end
  end.
End Edit.

(** ** An edit changes the named test and nothing else *)
Section edit_facts.
Import Edit.
Implicit Types (reg r : Reg.XITTestRegistry).

Lemma edit_test_wf reg s n change r :
  Reg.registry_wf reg →
  (∀ t t', change t = Ok t' → test_key t' = test_key t ∧
     (Test.XITTest_wf t = true → Test.XITTest_wf t' = true)) →
  edit_test reg s n change = Ok r → Reg.registry_wf r.
Proof.
  intros Hwf Hc. unfold edit_test.
  destruct (Reg.getTest reg s n) as [t|] eqn:Ht; [|done].
  destruct (change t) as [t'|] eqn:Hct; [|done]. simpl. intros [= <-].
  destruct (proj1 Hwf _ _ _ Ht) as (Hs & Hn & Hw).
  destruct (Hc _ _ Hct) as ([= Hs' Hn'] & Hw').
  apply store_test_wf; [done|congruence|congruence|auto].
Qed.

Lemma bug_change_ok b t t' :
  Ok (Test.addBug b t) = Ok t' ∨ Test.removeBug b t = Ok t' →
  test_key t' = test_key t ∧ (Test.XITTest_wf t = true → Test.XITTest_wf t' = true).
Proof.
  set (i := Info.XITInfoText ""). set (f := Fix.XITFixGit "" ∅).
  destruct (XITTest_ops_key b i f t) as (Hk & _ & _ & Hk' & _).
  intros [[= <-]|H]; (split; [by auto|]); intros Ht;
    destruct (XITTest_ops_wf b i f t Ht) as (Hw & _ & _ & Hw' & _); auto.
Qed.

Lemma fix_change_ok f t t' :
  Ok (Test.addFix f t) = Ok t' ∨ Test.removeFix f t = Ok t' →
  test_key t' = test_key t ∧ (Test.XITTest_wf t = true → Test.XITTest_wf t' = true).
Proof.
  set (b := Bug.mkXITBug "" ""). set (i := Info.XITInfoText "").
  destruct (XITTest_ops_key b i f t) as (_ & _ & Hk & _ & _ & Hk').
  intros [[= <-]|H]; (split; [by auto|]); intros Ht;
    destruct (XITTest_ops_wf b i f t Ht) as (_ & _ & Hw & _ & _ & Hw'); auto.
Qed.

(** C6: an [edit] command on a test the registry does not
    have exits with status 1; one that succeeds replaces exactly that
    test by the changed one and leaves every other test, the name,
    the date and the module versions as they were. *)
Theorem edit_test_frame reg s n change :
  (Reg.getTest reg s n = None → edit_test reg s n change = Raise (SystemExit 1)) ∧
  ∀ r, edit_test reg s n change = Ok r →
  ∃ t t', Reg.getTest reg s n = Some t ∧ change t = Ok t' ∧ Reg.getTest r s n = Some t' ∧
    (∀ s' n', (s', n') ≠ (s, n) → Reg.getTest r s' n' = Reg.getTest reg s' n') ∧
    Reg.name r = Reg.name reg ∧ Reg.date r = Reg.date reg ∧
    Reg.moduleversions r = Reg.moduleversions reg.
Proof.
  unfold edit_test. split; [by intros ->|intros r].
  destruct (Reg.getTest reg s n) as [t|] eqn:Ht; [|done].
  destruct (change t) as [t'|] eqn:Hc; [|done]. simpl. intros [= <-].
  exists t, t'. split_and!; try done.
  - by rewrite getTest_store_test, decide_True.
  - intros s' n' Hne. by rewrite getTest_store_test, decide_False.
Qed.

(** C7: every [edit] command that succeeds keeps the
    registry's invariant: each test stays filed under its own suite
    and name, and no annotation list gets an [==]-duplicate. *)
Theorem edit_ops_wf reg s n url sha1 repo rpm status r :
  Reg.registry_wf reg →
  add_bug reg s n url = Ok r ∨ rm_bug reg s n url = Ok r ∨
  add_commit reg s n sha1 repo = Ok r ∨ add_rpm reg s n rpm = Ok r ∨
  rm_commit reg s n sha1 = Ok r ∨ rm_rpm reg s n rpm = Ok r ∨
  set_status reg s n status = Ok r →
  Reg.registry_wf r.
Proof.
  intros Hwf Hop.
  destruct Hop as [H|[H|[H|[H|[H|[H|H]]]]]]; (eapply edit_test_wf; [exact Hwf| |exact H]);
    intros t t' Hc; cbv beta in Hc.
  1,2: eapply bug_change_ok; eauto.
  1-4: destruct (Fix.createFromType _ _ _) as [f|]; [|done]; apply (fix_change_ok f); auto.
  destruct (status_table status); [|done]. injection Hc as <-. done.
Qed.

(** C15: [set-status] accepts exactly the four lower-case
    words [true], [false], [success], [failure] (so [True] or
    [SUCCESS] exit with status 1), and sets the test's expected status
    to true for [true] and [success], to false for the other two. *)
Theorem set_status_spec reg s n t status :
  Reg.getTest reg s n = Some t →
  ((∃ r, set_status reg s n status = Ok r) ↔
     status ∈ ["true"; "false"; "success"; "failure"]) ∧
  ∀ r, set_status reg s n status = Ok r →
    Reg.getTest r s n =
      Some (Test.with_status t (bool_decide (status = "true" ∨ status = "success"))).
Proof.
  intros Ht. unfold set_status, edit_test. rewrite Ht. unfold status_table.
  rewrite !elem_of_cons, elem_of_nil.
  destruct (String.eqb_spec status "true") as [->|H1]; simpl;
    [split; [split; [auto|by eexists]|intros r [= <-]; by rewrite getTest_store_test, decide_True]|].
  destruct (String.eqb_spec status "false") as [->|H2]; simpl;
    [split; [split; [auto|by eexists]|intros r [= <-]; by rewrite getTest_store_test, decide_True]|].
  destruct (String.eqb_spec status "success") as [->|H3]; simpl;
    [split; [split; [auto|by eexists]|intros r [= <-]; by rewrite getTest_store_test, decide_True]|].
  destruct (String.eqb_spec status "failure") as [->|H4]; simpl;
    [split; [split; [auto|by eexists]|intros r [= <-]; by rewrite getTest_store_test, decide_True]|].
  split; [split; [by intros [? ?]|naive_solver]|done].
Qed.

(** C16: [set-module-version name version [--type t]] records the
    module version with that name and version and the type [t], or
    ["git"] when [--type] is missing or empty; it appends it at the end
    of the list unless an [==] record is already there, never removes
    a record (the version [none], which the help text says removes an
    entry, is recorded like any other), keeps the list free of
    [==]-duplicates, and changes nothing else. *)
Theorem set_modversion_spec reg name version type :
  let r := set_modversion reg name version type in
  ∃ mv, ModVer.module mv = name ∧ ModVer.version mv = version ∧
    ModVer.type mv = match type with Some t => if String.eqb t "" then "git" else t | None => "git" end ∧
    Reg.moduleversions r =
      Reg.moduleversions reg ++ (if py_in mv (Reg.moduleversions reg) then [] else [mv]) ∧
    (py_nodup (Reg.moduleversions reg) = true → py_nodup (Reg.moduleversions r) = true) ∧
    Reg.tests r = Reg.tests reg ∧ Reg.name r = Reg.name reg ∧ Reg.date r = Reg.date reg.
Proof.
  unfold set_modversion. cbv zeta.
  exists (ModVer.mkXITModuleVersion name version
            (match type with Some t => if String.eqb t "" then "git" else t | None => "git" end)).
  split_and!; [reflexivity..| | | | |];
    match goal with |- context [py_in ?m ?l] => destruct (py_in m l) eqn:E end; simpl;
    rewrite ?app_nil_r; try done.
  intros Hnd. by apply py_nodup_snoc.
Qed.

(** C23: loading a registry file ([load_registry_from_file]) exits
    with status 1 when the file holds no registry; a file with a
    single registry gives it whatever name [-r] asks for (the name is
    not checked); with several registries and no [-r] it gives the
    first one; with several and [-r n] it gives the first registry
    named [n], and exits with status 1 when none is. *)
Theorem load_registry_from_file_spec regs regname :
  (regs = [] → load_registry_from_file regs regname = Raise (SystemExit 1)) ∧
  (∀ r, regs = [r] → load_registry_from_file regs regname = Ok r) ∧
  (2 ≤ List.length regs → regname = None → load_registry_from_file regs regname = Ok (default (Reg.XITTestRegistry_init (mk_struct_time 0 0 0 0 0 0) "" []) (head regs)) ∧ head regs ≠ None) ∧
  (∀ n, 2 ≤ List.length regs → regname = Some n →
     (∀ r, load_registry_from_file regs regname = Ok r ↔
        ∃ pre post, regs = pre ++ r :: post ∧ Reg.name r = n ∧ Forall (λ r', Reg.name r' ≠ n) pre) ∧
     (Forall (λ r', Reg.name r' ≠ n) regs → load_registry_from_file regs regname = Raise (SystemExit 1))).
Proof.
  split_and!; [by intros ->|by intros r ->| |].
  - intros Hl ->. destruct regs as [|r0 [|r1 regs]]; simpl in Hl; [lia..|done].
  - intros n Hl ->. destruct regs as [|r0 [|r1 regs]]; simpl in Hl; [lia..|].
    cbn [load_registry_from_file]. split.
    + intros r. rewrite <-(filter_head_Some (λ r, Reg.name r = n)).
      destruct (filter _ _) as [|x l]; simpl; split; congruence.
    + intros Hnone. destruct (filter _ _) as [|x l] eqn:Hf; [done|].
      assert (head (filter (λ r, Reg.name r = n) (r0 :: r1 :: regs)) = Some x)
        as (pre & post & Heq & Hx & _)%filter_head_Some by (by rewrite Hf).
      rewrite Heq, Forall_app, Forall_cons in Hnone. naive_solver.
Qed.
End edit_facts.

(** ** Witnesses *)
Section edit_witnesses.
Import Edit Fixtures.

Lemma edit_ops_wf_witness :
  ∃ r, add_bug reg_A "S" "X" "https://bugs.freedesktop.org/1234556" = Ok r ∧ Reg.registry_wf r.
Proof.
  eexists. split; [reflexivity|].
  eapply (edit_ops_wf reg_A "S" "X" "https://bugs.freedesktop.org/1234556" "" None "" "");
    [apply registry_wfb_spec; vm_compute; reflexivity|left; reflexivity].
Defined.

Lemma set_status_spec_witness :
  ((∃ r, set_status reg_A "S" "X" "True" = Ok r) ↔
     "True" ∈ ["true"; "false"; "success"; "failure"]) ∧
  ∀ r, set_status reg_A "S" "X" "True" = Ok r →
    Reg.getTest r "S" "X" =
      Some (Test.with_status (test "S" "X" true) (bool_decide ("True" = "true" ∨ "True" = "success"))).
Proof. apply set_status_spec. vm_compute. reflexivity. Defined.
(** The file of scenario 4 with registries [A] and [B], without
    [-r] and with [-r B]. *)
Lemma load_registry_from_file_spec_witness :
  load_registry_from_file [reg_A; reg_B] None = Ok reg_A ∧
  load_registry_from_file [reg_A; reg_B] (Some "B") = Ok reg_B.
Proof.
  assert (2 ≤ List.length [reg_A; reg_B]) as Hl by (simpl; lia).
  split.
  - exact (proj1 (proj1 (proj2 (proj2 (load_registry_from_file_spec [reg_A; reg_B] None))) Hl eq_refl)).
  - apply (proj1 (proj2 (proj2 (proj2 (load_registry_from_file_spec [reg_A; reg_B] (Some "B")))) "B" Hl eq_refl)).
    exists [reg_A], []. split_and!; [reflexivity|reflexivity|by repeat constructor].
Defined.
End edit_witnesses.
