(* ===== verification/Codec.v ===== *)
(** * The registry file: [XITTestRegistry.toXML], [XITTestRegistry.fromXML]
    and [JUnitTestResult.fromXML] (src/registry/xit.py, lines 97-196
    and 528-539)

    [toXML] builds the element tree of a registry (a [registries] root
    holding one [registry]) and [fromXML] reads every [registry] of a
    file back; [JUnitTestResult.fromXML] reads the results of a test
    run.  Both readers raise on a missing attribute ([KeyError]), a
    status or annotation type outside the vocabulary ([ValueError])
    and a date [strptime] refuses.  The trees are those of Xml.v, the
    dates those of Time.v.

    The theorems: a registry written and read back is the same
    registry up to what the encoding normalises (the date is kept to
    the day, module versions and annotations come back sorted, a fix
    gains its [type] among its extra attributes); the reader of a run
    gives one result per test case, failed exactly when it has a
    [failure] child; every registry read satisfies the registry
    invariant; an [edit] of a file holding several registries writes
    one registry back. *)

From S2P Require Import Prelude Annotations TestCase ModuleVersion Registry Time Xml Comparison Edit Fixtures.
Open Scope xit_scope.

Module Codec.
Import Bug Fix Info ModVer Reg Time.

(** ** [toXML] (lines 144-196) *)

(** [E.moduleversion(version)] with its [name] and [type]. *)
Definition modversion_elem (mv : XITModuleVersion) : ET.element :=
  ET.set "type" (ModVer.type mv) (ET.set "name" (module mv) (ET.E "moduleversion" (Some (version mv)))).

Definition bug_elem (b : XITBug) : ET.element :=
  ET.set "type" (Bug.type b) (ET.E "bug" (Some (url b))).

(** [E.fix(fix.text)], its [type], then every extra argument. *)
Definition fix_elem (f : XITFix) : ET.element :=
  foldl (λ e '(arg, value), ET.set arg value e)
    (ET.set "type" (Fix.type f) (ET.E "fix" (Some (Fix.text f))))
    (map_to_list (extra_args f)).

Definition info_elem (i : XITInfo) : ET.element :=
  ET.set "type" (Info.type i) (ET.E "testinfo" (Some (Info.text i))).

(** A [testcase] element: [name], [success] as [str(status).lower()],
    then its bugs, fixes and infos, each list sorted by the getters. *)
Definition testcase_elem (test : Test.XITTest) : ET.element :=
  let e := ET.set "success" (bool_str_lower (Test.status test))
             (ET.set "name" (Test.name test) (ET.E "testcase" None)) in
  let e := foldl (λ e bug, ET.append (bug_elem bug) e) e (Test.getBugs test) in
  let e := foldl (λ e f, ET.append (fix_elem f) e) e (Test.getFixes test) in
  foldl (λ e info, ET.append (info_elem info) e) e (Test.getInfo test).

(** [for name, test in sorted(suite.iteritems())]. *)
Definition suite_elem (suite_name : string) (suite : gmap string Test.XITTest) : ET.element :=
  foldl (λ e '(_, test), ET.append (testcase_elem test) e)
    (ET.set "name" suite_name (ET.E "testsuite" None))
    (py_sorted (cmp_by (K:=string) fst) (map_to_list suite)).

(** The registry element is appended to [registries] before its
    children are: lxml's [append] links the element itself, so the
    tree holds it with every child added later, which is the tree
    built here bottom-up.  [cleanup_namespaces] only removes unused
    namespace declarations. *)
Definition toXML (r : XITTestRegistry) : res ET.element :=
  let xit_registry := ET.set "name" (name r) (ET.E "registry" None) in
  d ← strftime_ymd (date r);
  let xit_meta := ET.append (ET.E "date" (Some d)) (ET.E "meta" None) in
  let xit_meta := foldl (λ e mv, ET.append (modversion_elem mv) e) xit_meta
                    (py_sorted XITModuleVersion_cmp (moduleversions r)) in
  let xit_registry := ET.append xit_meta xit_registry in
  let xit_registry := foldl (λ e '(suite_name, suite), ET.append (suite_elem suite_name suite) e)
                        xit_registry (py_sorted (cmp_by (K:=string) fst) (map_to_list (tests r))) in
  Ok (ET.append xit_registry (ET.E "registries" None)).

(** ** [fromXML] (lines 97-142) *)

(** [XITModuleVersion(modversion.attrib["name"], modversion.text, type)]
    with [type] defaulting to ["git"]. *)
Definition read_modversion (mv : ET.element) : res XITModuleVersion :=
  let type := ET.attrib_default "type" "git" mv in
  name ← ET.attrib_get "name" mv;
  Ok (mkXITModuleVersion name (ET.text_str mv) type).

(** One [meta] element: its first [date], if any (objectify's
    [date != None] compares the element found with [None]), then its
    module versions appended in order. *)
Definition read_meta (reg : XITTestRegistry) (meta : ET.element) : res XITTestRegistry :=
  reg ← match ET.find (ET.xmlns_tag "date") meta with
        | Some date => d ← strptime_text (ET.text date); Ok (with_date reg d)
        | None => Ok reg
        end;
  foldM (λ reg el, mv ← read_modversion el;
                   Ok (with_moduleversions reg (moduleversions reg ++ [mv])))
    reg (ET.iterchildren (ET.xmlns_tag "moduleversion") meta).

Definition read_bug (bug : ET.element) : XITBug :=
  mkXITBug (ET.attrib_default "type" "bugzilla" bug) (ET.text_str bug).

Definition read_info (info : ET.element) : res XITInfo :=
  Info.createFromType (ET.attrib_default "type" "text" info) (ET.text_str info).

(** [XITFix.createFromType(fix.attrib["type"], fix.text, fix.attrib)]:
    all the attributes, [type] included, become the extra arguments. *)
Definition read_fix (el : ET.element) : res XITFix :=
  type ← ET.attrib_get "type" el;
  Fix.createFromType type (ET.text_str el) (ET.attrib el).

(** One [testcase] of a [testsuite]: the arguments of [XITTest(...)]
    evaluated left to right, then the bugs, infos and fixes. *)
Definition read_testcase (suite testcase : ET.element) : res Test.XITTest :=
  suite_name ← ET.attrib_get "name" suite;
  test_name ← ET.attrib_get "name" testcase;
  success ← ET.attrib_get "success" testcase;
  status ← str2bool (PyStr success);
  tcase ← Test.XITTest_init suite_name test_name (PyBool status);
  let tcase := foldl (λ t bug, Test.addBug (read_bug bug) t) tcase
                 (ET.iterchildren (ET.xmlns_tag "bug") testcase) in
  tcase ← foldM (λ t el, info ← read_info el; Ok (Test.addInfo info t)) tcase
            (ET.iterchildren (ET.xmlns_tag "testinfo") testcase);
  foldM (λ t el, f ← read_fix el; Ok (Test.addFix f t)) tcase
    (ET.iterchildren (ET.xmlns_tag "fix") testcase).

(** One [registry] element, at the time [now] its [__init__] reads. *)
Definition read_registry (now : struct_time) (registry : ET.element) : res XITTestRegistry :=
  name ← ET.attrib_get "name" registry;
  let reg := XITTestRegistry_init now name [] in
  reg ← foldM read_meta reg (ET.iterchildren (ET.xmlns_tag "meta") registry);
  foldM (λ reg suite,
      foldM (λ reg testcase, tcase ← read_testcase suite testcase; Ok (addTest tcase reg))
        reg (ET.iterchildren (ET.xmlns_tag "testcase") suite))
    reg (ET.iterchildren (ET.xmlns_tag "testsuite") registry).

Definition fromXML (now : struct_time) (registries : ET.element) : res (list XITTestRegistry) :=
  mapM (read_registry now) (ET.iterchildren (ET.xmlns_tag "registry") registries).

(** ** [JUnitTestResult.fromXML] (lines 528-539) *)

(** The result is appended to [results] before its failures are
    added; the list holds the object, so it ends up with all of
    them. *)
Definition read_result (testsuite testcase : ET.element) : res JUnit.JUnitTestResult :=
  suite_name ← ET.attrib_get "name" testsuite;
  test_name ← ET.attrib_get "name" testcase;
  foldM (λ result failure,
      message ← ET.attrib_get "message" failure;
      Ok (JUnit.addFailure (JUnit.mkJUnitTestFailure message) result))
    (JUnit.JUnitTestResult_init suite_name test_name)
    (ET.iterchildren "failure" testcase).

Definition JUnit_fromXML (testsuites : ET.element) : res (list JUnit.JUnitTestResult) :=
  foldM (λ results testsuite,
      foldM (λ results testcase, result ← read_result testsuite testcase; Ok (results ++ [result]))
        results (ET.iterchildren "testcase" testsuite))
    [] (ET.iterchildren "testsuite" testsuites).

(** ** An [edit] or [meta] command on a registry file *)

(** [load_registry] (lines 973-978, [load_registry_from_file] on the
    registries [fromXML] reads), the change, and
    [registry_from_string(args, registry.toXML())]: the tree written
    back to the file is the one registry changed. *)
Definition edit_file (now : struct_time) (doc : ET.element) (regname : option string)
    (change : XITTestRegistry → res XITTestRegistry) : res ET.element :=
  registries ← fromXML now doc;
  registry ← Edit.load_registry_from_file registries regname;
  registry ← change registry;
  toXML registry.

(** ** What a registry read back holds *)

(** A fix read back holds all the attributes of its element, [type]
    among them. *)
Definition fix_norm (f : XITFix) : XITFix :=
  match f with
  | XITFixGit s e => XITFixGit s (<["type" := "git"]> e)
  | XITFixRPM s e => XITFixRPM s (<["type" := "rpm"]> e)
  end.

(** An extra argument named [type] would overwrite the [type]
    attribute [toXML] sets first; the fixes of the registry carry
    none, or the fix's own type. *)
Definition fix_args_ok (f : XITFix) : bool :=
  match extra_args f !! "type" with None => true | Some t => String.eqb t (Fix.type f) end.

(** A test read back: its annotation lists in the order of the
    getters. *)
Definition test_norm (t : Test.XITTest) : Test.XITTest :=
  Test.mkXITTest (Test.suite t) (Test.name t) (Test.status t)
    (Test.getBugs t) (Test.getInfo t) (fix_norm <$> Test.getFixes t).

Definition registry_norm (r : XITTestRegistry) : XITTestRegistry :=
  mkXITTestRegistry ((λ d : gmap string Test.XITTest, test_norm <$> d) <$> tests r) (name r) (midnight (date r))
    (py_sorted XITModuleVersion_cmp (moduleversions r)).

Definition registry_fixes_ok (r : XITTestRegistry) : bool :=
  forallb (λ t, forallb fix_args_ok (Test.fixes t)) (registry_tests r).

(** ** The results of a run, read in one pass *)

(** The [testcase] elements of a run with their [testsuite], in
    document order. *)
Definition junit_cases (testsuites : ET.element) : list (ET.element * ET.element) :=
  testsuite ← ET.iterchildren "testsuite" testsuites;
  (λ testcase, (testsuite, testcase)) <$> ET.iterchildren "testcase" testsuite.

(** The reader as the specification describes the run encoding: one
    result per test case, with the messages of its [failure]
    children, failed exactly when it has one. *)
Definition junit_reference (testsuites : ET.element) : res (list JUnit.JUnitTestResult) :=
  mapM (λ '(testsuite, testcase),
      suite_name ← ET.attrib_get "name" testsuite;
      test_name ← ET.attrib_get "name" testcase;
      messages ← mapM (ET.attrib_get "message") (ET.iterchildren "failure" testcase);
      Ok (JUnit.mkJUnitTestResult suite_name test_name (bool_decide (messages = []))
            (JUnit.mkJUnitTestFailure <$> messages)))
    (junit_cases testsuites).

(** A file holding two registries, [A] and [B] of the specification's
    scenario 4. *)
Definition two_registries : ET.element :=
  match toXML Fixtures.reg_A, toXML Fixtures.reg_B with
  | Ok a, Ok b => ET.Element (ET.xmlns_tag "registries") ∅ None (ET.children a ++ ET.children b)
  | _, _ => ET.E "registries" None
  end.

(** ** The elements [toXML] builds *)
Section elements.

Lemma read_modversion_elem mv : read_modversion (modversion_elem mv) = Ok mv.
Proof. by destruct mv. Qed.

Lemma read_bug_elem b : read_bug (bug_elem b) = b.
Proof. by destruct b. Qed.

Lemma read_info_elem i : read_info (info_elem i) = Ok i.
Proof. by destruct i. Qed.

Lemma fix_elem_eq f :
  fix_elem f = ET.Element (ET.xmlns_tag "fix") (extra_args f ∪ {["type" := Fix.type f]})
                 (Some (Fix.text f)) [].
Proof. unfold fix_elem. by rewrite ET.foldl_set_map. Qed.

Lemma read_fix_elem f : fix_args_ok f = true → read_fix (fix_elem f) = Ok (fix_norm f).
Proof.
  intros Hf. rewrite fix_elem_eq. unfold read_fix, ET.attrib_get, fix_args_ok in *. simpl.
  assert (extra_args f ∪ {["type" := Fix.type f]} = <["type" := Fix.type f]> (extra_args f)) as ->.
  { apply map_eq. intros k. destruct (decide (k = "type")) as [->|Hk].
    - rewrite lookup_insert_eq, lookup_union, lookup_singleton_eq.
      destruct (extra_args f !! "type") eqn:E; simpl; [|done].
      by apply String.eqb_eq in Hf as ->.
    - rewrite lookup_insert_ne, lookup_union, lookup_singleton_ne by done.
      by destruct (extra_args f !! k). }
  rewrite lookup_insert_eq. by destruct f.
Qed.

Lemma testcase_elem_eq t :
  testcase_elem t =
  ET.Element (ET.xmlns_tag "testcase")
    (<["success" := bool_str_lower (Test.status t)]> {["name" := Test.name t]}) None
    ((bug_elem <$> Test.getBugs t) ++ (fix_elem <$> Test.getFixes t) ++ (info_elem <$> Test.getInfo t)).
Proof.
  unfold testcase_elem. rewrite !(ET.foldl_append _ _ _ _ (λ _ _, eq_refl)). simpl.
  by rewrite <-app_assoc.
Qed.

Lemma suite_elem_eq sn (sd : gmap string Test.XITTest) :
  suite_elem sn sd =
  ET.Element (ET.xmlns_tag "testsuite") {["name" := sn]} None
    ((testcase_elem ∘ snd) <$> py_sorted (cmp_by (K:=string) fst) (map_to_list sd)).
Proof. unfold suite_elem. by rewrite (ET.foldl_append _ (testcase_elem ∘ snd)) by by intros ? []. Qed.

(** The [add*] loops of [fromXML] on one annotation list, from an
    empty list. *)
Lemma foldl_add_field {A} `{PyEqLaws A} (get : Test.XITTest → list A)
    (put : Test.XITTest → list A → Test.XITTest) (add : A → Test.XITTest → Test.XITTest) t l :
  (∀ x t, add x t = put t (py_add x (get t))) →
  (∀ t l, get (put t l) = l) → (∀ t l1 l2, put (put t l1) l2 = put t l2) →
  (∀ t, put t (get t) = t) → get t = [] →
  foldl (λ t x, add x t) t l = put t (foldl (λ a x, py_add x a) [] l).
Proof.
  intros Hadd Hget Hput Hid Ht. rewrite <-(Hid t) at 1. rewrite Ht.
  generalize (@nil A). induction l as [|x l IH]; intros a; [done|].
  cbn [foldl]. by rewrite Hadd, Hget, Hput, IH.
Qed.

Lemma foldl_py_add_sorted {A} `{PyEqLaws A} (c : A → A → comparison) l :
  py_nodup l = true → foldl (λ a x, py_add x a) [] (py_sorted c l) = py_sorted c l.
Proof. intros Hl. apply foldl_py_add. by rewrite (py_nodup_Permutation _ l) by apply py_sorted_perm. Qed.

(** The children of a test case with a given tag. *)
Lemma testcase_children t :
  ET.iterchildren (ET.xmlns_tag "bug") (testcase_elem t) = bug_elem <$> Test.getBugs t ∧
  ET.iterchildren (ET.xmlns_tag "testinfo") (testcase_elem t) = info_elem <$> Test.getInfo t ∧
  ET.iterchildren (ET.xmlns_tag "fix") (testcase_elem t) = fix_elem <$> Test.getFixes t.
Proof.
  rewrite testcase_elem_eq. unfold ET.iterchildren. simpl. rewrite !filter_app.
  rewrite !(ET.filter_tag_fmap _ _ bug_elem _ (λ _, eq_refl)),
    !(ET.filter_tag_fmap _ _ info_elem _ (λ _, eq_refl)),
    !(ET.filter_tag_fmap _ (ET.xmlns_tag "fix") fix_elem) by (intros; by rewrite fix_elem_eq).
  tag_decide. by rewrite !app_nil_r.
Qed.
Lemma fix_norm_eq f g : py_eq (fix_norm f) (fix_norm g) = py_eq f g.
Proof. by destruct f, g. Qed.

(** A test case [toXML] wrote is read back as [test_norm]. *)
Lemma read_testcase_elem sn sd t :
  Test.XITTest_wf t = true → forallb fix_args_ok (Test.fixes t) = true → Test.suite t = sn →
  read_testcase (suite_elem sn sd) (testcase_elem t) = Ok (test_norm t).
Proof.
  intros Hwf Hfix <-. apply andb_prop in Hwf as [[Hb Hi]%andb_prop Hf].
  unfold read_testcase. destruct (testcase_children t) as (-> & -> & ->).
  rewrite suite_elem_eq, testcase_elem_eq.
  unfold ET.attrib_get; cbn [ET.attrib].
  rewrite lookup_singleton_eq, (lookup_insert_ne _ "success" "name") by discriminate.
  rewrite lookup_singleton_eq, lookup_insert_eq. cbn [mbind res_bind].
  assert (str2bool (PyStr (bool_str_lower (Test.status t))) = Ok (Test.status t)) as ->
    by (by destruct (Test.status t)).
  cbn [mbind res_bind Test.XITTest_init str2bool].
  unfold test_norm, Test.getBugs, Test.getInfo, Test.getFixes.
  rewrite foldl_fmap_l, (foldl_add_field Test.bugs Test.with_bugs (λ x t, Test.addBug (read_bug (bug_elem x)) t));
    [|intros x t'; rewrite read_bug_elem; unfold Test.addBug, py_add; by destruct (py_in _ _), t'
     |done|done|by intros []|done].
  rewrite foldl_py_add_sorted by done.
  rewrite foldM_fmap, (foldM_Ok _ (λ t i, Test.addInfo i t))
    by (intros; by rewrite read_info_elem).
  rewrite (foldl_add_field Test.info Test.with_info);
    [|intros x t'; unfold Test.addInfo, py_add; by destruct (py_in _ _), t'
     |done|done|by intros []|done].
  rewrite foldl_py_add_sorted by done.
  cbn [mbind res_bind].
  rewrite foldM_fmap, (foldM_Ok _ (λ t f, Test.addFix (fix_norm f) t)).
  2:{ intros a f Hin. rewrite read_fix_elem; [done|].
      rewrite forallb_forall in Hfix. apply Hfix, list_elem_of_In.
      by rewrite <-(py_sorted_perm XITFix_cmp). }
  rewrite <-(foldl_fmap_l (λ t f, Test.addFix f t)).
  rewrite (foldl_add_field Test.fixes Test.with_fixes);
    [|intros x t'; unfold Test.addFix, py_add; by destruct (py_in _ _), t'
     |done|done|by intros []|done].
  rewrite foldl_py_add.
  - done.
  - rewrite app_nil_l, py_nodup_fmap by apply fix_norm_eq.
    by rewrite (py_nodup_Permutation _ (Test.fixes t)) by apply py_sorted_perm.
Qed.
End elements.
(** ** The registry read back *)
Section registry_read.

Lemma test_norm_wf t : Test.XITTest_wf t = true → Test.XITTest_wf (test_norm t) = true.
Proof.
  unfold Test.XITTest_wf, test_norm, Test.getBugs, Test.getInfo, Test.getFixes.
  cbn [Test.bugs Test.info Test.fixes]. rewrite py_nodup_fmap by apply fix_norm_eq.
  rewrite (py_nodup_Permutation (py_sorted _ (Test.bugs t)) (Test.bugs t)),
    (py_nodup_Permutation (py_sorted _ (Test.info t)) (Test.info t)),
    (py_nodup_Permutation (py_sorted _ (Test.fixes t)) (Test.fixes t)) by apply py_sorted_perm.
  done.
Qed.

(** Adding the normalised tests of a registry one by one to an empty
    registry gives its normalised tests. *)
Lemma foldl_addTest_norm r n d mvs :
  registry_wf r →
  foldl (λ reg t, addTest (test_norm t) reg) (mkXITTestRegistry ∅ n d mvs) (registry_tests r) =
  mkXITTestRegistry ((λ sd : gmap string Test.XITTest, test_norm <$> sd) <$> tests r) n d mvs.
Proof.
  intros Hwf. rewrite <-(foldl_fmap_l (λ reg t, addTest t reg) test_norm).
  assert (NoDup (test_key <$> (test_norm <$> registry_tests r))) as Hnd.
  { rewrite <-list_fmap_compose. apply strict_sorted_NoDup, registry_tests_keys_sorted, Hwf. }
  assert (Forall (λ t, Test.XITTest_wf t = true) (test_norm <$> registry_tests r)) as Hts.
  { apply Forall_fmap, Forall_forall. intros t Ht. apply test_norm_wf.
    by destruct (proj1 Hwf _ _ _ (registry_tests_getTest r t Hwf Ht)) as (_ & _ & ?). }
  pose proof (foldl_addTest_wf _ _ (empty_registry_wf n d mvs) Hts) as Hwf'.
  destruct (foldl_addTest_meta (mkXITTestRegistry ∅ n d mvs) (test_norm <$> registry_tests r))
    as (Hn & Hd & Hm).
  pose proof (λ s nm t, getTest_foldl_addTest (mkXITTestRegistry ∅ n d mvs) _ s nm t Hnd) as Hget.
  revert Hwf' Hn Hd Hm Hget. generalize (foldl (λ r t, addTest t r) (mkXITTestRegistry ∅ n d mvs)
    (test_norm <$> registry_tests r)). intros [ts' n' d' m'] Hwf' Hn Hd Hm Hget.
  cbn [tests name date moduleversions] in Hn, Hd, Hm. subst.
  set (T := (λ sd : gmap string Test.XITTest, test_norm <$> sd) <$> tests r).
  assert (∀ s sd', T !! s = Some sd' → sd' ≠ ∅) as Hne.
  { intros s sd'. unfold T. rewrite lookup_fmap. destruct (tests r !! s) eqn:E; simpl; [|done].
    intros [= <-] ?%fmap_empty_inv. by eapply (proj2 Hwf). }
  assert (∀ s nm, getTest (mkXITTestRegistry T n d mvs) s nm = test_norm <$> getTest r s nm) as HT.
  { intros s nm. unfold getTest, T. cbn [tests]. rewrite lookup_fmap.
    destruct (tests r !! s); simpl; [by rewrite lookup_fmap|done]. }
  f_equal. apply (tests_ext (mkXITTestRegistry ts' n d mvs) (mkXITTestRegistry T n d mvs));
    [apply Hwf'|exact Hne|].
  intros s nm. apply option_eq. intros t'. rewrite Hget, HT.
  assert (getTest (mkXITTestRegistry ∅ n d mvs) s nm = None) as -> by done.
  split.
  - intros [[(t & -> & Ht)%list_elem_of_fmap Hk]|[_ ?]]; [|done].
    pose proof (registry_tests_getTest r t Hwf Ht) as Hg. injection Hk as <- <-.
    by rewrite Hg.
  - destruct (getTest r s nm) as [t|] eqn:Hg; [|done]. intros [= <-]. left.
    split; [apply list_elem_of_fmap; exists t; split; [done|]; apply registry_tests_elem_of; eauto|].
    by destruct (proj1 Hwf _ _ _ Hg) as (<- & <- & _).
Qed.
Lemma suite_elem_tag sn sd : ET.tag (suite_elem sn sd) = ET.xmlns_tag "testsuite".
Proof. by rewrite suite_elem_eq. Qed.

Lemma testcase_elem_tag t : ET.tag (testcase_elem t) = ET.xmlns_tag "testcase".
Proof. by rewrite testcase_elem_eq. Qed.

Lemma suite_children sn sd :
  ET.iterchildren (ET.xmlns_tag "testcase") (suite_elem sn sd) =
  (testcase_elem ∘ snd) <$> py_sorted (cmp_by (K:=string) fst) (map_to_list sd).
Proof.
  unfold ET.iterchildren. rewrite suite_elem_eq. cbn [ET.children].
  rewrite (ET.filter_tag_fmap _ _ (testcase_elem ∘ snd) _ (λ p, testcase_elem_tag p.2)).
  by tag_decide.
Qed.

(** The [testsuite] loop of [fromXML] on the suites [toXML] wrote. *)
Lemma read_suites r reg :
  registry_wf r → registry_fixes_ok r = true →
  foldM (λ reg suite,
      foldM (λ reg testcase, tcase ← read_testcase suite testcase; Ok (addTest tcase reg))
        reg (ET.iterchildren (ET.xmlns_tag "testcase") suite))
    reg ((λ p, suite_elem p.1 p.2) <$> py_sorted (cmp_by (K:=string) fst) (map_to_list (tests r)))
  = Ok (foldl (λ reg t, addTest (test_norm t) reg) reg (registry_tests r)).
Proof.
  intros Hwf Hfix. rewrite foldM_fmap. unfold registry_tests. rewrite foldl_bind.
  apply foldM_Ok. intros reg' [sn sd] Hp. cbn [fst snd].
  apply (py_sorted_elem_of fst), elem_of_map_to_list in Hp.
  rewrite suite_children, foldM_fmap, foldl_bind. apply foldM_Ok. intros reg'' [nm t] Hq.
  cbn [compose snd foldl mbind res_bind].
  apply (py_sorted_elem_of fst), elem_of_map_to_list in Hq.
  assert (getTest r sn nm = Some t) as Hg by (unfold getTest; by rewrite Hp).
  destruct (proj1 Hwf _ _ _ Hg) as (Hs & _ & Hwft).
  rewrite read_testcase_elem; [done|done| |done].
  unfold registry_fixes_ok in Hfix. rewrite forallb_forall in Hfix.
  apply Hfix, list_elem_of_In, registry_tests_elem_of. eauto.
Qed.
Lemma foldl_snoc_moduleversions reg l :
  foldl (λ reg mv, with_moduleversions reg (moduleversions reg ++ [mv])) reg l =
  with_moduleversions reg (moduleversions reg ++ l).
Proof.
  revert reg. induction l as [|x l IH]; intros reg; simpl.
  - by rewrite app_nil_r; destruct reg.
  - rewrite IH. simpl. by rewrite <-app_assoc.
Qed.

(** One [add*] keeps a test free of [==]-duplicates. *)
Ltac add_keeps_wf :=
  match goal with
  | H : Test.XITTest_wf ?t = true |- Test.XITTest_wf (Test.addBug ?b ?t) = true =>
      exact (proj1 (XITTest_ops_wf b (XITInfoText "") (XITFixRPM "" ∅) t H))
  | H : Test.XITTest_wf ?t = true |- Test.XITTest_wf (Test.addInfo ?i ?t) = true =>
      exact (proj1 (proj2 (XITTest_ops_wf (mkXITBug "" "") i (XITFixRPM "" ∅) t H)))
  | H : Test.XITTest_wf ?t = true |- Test.XITTest_wf (Test.addFix ?f ?t) = true =>
      exact (proj1 (proj2 (proj2 (XITTest_ops_wf (mkXITBug "" "") (XITInfoText "") f t H))))
  end.

(** The invariant only looks at the tests. *)
Lemma registry_wf_tests r r' : tests r' = tests r → registry_wf r → registry_wf r'.
Proof. unfold registry_wf, getTest. by intros ->. Qed.

Lemma read_testcase_wf suite testcase t :
  read_testcase suite testcase = Ok t → Test.XITTest_wf t = true.
Proof.
  unfold read_testcase. intros H. res_inv.
  revert H. apply (foldM_invariant (λ t, Test.XITTest_wf t = true)).
  { intros t0 el t' Ht0 Hel. res_inv. add_keeps_wf. }
  match goal with Hb : foldM _ (foldl _ _ _) _ = Ok _ |- _ => revert Hb end.
  apply (foldM_invariant (λ t, Test.XITTest_wf t = true)).
  { intros t0 el t' Ht0 Hel. res_inv. add_keeps_wf. }
  apply (foldl_invariant (λ t, Test.XITTest_wf t = true)); [intros t0 bug Ht0; add_keeps_wf|].
  by eapply XITTest_init_wf.
Qed.

End registry_read.

(** C28: the round trip of the registry encoding (specification,
    section 8).  A registry whose invariant holds, whose date is one
    [time.localtime] returns in a year of four digits and whose fixes
    carry no conflicting [type] argument is written by [toXML] and read
    back by [fromXML] as exactly one registry: the same name and tests,
    the date at midnight, the module versions sorted, and in every test
    the annotation lists sorted and the fixes holding their [type]. *)
Theorem toXML_fromXML now r :
  registry_wf r → date_ok (date r) → registry_fixes_ok r = true →
  (toXML r ≫= fromXML now) = Ok [registry_norm r].
Proof.
  intros Hwf Hdate Hfix.
  set (ds := decimal (tm_year (date r)) +:+ "-" +:+ pad2 (tm_mon (date r)) +:+ "-" +:+
             pad2 (tm_mday (date r))).
  set (mvs := modversion_elem <$> py_sorted XITModuleVersion_cmp (moduleversions r)).
  set (meta := ET.Element (ET.xmlns_tag "meta") ∅ None (ET.E "date" (Some ds) :: mvs)).
  set (suites := (λ p, suite_elem p.1 p.2) <$>
                   py_sorted (cmp_by (K:=string) fst) (map_to_list (tests r))).
  set (reg := ET.Element (ET.xmlns_tag "registry") {["name" := name r]} None (meta :: suites)).
  assert (toXML r = Ok (ET.Element (ET.xmlns_tag "registries") ∅ None [reg])) as ->.
  { unfold toXML. rewrite strftime_ok by done. cbn [mbind res_bind].
    rewrite (ET.foldl_append _ modversion_elem) by done.
    by rewrite (ET.foldl_append _ (λ p, suite_elem p.1 p.2)) by (by intros ? []). }
  assert (Hmv : ∀ x, ET.tag (modversion_elem x) = ET.xmlns_tag "moduleversion") by done.
  assert (Hsu : ∀ x, ET.tag ((λ p, suite_elem p.1 p.2) x) = ET.xmlns_tag "testsuite")
    by (intros; apply suite_elem_tag).
  assert (ET.iterchildren (ET.xmlns_tag "meta") reg = [meta]) as Hmeta.
  { unfold ET.iterchildren, reg, suites. cbn [ET.children]. rewrite filter_cons.
    rewrite (ET.filter_tag_fmap _ _ _ _ Hsu). unfold meta. cbn [ET.tag]. by tag_decide. }
  assert (ET.iterchildren (ET.xmlns_tag "testsuite") reg = suites) as Hsuites.
  { unfold ET.iterchildren, reg, suites. cbn [ET.children]. rewrite filter_cons.
    rewrite (ET.filter_tag_fmap _ _ _ _ Hsu). unfold meta. cbn [ET.tag]. by tag_decide. }
  assert (ET.find (ET.xmlns_tag "date") meta = Some (ET.E "date" (Some ds))) as Hdt.
  { unfold ET.find, ET.iterchildren, meta, mvs. cbn [ET.children]. rewrite filter_cons.
    rewrite (ET.filter_tag_fmap _ _ _ _ Hmv). cbn [ET.tag ET.E]. by tag_decide. }
  assert (ET.iterchildren (ET.xmlns_tag "moduleversion") meta = mvs) as Hmvs.
  { unfold ET.iterchildren, meta, mvs. cbn [ET.children]. rewrite filter_cons.
    rewrite (ET.filter_tag_fmap _ _ _ _ Hmv). cbn [ET.tag ET.E]. by tag_decide. }
  assert (strptime_text (ET.text (ET.E "date" (Some ds))) = Ok (midnight (date r))) as Hd.
  { destruct Hdate as (? & ? & _). by apply strptime_written; [lia|]. }
  assert (ET.iterchildren (ET.xmlns_tag "registry")
            (ET.Element (ET.xmlns_tag "registries") ∅ None [reg]) = [reg]) as Hregs.
  { unfold ET.iterchildren. cbn [ET.children]. rewrite filter_cons, filter_nil.
    unfold reg at 1. cbn [ET.tag]. by tag_decide. }
  cbn [mbind res_bind]. unfold fromXML. rewrite Hregs.
  cbn [mapM]. unfold read_registry. rewrite Hmeta, Hsuites.
  replace (ET.attrib_get "name" reg) with (Ok (name r))
    by (unfold ET.attrib_get, reg; cbn [ET.attrib]; by rewrite lookup_singleton_eq).
  cbn [mbind res_bind foldM]. unfold read_meta at 1. rewrite Hdt, Hd, Hmvs.
  cbn [mbind res_bind]. unfold mvs. rewrite foldM_fmap.
  rewrite (foldM_Ok _ (λ reg mv, with_moduleversions reg (moduleversions reg ++ [mv])))
    by (intros; by rewrite read_modversion_elem).
  rewrite foldl_snoc_moduleversions. cbn [mbind res_bind].
  unfold suites. rewrite read_suites by done. cbn [mbind res_bind].
  unfold XITTestRegistry_init, with_moduleversions, with_date.
  cbn [from_list foldl tests name date moduleversions].
  by rewrite foldl_addTest_norm.
Qed.
(** ** The reader of a run *)
Section junit_read.

Lemma mapM_app {A B} (f : A → res B) (l1 l2 : list A) :
  mapM f (l1 ++ l2) = (r1 ← mapM f l1; r2 ← mapM f l2; Ok (r1 ++ r2)).
Proof.
  induction l1 as [|x l1 IH]; simpl.
  - by destruct (mapM f l2).
  - destruct (f x); [|done]. simpl. rewrite IH.
    destruct (mapM f l1), (mapM f l2); done.
Qed.

(** Appending the result of every iteration is a [mapM]. *)
Lemma foldM_snoc {A B} (f : A → res B) (acc : list B) (l : list A) :
  foldM (λ rs x, r ← f x; Ok (rs ++ [r])) acc l = (rs ← mapM f l; Ok (acc ++ rs)).
Proof.
  revert acc. induction l as [|x l IH]; intros acc; simpl; [by rewrite app_nil_r|].
  destruct (f x); [|done]. simpl. rewrite IH.
  destruct (mapM f l); simpl; [by rewrite <-app_assoc|done].
Qed.

(** The [failure] loop of one test case. *)
Lemma read_failures s n fs :
  foldM (λ result failure,
      message ← ET.attrib_get "message" failure;
      Ok (JUnit.addFailure (JUnit.mkJUnitTestFailure message) result))
    (JUnit.JUnitTestResult_init s n) fs =
  (messages ← mapM (ET.attrib_get "message") fs;
   Ok (JUnit.mkJUnitTestResult s n (bool_decide (messages = []))
         (JUnit.mkJUnitTestFailure <$> messages))).
Proof.
  unfold JUnit.JUnitTestResult_init.
  assert (∀ acc,
    foldM (λ result failure,
        message ← ET.attrib_get "message" failure;
        Ok (JUnit.addFailure (JUnit.mkJUnitTestFailure message) result))
      (JUnit.mkJUnitTestResult s n (bool_decide (acc = [])) (JUnit.mkJUnitTestFailure <$> acc)) fs =
    (messages ← mapM (ET.attrib_get "message") fs;
     Ok (JUnit.mkJUnitTestResult s n (bool_decide (acc ++ messages = []))
           (JUnit.mkJUnitTestFailure <$> (acc ++ messages))))) as Hgen.
  { induction fs as [|f fs IH]; intros acc; simpl; [by rewrite app_nil_r|].
    destruct (ET.attrib_get "message" f) as [m|]; [|done]. simpl.
    assert (JUnit.addFailure (JUnit.mkJUnitTestFailure m)
              (JUnit.mkJUnitTestResult s n (bool_decide (acc = [])) (JUnit.mkJUnitTestFailure <$> acc)) =
            JUnit.mkJUnitTestResult s n (bool_decide (acc ++ [m] = []))
              (JUnit.mkJUnitTestFailure <$> (acc ++ [m]))) as ->.
    { unfold JUnit.addFailure. cbn [JUnit.suite JUnit.name JUnit.failures].
      rewrite bool_decide_eq_false_2 by (by intros [_ ?]%app_eq_nil). by rewrite fmap_app. }
    rewrite IH.
    destruct (mapM _ fs); simpl; [by rewrite <-app_assoc|done]. }
  apply (Hgen []).
Qed.

Lemma read_result_eq ts tc :
  read_result ts tc =
  (suite_name ← ET.attrib_get "name" ts;
   test_name ← ET.attrib_get "name" tc;
   messages ← mapM (ET.attrib_get "message") (ET.iterchildren "failure" tc);
   Ok (JUnit.mkJUnitTestResult suite_name test_name (bool_decide (messages = []))
         (JUnit.mkJUnitTestFailure <$> messages))).
Proof.
  unfold read_result. destruct (ET.attrib_get "name" ts); [|done]. simpl.
  destruct (ET.attrib_get "name" tc); [|done]. apply read_failures.
Qed.

Lemma mapM_ext {A B} (f g : A → res B) (l : list A) :
  (∀ x, f x = g x) → mapM f l = mapM g l.
Proof. intros Hfg. induction l as [|x l IH]; [done|]. simpl. by rewrite Hfg, IH. Qed.
End junit_read.

(** C29: [JUnitTestResult.fromXML] is the one-pass reader of the
    specification's run encoding: it returns one result per
    [testcase] of every [testsuite], in document order, holding the
    messages of its [failure] children and failed exactly when there
    is one, and it raises [KeyError] when a name or a message is
    missing. *)
Theorem JUnit_fromXML_reference root : JUnit_fromXML root = junit_reference root.
Proof.
  unfold JUnit_fromXML, junit_reference, junit_cases.
  rewrite (mapM_ext _ (λ p, read_result p.1 p.2)) by (intros [ts tc]; symmetry; apply read_result_eq).
  assert (∀ L acc, foldM (λ results testsuite,
      foldM (λ results testcase, result ← read_result testsuite testcase; Ok (results ++ [result]))
        results (ET.iterchildren "testcase" testsuite)) acc L =
    (rs ← mapM (λ p, read_result p.1 p.2)
            (L ≫= λ ts, (λ tc, (ts, tc)) <$> ET.iterchildren "testcase" ts);
     Ok (acc ++ rs))) as Hacc.
  { induction L as [|ts L IH]; intros acc; [simpl; by rewrite app_nil_r|].
    rewrite bind_cons. cbn [foldM]. rewrite foldM_snoc, mapM_app, mapM_fmap.
    destruct (mapM _ (ET.iterchildren "testcase" ts)) as [rs1|]; cbn [mbind res_bind]; [|done].
    rewrite IH. destruct (mapM _ (L ≫= _)); cbn [mbind res_bind]; [by rewrite app_assoc|done]. }
  rewrite Hacc. by destruct (mapM _ _).
Qed.

(** [toXML] writes one registry. *)
Lemma toXML_one_registry r out :
  toXML r = Ok out → List.length (ET.iterchildren (ET.xmlns_tag "registry") out) = 1.
Proof.
  unfold toXML. destruct (strftime_ymd (date r)); [|done]. cbn [mbind res_bind].
  intros [= <-]. rewrite (ET.foldl_append _ (λ p, suite_elem p.1 p.2)) by (by intros ? []).
  unfold ET.iterchildren. cbn [ET.children ET.append ET.E app]. rewrite filter_cons, filter_nil.
  cbn [ET.tag ET.set ET.E]. by tag_decide.
Qed.

(** A successful [edit_file] writes the tree of a registry. *)
Lemma edit_file_toXML now doc regname change out :
  edit_file now doc regname change = Ok out → ∃ r, toXML r = Ok out.
Proof.
  unfold edit_file. destruct (fromXML now doc); [|done]. cbn [mbind res_bind].
  destruct (Edit.load_registry_from_file _ _); [|done]. cbn [mbind res_bind].
  destruct (change _) as [r|]; [|done]. eauto.
Qed.

(** C30: an [edit] or [meta] command on a file holding several
    registries writes back a file holding one: the registry it
    changed.  The other registries of the file are lost. *)
Theorem edit_file_one_registry now doc regname change out :
  edit_file now doc regname change = Ok out →
  List.length (ET.iterchildren (ET.xmlns_tag "registry") out) = 1.
Proof. intros (r & Hr)%edit_file_toXML. exact (toXML_one_registry r out Hr). Qed.

(** Writing a registry and reading it back does not give the
    registry back: [info] lists the bugs of a test read back in
    sorted order, where the registry held them in the order they were
    added. *)
Example toXML_fromXML_not_identity :
  match toXML Fixtures.reg_annot ≫= fromXML Fixtures.date0 with
  | Ok [r'] => (Test.XITTest_str <$> getTest r' "InputTest" "TestCaseA") ≠
               (Test.XITTest_str <$> getTest Fixtures.reg_annot "InputTest" "TestCaseA")
  | _ => False
  end.
Proof. vm_compute. congruence. Qed.

(** C31: [meta set-date] accepts a date before 1900 that it cannot
    write: for a year from 100 to 1899, [time.strptime] parses the
    date and [toXML]'s [time.strftime] raises [ValueError], so the
    command fails after reading the file. *)
Theorem set_date_before_1900_raises reg s t now :
  strptime_ymd s = Ok t → (100 ≤ tm_year t < 1900)%Z →
  (Edit.set_date reg (Some s) now ≫= toXML) = Raise ValueError.
Proof.
  intros Hs Hy. unfold Edit.set_date. rewrite Hs. cbn [mbind res_bind].
  unfold toXML, strftime_ymd, year_2k. cbn [date with_date].
  destruct (Z.leb_spec 1900 (tm_year t)), (Z.leb_spec 69 (tm_year t)), (Z.leb_spec (tm_year t) 99),
    (Z.leb_spec 0 (tm_year t)), (Z.leb_spec (tm_year t) 68); simpl; lia || done.
Qed.

(** C36: every registry [fromXML] returns, whatever the file holds,
    satisfies the registry invariant: each test is filed under its
    own suite and name, no suite is empty, and no annotation list
    holds two [==] values. *)
Theorem fromXML_wf now doc regs :
  fromXML now doc = Ok regs → Forall registry_wf regs.
Proof.
  apply (mapM_Forall registry_wf). intros el r. unfold read_registry. intros H. res_inv.
  revert H. apply (foldM_invariant registry_wf).
  - intros reg suite reg'. apply (foldM_invariant registry_wf).
    intros reg0 tc reg1 Hr Htc. res_inv. by eapply addTest_wf, read_testcase_wf.
  - revert E0. apply (foldM_invariant registry_wf).
    + intros reg m reg' Hr. unfold read_meta. intros Hm. res_inv.
      revert Hm. apply (foldM_invariant registry_wf).
      * intros reg0 el0 reg1 Hr0 Hel. res_inv. by eapply registry_wf_tests.
      * destruct (ET.find _ _); res_inv; [|done]. by eapply registry_wf_tests.
    + exact (empty_registry_wf _ _ _).
Qed.

Section codec_witnesses.

Lemma toXML_fromXML_witness :
  registry_wf Fixtures.reg_annot ∧ date_ok (date Fixtures.reg_annot) ∧
  registry_fixes_ok Fixtures.reg_annot = true ∧
  (toXML Fixtures.reg_annot ≫= fromXML Fixtures.date0) = Ok [registry_norm Fixtures.reg_annot].
Proof.
  assert (registry_wf Fixtures.reg_annot) as H1
    by (apply registry_wfb_spec; vm_compute; reflexivity).
  assert (date_ok (date Fixtures.reg_annot)) as H2
    by (split; [cbn; lia|split; [reflexivity|cbn; lia]]).
  assert (registry_fixes_ok Fixtures.reg_annot = true) as H3 by (vm_compute; reflexivity).
  split_and!; [exact H1|exact H2|exact H3|exact (toXML_fromXML Fixtures.date0 _ H1 H2 H3)].
Defined.

Lemma edit_file_one_registry_witness :
  List.length (ET.iterchildren (ET.xmlns_tag "registry") two_registries) = 2 ∧
  match edit_file Fixtures.date0 two_registries (Some "A")
          (λ r, Edit.add_bug r "S" "X" "https://bugs.freedesktop.org/1") with
  | Ok out => List.length (ET.iterchildren (ET.xmlns_tag "registry") out) = 1
  | Raise _ => False
  end.
Proof.
  split; [vm_compute; reflexivity|].
  destruct (edit_file _ _ _ _) as [out|e] eqn:E.
  - exact (edit_file_one_registry _ _ _ _ _ E).
  - vm_compute in E. discriminate E.
Defined.
Lemma set_date_before_1900_raises_witness :
  strptime_ymd "1850-01-01" = Ok (mk_struct_time 1850 1 1 0 0 0) ∧
  (100 ≤ tm_year (mk_struct_time 1850 1 1 0 0 0) < 1900)%Z ∧
  (Edit.set_date Fixtures.reg_A (Some "1850-01-01") Fixtures.date0 ≫= toXML) = Raise ValueError.
Proof.
  assert (strptime_ymd "1850-01-01" = Ok (mk_struct_time 1850 1 1 0 0 0)) as H1 by reflexivity.
  assert ((100 ≤ tm_year (mk_struct_time 1850 1 1 0 0 0) < 1900)%Z) as H2 by (cbn; lia).
  split; [exact H1|split; [exact H2|exact (set_date_before_1900_raises _ _ _ _ H1 H2)]].
Defined.
(** The file of [two_registries] gives two well-formed registries. *)
Lemma fromXML_wf_witness :
  match fromXML Fixtures.date0 two_registries with
  | Ok regs => Forall registry_wf regs ∧ List.length regs = 2%nat
  | Raise _ => False
  end.
Proof.
  destruct (fromXML _ _) as [regs|e] eqn:E.
  - split; [exact (fromXML_wf _ _ _ E)|vm_compute in E; by simplify_eq].
  - vm_compute in E. discriminate E.
Defined.
End codec_witnesses.
End Codec.
