(* ===== verification/Files.v ===== *)
(** * Writing a registry back: [open_new_registry], [write_to_registry],
    [sync_registry] and [registry_from_string] (src/registry/xit.py,
    lines 997-1017)

    Every command that changes a registry ends with
    [registry_from_string(args, registry.toXML())]: the text is written
    to [sys.stdout] when the registry came from standard input (no
    [-f]), and otherwise to a temporary file ([os.tmpfile()]) that
    [sync_registry] copies over [args.file] after opening it with mode
    ["w"], which empties it.  The model is a world of files (path to
    contents) and the text printed on standard output; a step of the
    write-back is a new world, and [registry_from_string] returns the
    worlds it goes through, in order.  [copyfileobj] copies in chunks
    and the file object buffers them: the model records the state
    after [open] and the state after the copy, the two every run goes
    through.

    The text form of a tree ([lxml.etree.tostring]) and the parser
    ([objectify.parse]) are parameters of Section [command]: the
    theorems hold for any of them. *)

From S2P Require Import Prelude Registry Time Xml Fixtures Edit Codec.
Open Scope xit_scope.

Module Files.

(** The files of the machine and what has been printed. *)
Record world := mkWorld { files : gmap string string; stdout : string }.

(** The object [open_new_registry] returns. *)
Inductive handle :=
| Stdout
| TmpFile (contents : string).

(** [args.file]: [None] when the registry is read from standard input
    ([load_registry] then sets it to [sys.stdin]). *)
Definition open_new_registry (file : option string) : handle :=
  match file with None => Stdout | Some _ => TmpFile "" end.

(** [print >> f, msg]: the message and a newline. *)
Definition write_to_registry (w : world) (f : handle) (msg : string) : world * handle :=
  match f with
  | Stdout => (mkWorld (files w) (stdout w +:+ msg +:+ "
"), Stdout)
  | TmpFile c => (w, TmpFile (c +:+ msg +:+ "
"))
  end.

(** [sync_registry]: nothing for standard output; otherwise
    [open(args.file, "w")] empties the file, then [copyfileobj]
    writes the temporary file into it. *)
Definition sync_registry (file : option string) (outfile : handle) (w : world) : list world :=
  match outfile, file with
  | TmpFile c, Some path =>
      [mkWorld (<[path := ""]> (files w)) (stdout w);
       mkWorld (<[path := c]> (files w)) (stdout w)]
  | _, _ => []
  end.

(** [registry_from_string]: the worlds after [write_to_registry] and
    after each step of [sync_registry]. *)
Definition registry_from_string (file : option string) (s : string) (w : world) : list world :=
  let r := open_new_registry file in
  let '(w', r') := write_to_registry w r s in
  w' :: sync_registry file r' w'.

(** The last world of a run, [w] for a run that changed nothing. *)
Definition final (w : world) (trace : list world) : world := default w (last trace).

Section command.
(** [objectify.parse] on the text of a file and [lxml.etree.tostring]. *)
Variable parse : string → res ET.element.
Variable tostring : ET.element → string.

(** [load_registry]'s input: standard input, or the file [-f] names
    ([open] raises [IOError] when it does not exist). *)
Definition read_doc (w : world) (stdin : string) (file : option string) : res ET.element :=
  match file with
  | None => parse stdin
  | Some path => match files w !! path with Some c => parse c | None => Raise IOError end
  end.

(** An [edit] or [meta] command from its input to the worlds its
    write-back goes through. *)
Definition run_edit (now : struct_time) (w : world) (stdin : string) (file : option string)
    (regname : option string) (change : Reg.XITTestRegistry → res Reg.XITTestRegistry)
    : res (list world) :=
  doc ← read_doc w stdin file;
  out ← Codec.edit_file now doc regname change;
  Ok (registry_from_string file (tostring out) w).
(** A successful command wrote the tree of one registry. *)
Lemma run_edit_Ok now w stdin file regname change tr :
  run_edit now w stdin file regname change = Ok tr →
  ∃ out, List.length (ET.iterchildren (ET.xmlns_tag "registry") out) = 1 ∧
         tr = registry_from_string file (tostring out) w.
Proof.
  unfold run_edit. destruct (read_doc w stdin file); [|done]. cbn [mbind res_bind].
  destruct (Codec.edit_file _ _ _ _) as [out|] eqn:E; [|done]. intros [= <-].
  exists out. split; [|done].
  destruct (Codec.edit_file_toXML _ _ _ _ _ E) as (r & Hr).
  exact (Codec.toXML_one_registry r out Hr).
Qed.

(** C32: an [edit] or [meta] command on the file [-f] names goes
    through three states: the world it started from (the text goes to
    a temporary file), the registry file emptied by [open(args.file,
    "w")], and the file holding the text of one registry.  The
    replacement is not atomic: a run stopped after [open] leaves an
    empty registry file, which the specification (section 5) rules
    out. *)
Theorem run_edit_file_states now w stdin path regname change tr :
  run_edit now w stdin (Some path) regname change = Ok tr →
  ∃ out, List.length (ET.iterchildren (ET.xmlns_tag "registry") out) = 1 ∧
    tr = [w; mkWorld (<[path := ""]> (files w)) (stdout w);
          mkWorld (<[path := tostring out +:+ "
"]> (files w)) (stdout w)].
Proof.
  intros (out & Hone & ->)%run_edit_Ok. exists out. split; [done|].
  unfold registry_from_string. simpl. by rewrite string_app_nil_l.
Qed.

(** With the registry read from standard input, the command
    prints the text of one registry and its newline on standard
    output and leaves every file as it was. *)
Theorem run_edit_stdin now w stdin regname change tr :
  run_edit now w stdin None regname change = Ok tr →
  ∃ out, List.length (ET.iterchildren (ET.xmlns_tag "registry") out) = 1 ∧
    tr = [mkWorld (files w) (stdout w +:+ tostring out +:+ "
")] ∧
    files (final w tr) = files w.
Proof. intros (out & Hone & ->)%run_edit_Ok. exists out. by split_and!. Qed.
End command.

Section files_witnesses.

(** The command [xit.py -f registry.xml -r A edit S X add-bug URL] on a
    file holding the registries [A] and [B]. *)
Lemma run_edit_file_states_witness :
  match run_edit (λ _, Ok Codec.two_registries) (λ _, "<registries/>") Fixtures.date0
          (mkWorld {["registry.xml" := "<registries>A B</registries>"]} "") ""
          (Some "registry.xml") (Some "A")
          (λ r, Edit.add_bug r "S" "X" "https://bugs.freedesktop.org/1") with
  | Ok tr => tr !! 1%nat = Some (mkWorld {["registry.xml" := ""]} "") ∧ List.length tr = 3%nat
  | Raise _ => False
  end.
Proof.
  destruct (run_edit _ _ _ _ _ _ _ _) as [tr|e] eqn:E.
  - destruct (run_edit_file_states _ _ _ _ _ _ _ _ _ E) as (out & _ & ->).
    split; [vm_compute; reflexivity|done].
  - vm_compute in E. discriminate E.
Defined.

Lemma run_edit_stdin_witness :
  match run_edit (λ _, Ok Codec.two_registries) (λ _, "<registries/>") Fixtures.date0
          (mkWorld {["registry.xml" := "<registries>A B</registries>"]} "") "<registries>A B</registries>"
          None (Some "B")
          (λ r, Edit.add_bug r "S" "Z" "https://bugs.freedesktop.org/2") with
  | Ok tr => final (mkWorld {["registry.xml" := "<registries>A B</registries>"]} "") tr =
             mkWorld {["registry.xml" := "<registries>A B</registries>"]} "<registries/>
"
  | Raise _ => False
  end.
Proof.
  destruct (run_edit _ _ _ _ _ _ _ _) as [tr|e] eqn:E.
  - destruct (run_edit_stdin _ _ _ _ _ _ _ _ E) as (out & _ & -> & _). reflexivity.
  - vm_compute in E. discriminate E.
Defined.
End files_witnesses.
End Files.
