(* ===== verification/Cli.v ===== *)
(** * The command line: [run] (src/registry/xit.py, lines 1020-1027)
    on the arguments [parse_cmdline] (lines 885-971) describes

    [run] disables the colours when standard output is not a
    terminal, parses the arguments with [argparse] and calls the
    function the subcommand set as [func].  The parser is a library:
    the model takes the parsed [args] as a value of [args], one
    constructor per subcommand with the options it declares, and
    [run] as the dispatch to the command functions of Verify.v,
    Compare.v, Merge.v, Edit.v, Codec.v and Files.v, with the reading
    of the files they name.  A run returns the lines it prints, the
    messages [compare] logs for the registries it could not compare,
    and the worlds its write-back goes through.  The other messages
    of [logging] go to standard error and are not modelled. *)

From S2P Require Import Prelude Annotations TestCase ModuleVersion Registry Time Xml Fixtures Output Verify Compare Merge Edit Codec Files.
Open Scope xit_scope.

Module Cli.
Import Files.

(** ** The parsed arguments *)

(** The subcommands of [edit] (lines 926-955). *)
Inductive edit_action :=
| AddBug (url : string)
| RmBug (url : string)
| AddCommit (sha1 : string) (repo : option string)
| RmCommit (sha1 : string)
| AddRpm (rpm : string)
| RmRpm (rpm : string)
| SetStatus (status : string).

(** The subcommands of [meta] (lines 957-969). *)
Inductive meta_action :=
| SetDate (date : option string)
| SetModuleVersion (name version : string) (type : option string).

(** The subcommands (lines 894-955); [info]'s positional arguments
    and [create]'s options have [nargs=1], the model keeps their one
    element. *)
Inductive command :=
| ListCmd
| InfoCmd (testsuite testcase : string)
| VerifyCmd (results : string) (check_all : bool)
| CompareCmd (reg1 reg2 : string)
| CreateCmd (results : string) (name : option string) (auto_modversion : option string)
| MergeCmd (reg1 reg2 : string) (add : bool)
| EditCmd (testsuite testcase : string) (act : edit_action)
| MetaCmd (act : meta_action).

(** [args]: the global options [-f] and [-r] and the subcommand. *)
Record args := mkArgs { file : option string; regname : option string; action : command }.

(** What a run leaves behind. *)
Record outcome := mkOutcome {
  colors : bool;            (* false after [termcolors.disable()] *)
  printed : list line;
  logged : list string;
  written : list world
}.

(** ** Names of files *)

(** [os.path.basename(p)]: what follows the last ['/']. *)
Fixpoint basename_go (s acc : string) : string :=
  match s with
  | EmptyString => acc
  | String c s' => if Ascii.eqb c "/" then basename_go s' "" else basename_go s' (acc +:+ String c "")
  end.

Definition basename (p : string) : string := basename_go p "".

(** [s.split(".xml")[0]]: what precedes the first [".xml"]. *)
Fixpoint split_xml (s : string) : string :=
  match s with
  | EmptyString => ""
  | String c s' => if String.prefix ".xml" s then "" else String c (split_xml s')
  end.

(** ** Classes of commands and of names, for the statements below *)

(** The commands that only print: [list], [info], [verify], [compare],
    and [merge] without [--add] (which does nothing). *)
Definition read_only (c : command) : bool :=
  match c with
  | ListCmd | InfoCmd _ _ | VerifyCmd _ _ | CompareCmd _ _ => true
  | MergeCmd _ _ add => negb add
  | CreateCmd _ _ _ | EditCmd _ _ _ | MetaCmd _ => false
  end.

Fixpoint has_slash (s : string) : bool :=
  match s with EmptyString => false | String c s' => Ascii.eqb c "/" || has_slash s' end.

(** Whether [".xml"] occurs in [s]. *)
Fixpoint has_xml (s : string) : bool :=
  match s with EmptyString => false | String _ s' => String.prefix ".xml" s || has_xml s' end.

Section run.
(** The parser and printer of lxml, the shell, the time [localtime]
    returns, whether standard output is a terminal, and the text of
    standard input. *)
Variable parse : string → res ET.element.
Variable tostring : ET.element → string.
Variable sh : ModVer.shell.
Variable now : struct_time.
Variable isatty : bool.
Variable stdin : string.

(** [objectify.parse(path)]: [IOError] when the file does not exist. *)
Definition read_file (w : world) (path : string) : res ET.element :=
  match files w !! path with Some c => parse c | None => Raise IOError end.

(** [load_registry] (lines 973-978). *)
Definition load_registry (w : world) (a : args) : res Reg.XITTestRegistry :=
  doc ← read_doc parse w stdin (file a);
  registries ← Codec.fromXML now doc;
  Edit.load_registry_from_file registries (regname a).

(** [XITTestRegistry.fromXML(path)[0]]. *)
Definition first_registry (w : world) (path : string) : res Reg.XITTestRegistry :=
  doc ← read_file w path;
  registries ← Codec.fromXML now doc;
  match registries with r :: _ => Ok r | [] => Raise IndexError end.

(** The change an [edit] or [meta] subcommand makes. *)
Definition edit_change (testsuite testcase : string) (act : edit_action)
    : Reg.XITTestRegistry → res Reg.XITTestRegistry :=
  match act with
  | AddBug url => λ r, Edit.add_bug r testsuite testcase url
  | RmBug url => λ r, Edit.rm_bug r testsuite testcase url
  | AddCommit sha1 repo => λ r, Edit.add_commit r testsuite testcase sha1 repo
  | RmCommit sha1 => λ r, Edit.rm_commit r testsuite testcase sha1
  | AddRpm rpm => λ r, Edit.add_rpm r testsuite testcase rpm
  | RmRpm rpm => λ r, Edit.rm_rpm r testsuite testcase rpm
  | SetStatus status => λ r, Edit.set_status r testsuite testcase status
  end.

Definition meta_change (act : meta_action) : Reg.XITTestRegistry → res Reg.XITTestRegistry :=
  match act with
  | SetDate date => λ r, Edit.set_date r date now
  | SetModuleVersion name version type => λ r, Ok (Edit.set_modversion r name version type)
  end.

(** ** The commands, each on the world [w] and the arguments [a]

    A command returns the lines it prints, the messages it logs and
    the worlds its write-back goes through. *)
(** [list_tests] (lines 550-557) and [show_test_info] (lines 559-564)
    on the registry [load_registry] reads. *)
Definition list_tests_cmd (w : world) (a : args) : res (list line * list string * list world) :=
  registry ← load_registry w a;
  Ok (Verify.list_tests registry, [], []).

Definition show_test_info_cmd (w : world) (a : args) (testsuite testcase : string) : res (list line * list string * list world) :=
  registry ← load_registry w a;
  lines ← Verify.show_test_info registry testsuite testcase;
  Ok (lines, [], []).

(** [verify_results] (lines 601-604): the registry, then the results. *)
Definition verify_results_cmd (w : world) (a : args) (results : string) (check_all : bool)
    : res (list line * list string * list world) :=
  registry ← load_registry w a;
  doc ← read_file w results;
  results ← Codec.JUnit_fromXML doc;
  lines ← Verify.verify_results sh registry results check_all;
  Ok (lines, [], []).

(** [compare_registries] (lines 672-708): the messages logged are
    the ["Failed to compare '%s'"] of line 707. *)
Definition compare_registries_cmd (w : world) (a : args) (reg1 reg2 : string) : res (list line * list string * list world) :=
  doc1 ← read_file w reg1;
  regs1 ← Codec.fromXML now doc1;
  doc2 ← read_file w reg2;
  regs2 ← Codec.fromXML now doc2;
  cmp ← Compare.compare_registries regs1 regs2 (regname a);
  Ok (cmp.1, map (λ f, "Failed to compare '" +:+ f +:+ "'") cmp.2, []).

(** The name [create] gives the registry without [--name] (line 745). *)
Definition default_reg_name (results : string) : string := split_xml (basename results).

(** [create_registry] (lines 732-761). *)
Definition create_registry_cmd (w : world) (a : args) (results : string)
    (name auto_modversion : option string) : res (list line * list string * list world) :=
  doc ← read_file w results;
  results_list ← Codec.JUnit_fromXML doc;
  let reg_name := match name with Some n => n | None => default_reg_name results end in
  let auto_rpm := match auto_modversion with Some t => String.eqb t "rpm" | None => false end in
  registry ← Merge.create_registry sh now reg_name auto_rpm results_list;
  out ← Codec.toXML registry;
  Ok ([], [], registry_from_string (file a) (tostring out) w).

(** [merge_registries] and [merge_add_registries] (lines 763-779). *)
Definition merge_registries_cmd (w : world) (a : args) (reg1 reg2 : string) (add : bool)
    : res (list line * list string * list world) :=
  if add then
    r1 ← first_registry w reg1;
    r2 ← first_registry w reg2;
    r1 ← Merge.merge_add_registries r1 r2;
    out ← Codec.toXML r1;
    Ok ([], [], registry_from_string (file a) (tostring out) w)
  else Ok ([], [], []).

(** The commands of [edit] and [meta] (lines 781-883). *)
Definition edit_cmd (w : world) (a : args) (change : Reg.XITTestRegistry → res Reg.XITTestRegistry)
    : res (list line * list string * list world) :=
  trace ← run_edit parse tostring now w stdin (file a) (regname a) change;
  Ok ([], [], trace).

(** [args.func(args)]: the function the subcommand chose. *)
Definition dispatch (w : world) (a : args) : res (list line * list string * list world) :=
  match action a with
  | ListCmd => list_tests_cmd w a
  | InfoCmd testsuite testcase => show_test_info_cmd w a testsuite testcase
  | VerifyCmd results check_all => verify_results_cmd w a results check_all
  | CompareCmd reg1 reg2 => compare_registries_cmd w a reg1 reg2
  | CreateCmd results name auto_modversion => create_registry_cmd w a results name auto_modversion
  | MergeCmd reg1 reg2 add => merge_registries_cmd w a reg1 reg2 add
  | EditCmd testsuite testcase act => edit_cmd w a (edit_change testsuite testcase act)
  | MetaCmd act => edit_cmd w a (meta_change act)
  end.

(** [run] (lines 1020-1027). *)
Definition run (w : world) (a : args) : res outcome :=
  r ← dispatch w a;
  Ok (mkOutcome isatty r.1.1 r.1.2 r.2).
End run.

Section cli_facts.
Context (parse : string → res ET.element) (tostring : ET.element → string)
  (sh : ModVer.shell) (now : struct_time) (isatty : bool) (stdin : string).

(** What a command wrote: nothing for a command that only prints, the
    write-back of the text of one registry for the others. *)
Lemma dispatch_writes w a r :
  dispatch parse tostring sh now stdin w a = Ok r →
  (read_only (action a) = true ∧ r.2 = []) ∨
  (read_only (action a) = false ∧
   ∃ out, List.length (ET.iterchildren (ET.xmlns_tag "registry") out) = 1 ∧
          r.2 = registry_from_string (file a) (tostring out) w).
Proof.
  unfold dispatch. destruct (action a) as [| | | | |reg1 reg2 []| |]; simpl;
    unfold list_tests_cmd, show_test_info_cmd, verify_results_cmd, compare_registries_cmd,
      create_registry_cmd, merge_registries_cmd, edit_cmd;
    intros H; res_inv; simpl; auto.
  1,2: right; split; [done|]; eexists; split; [by eapply Codec.toXML_one_registry|done].
  all: right; split; [done|]; by eapply run_edit_Ok.
Qed.

(** The worlds of a write-back differ from the first one at most at
    the file [-f] names. *)
Lemma registry_from_string_other file s w w' p :
  w' ∈ registry_from_string file s w → file ≠ Some p → files w' !! p = files w !! p.
Proof.
  unfold registry_from_string. destruct file as [path|]; simpl; intros Hin Hp.
  - rewrite !elem_of_cons, elem_of_nil in Hin.
    destruct Hin as [->|[->|[->|[]]]]; simpl; [done| |]; apply lookup_insert_ne; congruence.
  - rewrite elem_of_cons, elem_of_nil in Hin. by destruct Hin as [->|[]].
Qed.

(** The last world of a write-back. *)
Lemma registry_from_string_final file s w :
  match file with
  | Some path => files (final w (registry_from_string file s w)) !! path = Some (s +:+ "
")
  | None => files (final w (registry_from_string file s w)) = files w ∧
            stdout (final w (registry_from_string file s w)) = stdout w +:+ s +:+ "
"
  end.
Proof.
  destruct file as [path|]; simpl; [|done].
  by rewrite lookup_insert_eq, string_app_nil_l.
Qed.

Lemma registry_from_string_nonempty file s w : registry_from_string file s w ≠ [].
Proof. unfold registry_from_string. case_match. discriminate. Qed.

(** C33: a run changes no file but the one [-f] names, at any of the
    states it goes through; without [-f] it changes no file at all.
    The other files a command names ([verify]'s and [create]'s
    results, [compare]'s and [merge]'s registries) are therefore left
    as they were, unless [-f] names the same file (as in [-f a.xml
    merge a.xml b.xml], which rewrites [a.xml]). *)
Theorem run_changes_only_file w a o :
  run parse tostring sh now isatty stdin w a = Ok o →
  ∀ w', w' ∈ written o → ∀ p, file a ≠ Some p → files w' !! p = files w !! p.
Proof.
  unfold run. intros H. res_inv. simpl. intros w1 Hw1 p Hp.
  destruct (dispatch_writes _ _ _ E) as [[_ Htr]|(_ & out & _ & Htr)]; rewrite Htr in Hw1.
  - by apply elem_of_nil in Hw1.
  - by eapply registry_from_string_other.
Qed.

(** C34: a run of [list], [info], [verify], [compare] or [merge]
    without [--add] writes nothing; a run of [create], [merge --add],
    [edit] or [meta] ends with the text of exactly one registry and a
    newline in the file [-f] names, or, without [-f], on standard
    output with every file as it was. *)
Theorem run_writes_one_registry w a o :
  run parse tostring sh now isatty stdin w a = Ok o →
  (read_only (action a) = true ∧ written o = []) ∨
  (read_only (action a) = false ∧ written o ≠ [] ∧
   ∃ out, List.length (ET.iterchildren (ET.xmlns_tag "registry") out) = 1 ∧
     match file a with
     | Some path => files (final w (written o)) !! path = Some (tostring out +:+ "
")
     | None => files (final w (written o)) = files w ∧
               stdout (final w (written o)) = stdout w +:+ tostring out +:+ "
"
     end).
Proof.
  unfold run. intros H. res_inv. simpl.
  destruct (dispatch_writes _ _ _ E) as [?|(? & out & Hone & ->)]; [by left|right].
  split_and!; [done|apply registry_from_string_nonempty|].
  exists out. split; [done|apply registry_from_string_final].
Qed.

(** C35: a registry file without any registry makes [merge] raise
    [IndexError] ([fromXML(args.reg1)[0]] on an empty list), where
    the commands that go through [load_registry] exit with status 1
    after logging "Failed to parse input file.". *)
Theorem merge_empty_registry_raises w path c doc reg2 rn :
  files w !! path = Some c → parse c = Ok doc →
  ET.iterchildren (ET.xmlns_tag "registry") doc = [] →
  run parse tostring sh now isatty stdin w (mkArgs (Some path) rn (MergeCmd path reg2 true)) =
    Raise IndexError ∧
  run parse tostring sh now isatty stdin w (mkArgs (Some path) rn ListCmd) =
    Raise (SystemExit 1).
Proof.
  intros Hc Hdoc Hnone.
  assert (Codec.fromXML now doc = Ok []) as Hregs by (unfold Codec.fromXML; by rewrite Hnone).
  unfold run, dispatch; simpl.
  unfold merge_registries_cmd, first_registry, list_tests_cmd, load_registry, read_file, read_doc;
    simpl. rewrite Hc. simpl. by rewrite Hdoc; simpl; rewrite Hregs.
Qed.

(** ** The default name of a created registry *)

Lemma basename_go_app s t acc : basename_go (s +:+ t) acc = basename_go t (basename_go s acc).
Proof.
  revert acc. induction s as [|c s IH]; intros acc; [done|].
  rewrite string_app_cons. simpl. by case_match.
Qed.

Lemma basename_go_no_slash t acc : has_slash t = false → basename_go t acc = acc +:+ t.
Proof.
  revert acc. induction t as [|c t IH]; intros acc; simpl; [by rewrite string_app_nil_r|].
  intros [-> Ht]%orb_false_iff. by rewrite IH, <-string_app_assoc.
Qed.

Lemma has_slash_app s t : has_slash (s +:+ t) = has_slash s || has_slash t.
Proof. induction s as [|c s IH]; [done|]. rewrite string_app_cons. cbn [has_slash]. by rewrite IH, orb_assoc. Qed.

(** [".xml"] does not start inside a word without it and run over
    into the [".xml"] that follows. *)
Lemma prefix_xml_app c s r :
  String.prefix ".xml" (String c s) = false →
  String.prefix ".xml" (String c (s +:+ ".xml" +:+ r)) = false.
Proof.
  destruct s as [|c1 [|c2 [|c3 [|c4 s]]]]; rewrite ?string_app_cons, ?string_app_nil_l;
    cbn [String.prefix]; intros Hp; [..|exact Hp|exact Hp]; repeat case_match; simplify_eq; done.
Qed.

Lemma split_xml_app stem r : has_xml stem = false → split_xml (stem +:+ ".xml" +:+ r) = stem.
Proof.
  induction stem as [|c stem IH]; [rewrite string_app_nil_l, !string_app_cons; by destruct r|].
  cbn [has_xml]. intros [Hp Hs]%orb_false_iff. rewrite string_app_cons. cbn [split_xml].
  by rewrite prefix_xml_app, IH.
Qed.

(** Without [--name], [create] names the registry after the
    results file: the part of its base name before the first
    [".xml"] ([os.path.basename(args.results).split(".xml")[0]]), for
    a file in any directory and with anything after [".xml"]. *)
Theorem default_reg_name_stem dir stem rest :
  basename dir = "" → has_slash stem = false → has_slash rest = false →
  has_xml stem = false →
  default_reg_name (dir +:+ stem +:+ ".xml" +:+ rest) = stem.
Proof.
  intros Hdir Hs Hr Hx. unfold default_reg_name, basename in *.
  rewrite basename_go_app, Hdir, basename_go_no_slash, string_app_nil_l.
  - by apply split_xml_app.
  - by rewrite !has_slash_app, Hs, Hr.

Qed.
End cli_facts.

Section cli_witnesses.
(** The runs below read every file as the two registries [A] and [B]
    of Codec.v, print every tree as [<registries/>], and run on
    31 December 2012 with standard output not a terminal. *)
Let parse2 : string → res ET.element := λ _, Ok Codec.two_registries.
Let print0 : ET.element → string := λ _, "<registries/>".
Let run2 := run parse2 print0 Fixtures.sh_ok Fixtures.date0 false "".

(** [xit.py -f registry.xml -r A edit S X add-bug URL] leaves
    [other.xml] alone at every step. *)
Lemma run_changes_only_file_witness :
  match run2 (mkWorld {[ "registry.xml" := "A B"; "other.xml" := "C" ]} "")
          (mkArgs (Some "registry.xml") (Some "A") (EditCmd "S" "X" (AddBug "https://bugs.freedesktop.org/1"))) with
  | Ok o => Forall (λ w', files w' !! "other.xml" = Some "C") (written o) ∧ List.length (written o) = 3%nat
  | Raise _ => False
  end.
Proof.
  unfold run2. destruct (run _ _ _ _ _ _ _ _) as [o|e] eqn:E.
  - split; [|by vm_compute in E; simplify_eq].
    apply Forall_forall. intros w' Hw'.
    rewrite (run_changes_only_file _ _ _ _ _ _ _ _ _ E w' Hw' "other.xml"); [reflexivity|discriminate].
  - vm_compute in E. discriminate E.
Defined.

(** [xit.py -f merged.xml merge merged.xml other.xml] writes one
    registry into [merged.xml]. *)
Lemma run_writes_one_registry_witness :
  match run2 (mkWorld {[ "merged.xml" := "A B"; "other.xml" := "A B" ]} "")
          (mkArgs (Some "merged.xml") None (MergeCmd "merged.xml" "other.xml" true)) with
  | Ok o => files (final (mkWorld {[ "merged.xml" := "A B"; "other.xml" := "A B" ]} "") (written o))
              !! "merged.xml" = Some ("<registries/>" +:+ "
")
  | Raise _ => False
  end.
Proof.
  unfold run2. destruct (run _ _ _ _ _ _ _ _) as [o|e] eqn:E.
  - destruct (run_writes_one_registry _ _ _ _ _ _ _ _ _ E) as [[H _]|(_ & _ & out & _ & Hf)];
      [discriminate H|exact Hf].
  - vm_compute in E. discriminate E.
Defined.

(** [merge] and [list] on a file that holds no registry. *)
Lemma merge_empty_registry_raises_witness :
  let empty := ET.Element (ET.xmlns_tag "registries") ∅ None [] in
  let w := mkWorld {[ "empty.xml" := "<registries/>" ]} "" in
  run (λ _, Ok empty) print0 Fixtures.sh_ok Fixtures.date0 false "" w
    (mkArgs (Some "empty.xml") None (MergeCmd "empty.xml" "other.xml" true)) = Raise IndexError ∧
  run (λ _, Ok empty) print0 Fixtures.sh_ok Fixtures.date0 false "" w
    (mkArgs (Some "empty.xml") None ListCmd) = Raise (SystemExit 1).
Proof.
  intros empty w.
  apply (merge_empty_registry_raises _ _ _ _ _ _ w "empty.xml" "<registries/>" empty "other.xml" None);
    vm_compute; reflexivity.
Defined.

(** [xit.py create results/xorg.run1.xml.bak] names the registry
    [xorg.run1]. *)
Lemma default_reg_name_stem_witness :
  default_reg_name ("results/" +:+ "xorg.run1" +:+ ".xml" +:+ ".bak") = "xorg.run1".
Proof. apply default_reg_name_stem; vm_compute; reflexivity. Defined.
End cli_witnesses.

End Cli.
