(* ===== verification/Workflow.v ===== *)
(** * Commands used together: a registry created from a run, then the
    run verified against it

    The usage notes at the top of src/registry/xit.py (lines 15-22)
    describe the intended workflow: [create] a registry from the
    results of a run, then [verify] later runs against it.  This file
    composes the two command models, [Merge.create_registry] (lines
    732-761) and [Verify.verify_results] (lines 601-620), and shows
    what the workflow promises: the run the registry was made from
    verifies with every test as expected ([++] for a pass, [--] for a
    failure), in key order, with no [XX] and no [??] row. *)

From S2P Require Import Prelude TestCase ModuleVersion Registry Output Comparison Verify Merge Fixtures.
Open Scope xit_scope.

Section workflow.
Import Verify Merge.

(** The test [create] makes of a result expects the result's status,
    so [verify] puts the pair in a [BothAgree] row. *)
Lemma verify_one_result_created (x : JUnit.JUnitTestResult) f :
  verify_one_result (Some (Test.mkXITTest (JUnit.suite x) (JUnit.name x) (JUnit.status x) [] [] []))
    (Some x) f =
  Ok (verify_row f (BothAgree (Test.mkXITTest (JUnit.suite x) (JUnit.name x) (JUnit.status x) [] [] []) x)).
Proof.
  rewrite verify_one_result_event. unfold both_event, status_agree. simpl.
  by rewrite String.eqb_refl.
Qed.

(** C5: a run with one result per (suite, name), verified against
    the registry [create] made from it, prints the two header lines
    and then one row per result, in key order, each the [BothAgree]
    row of the result and the test made from it: the marker is [++]
    for a pass and [--] for a failure, never [XX] or [??]. *)
Theorem create_then_verify sh now nm (results : list JUnit.JUnitTestResult) r :
  NoDup (test_key <$> results) → results ≠ [] →
  create_registry sh now nm false results = Ok r →
  ∃ sl tl, verify_results sh r results false =
    Ok (verify_header (FmtVerify (sl + 1) (tl + 1)) ++
        ((λ x, verify_row (FmtVerify (sl + 1) (tl + 1))
                 (BothAgree (Test.mkXITTest (JUnit.suite x) (JUnit.name x) (JUnit.status x) [] [] []) x))
           <$> py_sorted XITTestCase_cmp results)).
Proof.
  intros Hnd Hne Hc. rewrite create_registry_pure in Hc. injection Hc as <-.
  destruct results as [|x0 l]; [done|].
  unfold verify_results. cbn [fmap list_fmap py_max mbind res_bind].
  erewrite (mapM_Ok _ (λ x, verify_row (FmtVerify _ _)
             (BothAgree (Test.mkXITTest (JUnit.suite x) (JUnit.name x) (JUnit.status x) [] [] []) x)));
    [by eexists _, _|].
  intros x Hx. assert (x ∈ x0 :: l) as Hin
    by (eapply (py_sorted_elem_of (K:=string * string) test_key); exact Hx).
  erewrite (proj2 (create_getTest now nm _ (JUnit.suite x) (JUnit.name x) _ Hnd));
    [apply verify_one_result_created|].
  by exists x.
Qed.
End workflow.

Section workflow_witnesses.
Import Verify Merge Fixtures.

(** The run of scenarios 1 and 2, verified against the registry made
    from it. *)
Lemma create_then_verify_witness :
  (NoDup (test_key <$> run_verify) ∧ run_verify ≠ []) ∧
  match create_registry sh_ok date0 "run" false run_verify with
  | Ok r => ∃ sl tl, verify_results sh_ok r run_verify false =
      Ok (verify_header (FmtVerify (sl + 1) (tl + 1)) ++
          ((λ x, verify_row (FmtVerify (sl + 1) (tl + 1))
                   (BothAgree (Test.mkXITTest (JUnit.suite x) (JUnit.name x) (JUnit.status x) [] [] []) x))
             <$> py_sorted XITTestCase_cmp run_verify))
  | Raise _ => False
  end.
Proof.
  assert (NoDup (test_key <$> run_verify)) as Hnd by (vm_compute; repeat constructor; set_solver).
  assert (run_verify ≠ []) as Hne by discriminate.
  split; [done|]. destruct (create_registry _ _ _ _ _) as [r|e] eqn:E.
  - exact (create_then_verify _ _ _ _ _ Hnd Hne E).
  - vm_compute in E. discriminate E.
Defined.
End workflow_witnesses.
